(** * EarP: a voice-channel auto-moderation bot (src/index.js)

    The bot follows one designated member (AUTHORIZED_USER_ID) across voice
    channels, decodes that member's audio, estimates the loudness of every
    decoded frame and server-mutes the member when the estimate exceeds
    DECIBEL_THRESHOLD, at most once per MUTE_COOLDOWN milliseconds.

    The development is a shallow embedding of src/index.js:
    - JavaScript numbers that hold the loudness are exact reals extended with
      the IEEE special values (module [JS]); rounding is not modelled;
    - the three module-level variables [activeStreams], [lastMuteTime] and
      [isMonitoring] are fields of a record [World], which also carries what
      the handlers read from the voice library ([getVoiceConnection]) and the
      closures that [processAudio] creates;
    - every function and event handler is a computation in a state and
      trace monad: the trace lists the calls made on the outside world
      (console, streams, connections, the mute request, replies), each one
      together with the program state at the moment of the call. *)

From Stdlib Require Import Reals Lra ZArith String Ascii List.
From stdpp Require Import gmap strings list fin_maps.

Local Open Scope Z_scope.

(** ** JavaScript numbers *)

Module JS.

(** A number is a real, one of the two infinities, or NaN. Signed zeros
    and rounding are left out. *)
Inductive number : Type :=
| Fin (r : R)
| PosInf
| NegInf
| NaN.

Definition of_int (z : Z) : number := Fin (IZR z).

Definition is_finite (x : number) : Prop :=
  match x with Fin _ => True | _ => False end.

(** [x + y] *)
Definition add (x y : number) : number :=
  match x, y with
  | NaN, _ | _, NaN => NaN
  | Fin a, Fin b => Fin (a + b)
  | PosInf, NegInf | NegInf, PosInf => NaN
  | PosInf, _ | _, PosInf => PosInf
  | NegInf, _ | _, NegInf => NegInf
  end.

(** The sign of a real: [Lt], [Eq] or [Gt] as it compares with zero. *)
Definition sgn (r : R) : comparison :=
  if Rlt_dec r 0 then Lt else if Rlt_dec 0 r then Gt else Eq.

Definition inf_of (c : comparison) : number :=
  match c with Lt => NegInf | Gt => PosInf | Eq => NaN end.

Definition flip (c : comparison) : comparison := CompOpp c.

Definition sign_of (x : number) : option comparison :=
  match x with
  | Fin r => Some (sgn r)
  | PosInf => Some Gt
  | NegInf => Some Lt
  | NaN => None
  end.

Definition sign_mul (a b : comparison) : comparison :=
  match a, b with
  | Eq, _ | _, Eq => Eq
  | Gt, c => c
  | Lt, c => flip c
  end.

(** [x * y]: an infinity times zero is NaN. *)
Definition mul (x y : number) : number :=
  match x, y with
  | NaN, _ | _, NaN => NaN
  | Fin a, Fin b => Fin (a * b)
  | _, _ =>
      match sign_of x, sign_of y with
      | Some a, Some b => inf_of (sign_mul a b)
      | _, _ => NaN
      end
  end.

(** [x / y]: a finite non-zero number over zero is an infinity, and zero
    over zero is NaN; nothing is thrown. *)
Definition div (x y : number) : number :=
  match x, y with
  | NaN, _ | _, NaN => NaN
  | Fin a, Fin b =>
      match sgn b with
      | Eq => inf_of (sgn a)
      | _ => Fin (a / b)
      end
  | Fin _, _ => Fin 0
  | _, Fin b =>
      match sign_of x with
      | Some a => inf_of (sign_mul a (match sgn b with Eq => Gt | c => c end))
      | None => NaN
      end
  | _, _ => NaN
  end.

(** [Math.log10 x] *)
Definition log10 (x : number) : number :=
  match x with
  | Fin r =>
      match sgn r with
      | Lt => NaN
      | Eq => NegInf
      | Gt => Fin (ln r / ln 10)
      end
  | PosInf => PosInf
  | NegInf | NaN => NaN
  end.

(** [x > y]: false as soon as one side is NaN. *)
Definition gt (x y : number) : bool :=
  match x, y with
  | NaN, _ | _, NaN => false
  | Fin a, Fin b => if Rlt_dec b a then true else false
  | PosInf, PosInf | NegInf, _ => false
  | PosInf, _ => true
  | Fin _, NegInf => true
  | Fin _, PosInf => false
  end.

End JS.

(** ** The loudness estimator *)

(** [DECIBEL_THRESHOLD = 42.9] and [MUTE_COOLDOWN = 5000]. *)
Definition DECIBEL_THRESHOLD : JS.number := JS.Fin (429 / 10).
Definition MUTE_COOLDOWN : Z := 5000.

(** [calculateVolume(data)]: the loop adds [Math.abs(data[i])] to [sum] from
    the left, then [avg = sum / data.length] and the result is
    [20 * Math.log10(avg + 1)]. The elements of [data] are integers (the
    decoder hands over a buffer of integer samples). *)
Definition calculateVolume (data : list Z) : JS.number :=
  let sum := fold_left (fun sum x => JS.add sum (JS.of_int (Z.abs x))) data (JS.Fin 0) in
  let avg := JS.div sum (JS.of_int (Z.of_nat (length data))) in
  JS.mul (JS.Fin 20) (JS.log10 (JS.add avg (JS.Fin 1))).

(** The formula of the specification, on the reals:
    [20 * log10 (mean |sample_i| + 1)]. *)
Definition sum_abs (data : list Z) : R :=
  fold_right (fun x acc => (Rabs (IZR x) + acc)%R) 0%R data.

Definition mean_abs (data : list Z) : R :=
  (sum_abs data / INR (length data))%R.

Definition loudness_formula (data : list Z) : R :=
  (20 * (ln (mean_abs data + 1) / ln 10))%R.

(** A test on integers for "the loudness exceeds the threshold": with [s]
    the sum of the magnitudes and [n] the number of samples,
    [20 * log10 (s / n + 1) > 42.9] exactly when
    [(s + n) ^ 200 > 10 ^ 429 * n ^ 200]. *)
Definition sum_abs_Z (data : list Z) : Z :=
  fold_right (fun x acc => Z.abs x + acc) 0 data.

Definition loud_test (data : list Z) : bool :=
  let s := sum_abs_Z data in
  let n := Z.of_nat (length data) in
  (0 <? n) && (10 ^ 429 * n ^ 200 <? (s + n) ^ 200).

(** ** Platform objects *)

Local Open Scope string_scope.
Local Open Scope list_scope.

(** Identifiers of members, guilds and channels are strings. *)
Abbreviation UserId := string (only parsing).
Abbreviation GuildId := string (only parsing).
Abbreviation ChannelId := string (only parsing).

(** A stream handle names the audio stream that [receiver.subscribe] returns. *)
Abbreviation Handle := nat (only parsing).

Record Channel : Type := {
  channel_id : ChannelId;
  channel_name : string;
}.

(** A guild member as the handlers read it: [member.id],
    [member.displayName], [member.voice.serverMute] and
    [member.voice.channel]. *)
Record Member : Type := {
  member_id : UserId;
  displayName : string;
  serverMute : bool;
  voice_channel : option Channel;
}.

(** A guild: [guild.id], [guild.name], [guild.members.cache] (a collection
    keyed by member id), and whether [joinVoiceChannel] throws for it. *)
Record Guild : Type := {
  guild_id : GuildId;
  guild_name : string;
  members_cache : list Member;
  join_throws : bool;
}.

(** [guild.members.cache.get(userId)] *)
Definition cache_get (guild : Guild) (userId : UserId) : option Member :=
  find (fun m => bool_decide (member_id m = userId)) (members_cache guild).

(** [connection.receiver]: [subscribe] gives the audio stream of a member. *)
Record Receiver : Type := {
  subscribe : UserId -> Handle;
}.

(** A voice connection, by its [joinConfig]. *)
Record Connection : Type := {
  conn_guildId : GuildId;
  conn_channelId : ChannelId;
}.

(** The closure that one call of [processAudio] creates: [user],
    [audioStream] and the counter [volumeSampleCount]. *)
Record Session : Type := {
  s_user : Member;
  s_audioStream : Handle;
  volumeSampleCount : nat;
}.

(** ** Program state *)

Record World : Type := {
  (** [const activeStreams = new Map()] *)
  activeStreams : gmap UserId Handle;
  (** [let lastMuteTime = 0] *)
  lastMuteTime : Z;
  (** [let isMonitoring = false] *)
  isMonitoring : bool;
  (** what [getVoiceConnection(guildId)] answers: the channel joined *)
  voiceConnections : gmap GuildId ChannelId;
  (** the closures made by [processAudio], in creation order *)
  sessions : list Session;
}.

Definition initial_world : World := {|
  activeStreams := ∅;
  lastMuteTime := 0;
  isMonitoring := false;
  voiceConnections := ∅;
  sessions := [];
|}.

(** ** Calls on the outside world *)

Inductive Effect : Type :=
| ConsoleLog (msg : string)
| ConsoleError (msg : string)
| LogVolume (who : string) (volume : JS.number)
| LogAlert (who : string) (volume : JS.number)
| SubscribeAudio (userId : UserId) (stream : Handle)
| PipeToDecoder (stream : Handle)
| StreamDestroy (stream : Handle)
| SetMute (userId : UserId) (mute : bool) (reason : string)
| JoinVoiceChannel (guildId : GuildId) (channelId : ChannelId)
| ConnectionDestroy (guildId : GuildId)
| Reply (msg : string)
| ReplyStatus (monitoring : bool) (connection : option ChannelId)
              (targetInVoice : bool) (streams : nat)
| ClientDestroy
| ProcessExit (code : Z).

(** One entry of the trace: the call and the state in which it was made. *)
Record Obs : Type := {
  eff : Effect;
  seen : World;
}.

(** ** The handler monad: state passing with a trace *)

Definition Handler (A : Type) : Type := World -> A * World * list Obs.

Definition ret {A : Type} (a : A) : Handler A :=
  fun w => (a, w, []).

Definition bind {A B : Type} (m : Handler A) (k : A -> Handler B) : Handler B :=
  fun w =>
    let '(a, w1, t1) := m w in
    let '(b, w2, t2) := k a w1 in
    (b, w2, t1 ++ t2).

Declare Scope handler_scope.
Delimit Scope handler_scope with handler.
Notation "x <- m ;; k" := (bind m (fun x => k))
  (at level 100, m at next level, right associativity) : handler_scope.
Notation "m ;; k" := (bind m (fun _ => k))
  (at level 100, right associativity) : handler_scope.
Local Open Scope handler_scope.

Definition gets {A : Type} (f : World -> A) : Handler A :=
  fun w => (f w, w, []).

Definition emit (e : Effect) : Handler unit :=
  fun w => (tt, w, [{| eff := e; seen := w |}]).

Definition set_activeStreams (m : gmap UserId Handle) : Handler unit :=
  fun w => (tt, {| activeStreams := m; lastMuteTime := lastMuteTime w;
                   isMonitoring := isMonitoring w;
                   voiceConnections := voiceConnections w;
                   sessions := sessions w |}, []).

Definition set_lastMuteTime (t : Z) : Handler unit :=
  fun w => (tt, {| activeStreams := activeStreams w; lastMuteTime := t;
                   isMonitoring := isMonitoring w;
                   voiceConnections := voiceConnections w;
                   sessions := sessions w |}, []).

Definition set_isMonitoring (b : bool) : Handler unit :=
  fun w => (tt, {| activeStreams := activeStreams w; lastMuteTime := lastMuteTime w;
                   isMonitoring := b;
                   voiceConnections := voiceConnections w;
                   sessions := sessions w |}, []).

Definition set_voiceConnections (m : gmap GuildId ChannelId) : Handler unit :=
  fun w => (tt, {| activeStreams := activeStreams w; lastMuteTime := lastMuteTime w;
                   isMonitoring := isMonitoring w;
                   voiceConnections := m;
                   sessions := sessions w |}, []).

Definition set_sessions (l : list Session) : Handler unit :=
  fun w => (tt, {| activeStreams := activeStreams w; lastMuteTime := lastMuteTime w;
                   isMonitoring := isMonitoring w;
                   voiceConnections := voiceConnections w;
                   sessions := l |}, []).

(** Run [f] on every element of a list, in order. *)
Fixpoint for_each {A : Type} (f : A -> Handler unit) (l : list A) : Handler unit :=
  match l with
  | [] => ret tt
  | x :: l' => f x ;; for_each f l'
  end.

(** The final state and the trace of a handler. *)
Definition exec {A : Type} (m : Handler A) (w : World) : World := snd (fst (m w)).
Definition trace_of {A : Type} (m : Handler A) (w : World) : list Obs := snd (m w).
Definition result_of {A : Type} (m : Handler A) (w : World) : A := fst (fst (m w)).

(** ** Strings: [String.prototype.toLowerCase] on the ASCII letters *)

Definition lower_ascii (c : ascii) : ascii :=
  let n := nat_of_ascii c in
  if ((65 <=? n)%nat && (n <=? 90)%nat)%bool then ascii_of_nat (n + 32) else c.

Fixpoint toLowerCase (s : string) : string :=
  match s with
  | EmptyString => EmptyString
  | String c s' => String (lower_ascii c) (toLowerCase s')
  end.

(** ** Events of the platform, as the handlers receive them *)

(** [oldState] and [newState] of a [voiceStateUpdate]: [state.member.id],
    [state.member.displayName], [state.channel] (with [state.channelId]
    null exactly when there is no channel) and [state.guild]. *)
Record VoiceState : Type := {
  vs_member_id : UserId;
  vs_displayName : string;
  vs_channel : option Channel;
  vs_guild : Guild;
}.

(** A chat message: [message.author.bot], [message.content],
    [message.member.voice.channel] (none also when [message.member] is
    null), [message.guild], and whether the awaited [setMute(false)] of the
    unmute command rejects. *)
Record Message : Type := {
  author_bot : bool;
  content : string;
  msg_voice_channel : option Channel;
  msg_guild : Guild;
  unmute_rejects : bool;
}.

(** One guild visited by the [ready] handler: the guild and whether
    [guild.members.fetch()] rejects. *)
Record StartupGuild : Type := {
  sg_guild : Guild;
  sg_fetch_rejects : bool;
}.

Section Bot.

(** [const AUTHORIZED_USER_ID = process.env.AUTHORIZED_USER_ID] *)
Variable AUTHORIZED_USER_ID : UserId.

(** *** [stopAllMonitoring]

    [activeStreams.forEach] visits the entries in insertion order and
    [map_to_list] lists them in key order. The two orders agree on a
    registry of at most one entry, which is all the program ever reaches
    (lemma [reachable_registry]); [releases] counts calls and does not
    depend on the order. *)
Definition stopAllMonitoring : Handler unit :=
  emit (ConsoleLog "[MONITOR] Stopping all audio monitoring") ;;
  set_isMonitoring false ;;
  streams <- gets activeStreams ;;
  for_each (fun '(userId, stream) => emit (StreamDestroy stream))
           (map_to_list streams) ;;
  set_activeStreams ∅.

(** *** [processAudio]: start a session *)
Definition processAudio (receiver : Receiver) (user : Member) : Handler unit :=
  monitoring <- gets isMonitoring ;;
  if negb monitoring then
    emit (ConsoleLog "[MONITOR] Monitoring is disabled, not processing audio")
  else
    emit (ConsoleLog "[MONITOR] Starting to process audio for specific user") ;;
    streams <- gets activeStreams ;;
    if bool_decide (is_Some (streams !! member_id user)) then
      emit (ConsoleLog "[MONITOR] Already monitoring user, skipping duplicate")
    else
      let audioStream := subscribe receiver (member_id user) in
      emit (SubscribeAudio (member_id user) audioStream) ;;
      set_activeStreams (<[member_id user := audioStream]> streams) ;;
      emit (PipeToDecoder audioStream) ;;
      closures <- gets sessions ;;
      set_sessions (closures ++ [{| s_user := user;
                                    s_audioStream := audioStream;
                                    volumeSampleCount := 0 |}]).

(** *** The listeners that [processAudio] installs *)

(** [pcmStream.on('data', chunk => ...)] of session [sid]. [chunk] is
    [None] for a falsy chunk; [muted] is [user.voice.serverMute] and [now]
    is [Date.now()], both as read while this frame is handled. *)
Definition on_data (sid : nat) (chunk : option (list Z)) (muted : bool) (now : Z)
  : Handler unit :=
  closures <- gets sessions ;;
  match closures !! sid with
  | None => ret tt
  | Some s =>
      monitoring <- gets isMonitoring ;;
      if negb monitoring then
        emit (StreamDestroy (s_audioStream s))
      else
        match chunk with
        | None => ret tt
        | Some data =>
            if (length data =? 0)%nat then ret tt
            else
              let volume := calculateVolume data in
              let count := S (volumeSampleCount s) in
              set_sessions (<[sid := {| s_user := s_user s;
                                        s_audioStream := s_audioStream s;
                                        volumeSampleCount := count |}]> closures) ;;
              (if (count mod 10 =? 0)%nat
               then emit (LogVolume (displayName (s_user s)) volume)
               else ret tt) ;;
              if muted then ret tt
              else
                last <- gets lastMuteTime ;;
                if (now - last <? MUTE_COOLDOWN)%Z then ret tt
                else if JS.gt volume DECIBEL_THRESHOLD then
                  emit (LogAlert (displayName (s_user s)) volume) ;;
                  set_lastMuteTime now ;;
                  emit (SetMute (member_id (s_user s)) true "Noise level too high!")
                else ret tt
        end
  end.

(** [.catch(error => console.error(...))] on the mute request. *)
Definition on_mute_rejected : Handler unit :=
  emit (ConsoleError "[ERROR] Failed to mute user:").

(** [pcmStream.on('error', err => ...)] of session [sid]. *)
Definition on_error (sid : nat) : Handler unit :=
  closures <- gets sessions ;;
  match closures !! sid with
  | None => ret tt
  | Some s =>
      emit (ConsoleError "[ERROR] Error in audio processing function:") ;;
      streams <- gets activeStreams ;;
      if bool_decide (is_Some (streams !! member_id (s_user s))) then
        set_activeStreams (delete (member_id (s_user s)) streams)
      else ret tt
  end.

(** [audioStream.on('end', () => ...)] of session [sid]. *)
Definition on_end (sid : nat) : Handler unit :=
  closures <- gets sessions ;;
  match closures !! sid with
  | None => ret tt
  | Some s =>
      emit (ConsoleLog "[MONITOR] Audio stream ended for user") ;;
      streams <- gets activeStreams ;;
      if bool_decide (is_Some (streams !! member_id (s_user s))) then
        set_activeStreams (delete (member_id (s_user s)) streams)
      else ret tt
  end.

(** *** The listeners that [joinAndMonitor] installs on a new connection *)

(** [connection.on('stateChange', (oldState, newState) => ...)] *)
Definition on_stateChange (newStatus : string) : Handler unit :=
  emit (ConsoleLog "[CONNECTION] Connection state changed") ;;
  if bool_decide (newStatus = "disconnected") then
    stopAllMonitoring ;;
    emit (ConsoleLog "[CONNECTION] Bot was disconnected from voice channel")
  else ret tt.

(** [receiver.speaking.on('start', userId => ...)] *)
Definition on_speaking_start (guild : Guild) (receiver : Receiver) (userId : UserId)
  : Handler unit :=
  monitoring <- gets isMonitoring ;;
  if (bool_decide (userId = AUTHORIZED_USER_ID) && monitoring)%bool then
    emit (ConsoleLog "[EVENT] Specific user started speaking") ;;
    match cache_get guild userId with
    | Some user => processAudio receiver user
    | None => ret tt
    end
  else ret tt.

(** *** [joinAndMonitor] *)
Definition joinAndMonitor (channel : Channel) (guild : Guild)
  : Handler (option Connection) :=
  connections <- gets voiceConnections ;;
  let existingConnection := connections !! guild_id guild in
  if bool_decide (existingConnection = Some (channel_id channel)) then
    emit (ConsoleLog "[BOT] Already in voice channel, not rejoining") ;;
    set_isMonitoring true ;;
    ret (Some {| conn_guildId := guild_id guild;
                 conn_channelId := channel_id channel |})
  else
    (if bool_decide (is_Some existingConnection) then
       emit (ConnectionDestroy (guild_id guild)) ;;
       set_voiceConnections (delete (guild_id guild) connections)
     else ret tt) ;;
    if join_throws guild then
      emit (ConsoleError "[ERROR] Error joining voice channel:") ;;
      ret None
    else
      emit (JoinVoiceChannel (guild_id guild) (channel_id channel)) ;;
      connections' <- gets voiceConnections ;;
      set_voiceConnections (<[guild_id guild := channel_id channel]> connections') ;;
      emit (ConsoleLog "[BOT] Automatically joined voice channel to monitor specific user") ;;
      set_isMonitoring true ;;
      ret (Some {| conn_guildId := guild_id guild;
                   conn_channelId := channel_id channel |}).

(** *** [voiceStateUpdate] *)

(** The block [if (activeStreams.has(AUTHORIZED_USER_ID)) { ... }] that
    the leave case and the move case both contain. *)
Definition cleanup_target_stream : Handler unit :=
  streams <- gets activeStreams ;;
  match streams !! AUTHORIZED_USER_ID with
  | Some stream =>
      emit (StreamDestroy stream) ;;
      set_activeStreams (delete AUTHORIZED_USER_ID streams)
  | None => ret tt
  end.

Definition on_voiceStateUpdate (oldState newState : VoiceState) : Handler unit :=
  if (bool_decide (vs_member_id newState = AUTHORIZED_USER_ID)
      || bool_decide (vs_member_id oldState = AUTHORIZED_USER_ID))%bool then
    emit (ConsoleLog "[DEBUG] Voice state update for user") ;;
    emit (ConsoleLog "[DEBUG] Old channel:") ;;
    emit (ConsoleLog "[DEBUG] New channel:") ;;
    match vs_channel oldState, vs_channel newState with
    | None, Some newChannel =>
        (* Case 1: the member joined a voice channel *)
        emit (ConsoleLog "[EVENT] Target user joined channel") ;;
        joinAndMonitor newChannel (vs_guild newState) ;;
        ret tt
    | Some oldChannel, None =>
        (* Case 2: the member left a voice channel *)
        emit (ConsoleLog "[EVENT] Target user left voice channel") ;;
        cleanup_target_stream ;;
        connections <- gets voiceConnections ;;
        if bool_decide (is_Some (connections !! guild_id (vs_guild oldState))) then
          emit (ConsoleLog "[BOT] Automatically leaving voice channel because target user left") ;;
          stopAllMonitoring ;;
          emit (ConnectionDestroy (guild_id (vs_guild oldState))) ;;
          set_voiceConnections (delete (guild_id (vs_guild oldState)) connections)
        else ret tt
    | Some oldChannel, Some newChannel =>
        (* Case 3: the member moved to a different channel *)
        if bool_decide (channel_id oldChannel <> channel_id newChannel) then
          emit (ConsoleLog "[EVENT] Target user moved") ;;
          cleanup_target_stream ;;
          joinAndMonitor newChannel (vs_guild newState) ;;
          ret tt
        else ret tt
    | None, None => ret tt
    end
  else ret tt.

(** *** [messageCreate]: the operator commands *)

Definition command_join (message : Message) : Handler unit :=
  emit (ConsoleLog "[COMMAND] Received !EP_join command") ;;
  match msg_voice_channel message with
  | Some channel =>
      joinAndMonitor channel (msg_guild message) ;;
      emit (Reply "Joined voice channel")
  | None => emit (Reply "You need to be in a voice channel for me to join you!")
  end.

Definition command_leave (message : Message) : Handler unit :=
  emit (ConsoleLog "[COMMAND] Received !EP_leave command") ;;
  connections <- gets voiceConnections ;;
  if bool_decide (is_Some (connections !! guild_id (msg_guild message))) then
    stopAllMonitoring ;;
    emit (ConnectionDestroy (guild_id (msg_guild message))) ;;
    set_voiceConnections (delete (guild_id (msg_guild message)) connections) ;;
    emit (ConsoleLog "[BOT] Left the voice channel!") ;;
    emit (Reply "Left the voice channel!")
  else emit (Reply "I am not connected to a voice channel right now!").

Definition command_unmute (message : Message) : Handler unit :=
  emit (ConsoleLog "[COMMAND] Received !unmute command") ;;
  match cache_get (msg_guild message) AUTHORIZED_USER_ID with
  | Some member =>
      if serverMute member then
        emit (SetMute (member_id member) false "Manual unmute command") ;;
        if unmute_rejects message then
          emit (ConsoleError "[ERROR] Error unmuting user:") ;;
          emit (Reply "Error unmuting user. Check console for details.")
        else emit (Reply "Unmuted")
      else emit (Reply "The user is not currently muted or not in a voice channel.")
  | None => emit (Reply "The user is not currently muted or not in a voice channel.")
  end.

Definition command_status (message : Message) : Handler unit :=
  emit (ConsoleLog "[COMMAND] Received !status command") ;;
  connections <- gets voiceConnections ;;
  monitoring <- gets isMonitoring ;;
  streams <- gets activeStreams ;;
  let targetInVoice :=
    match cache_get (msg_guild message) AUTHORIZED_USER_ID with
    | Some member => bool_decide (is_Some (voice_channel member))
    | None => false
    end in
  emit (ReplyStatus monitoring (connections !! guild_id (msg_guild message))
                    targetInVoice (size streams)).

(** Run [body] when the lowercased text of the message is [literal]. *)
Definition when_command (message : Message) (literal : string)
                        (body : Handler unit) : Handler unit :=
  if bool_decide (toLowerCase (content message) = literal) then body else ret tt.

Definition on_messageCreate (message : Message) : Handler unit :=
  if author_bot message then ret tt
  else
    when_command message "!EP_join" (command_join message) ;;
    when_command message "!EP_leave" (command_leave message) ;;
    when_command message "!unmute" (command_unmute message) ;;
    when_command message "!pausemonitor"
      (emit (ConsoleLog "[COMMAND] Received !pausemonitor command") ;;
       set_isMonitoring false ;;
       emit (Reply "Audio monitoring paused!")) ;;
    when_command message "!resumemonitor"
      (emit (ConsoleLog "[COMMAND] Received !resumemonitor command") ;;
       set_isMonitoring true ;;
       emit (Reply "Audio monitoring resumed!")) ;;
    when_command message "!status" (command_status message).

(** *** [ready] and [SIGINT] *)

Fixpoint ready_loop (guilds : list StartupGuild) : Handler unit :=
  match guilds with
  | [] => ret tt
  | g :: rest =>
      if sg_fetch_rejects g then
        emit (ConsoleError "[ERROR] Error checking for target user on startup:")
      else
        match cache_get (sg_guild g) AUTHORIZED_USER_ID with
        | Some member =>
            match voice_channel member with
            | Some channel =>
                emit (ConsoleLog "[STARTUP] Target user found in voice channel") ;;
                joinAndMonitor channel (sg_guild g) ;;
                ret tt
            | None => ready_loop rest
            end
        | None => ready_loop rest
        end
  end.

Definition on_ready (guilds : list StartupGuild) : Handler unit :=
  emit (ConsoleLog "Bot is connected and ready!") ;;
  emit (ConsoleLog "Monitoring specific user with ID:") ;;
  ready_loop guilds.

Definition on_sigint : Handler unit :=
  emit (ConsoleLog "[SHUTDOWN] Bot is shutting down, cleaning up connections...") ;;
  stopAllMonitoring ;;
  emit ClientDestroy ;;
  emit (ProcessExit 0).

(** ** The event loop *)

Inductive Event : Type :=
| Ready (guilds : list StartupGuild)
| VoiceStateUpdate (oldState newState : VoiceState)
| MessageCreate (message : Message)
| SpeakingStart (guild : Guild) (receiver : Receiver) (userId : UserId)
| ConnectionStateChange (guildId : GuildId) (newStatus : string)
| DecodedFrame (sid : nat) (chunk : option (list Z)) (muted : bool) (now : Z)
| DecoderError (sid : nat)
| StreamEnd (sid : nat)
| MuteRejected
| Sigint.

(** The listeners of a connection exist once [joinAndMonitor] has made the
    connection of that guild; the listeners of a session exist once
    [processAudio] has made its closure. *)
Definition handle (e : Event) : Handler unit :=
  match e with
  | Ready guilds => on_ready guilds
  | VoiceStateUpdate oldState newState => on_voiceStateUpdate oldState newState
  | MessageCreate message => on_messageCreate message
  | SpeakingStart guild receiver userId =>
      connections <- gets voiceConnections ;;
      if bool_decide (is_Some (connections !! guild_id guild))
      then on_speaking_start guild receiver userId
      else ret tt
  | ConnectionStateChange guildId newStatus =>
      connections <- gets voiceConnections ;;
      if bool_decide (is_Some (connections !! guildId))
      then on_stateChange newStatus
      else ret tt
  | DecodedFrame sid chunk muted now => on_data sid chunk muted now
  | DecoderError sid => on_error sid
  | StreamEnd sid => on_end sid
  | MuteRejected => on_mute_rejected
  | Sigint => on_sigint
  end.

(** Events are handled one after the other; the process exits on SIGINT. *)
Fixpoint run (events : list Event) : Handler unit :=
  match events with
  | [] => ret tt
  | Sigint :: _ => on_sigint
  | e :: rest => handle e ;; run rest
  end.

(** The states the program can be in. *)
Definition reachable (w : World) : Prop :=
  exists events, exec (run events) initial_world = w.

(** ** Observations on traces *)

Definition is_mute (o : Obs) : bool :=
  match eff o with SetMute _ true _ => true | _ => false end.

(** The mute requests of a trace. *)
Definition mutes (t : list Obs) : list Obs := List.filter is_mute t.

Definition is_destroy_of (h : Handle) (o : Obs) : bool :=
  match eff o with StreamDestroy h' => bool_decide (h' = h) | _ => false end.

(** How many times [destroy()] was called on stream [h]. *)
Definition releases (h : Handle) (t : list Obs) : nat :=
  length (List.filter (is_destroy_of h) t).

Definition is_join (o : Obs) : bool :=
  match eff o with JoinVoiceChannel _ _ => true | _ => false end.

Definition is_connection_destroy (o : Obs) : bool :=
  match eff o with ConnectionDestroy _ => true | _ => false end.

(** The time at which a frame is handled. *)
Definition frame_time (e : Event) : option Z :=
  match e with DecodedFrame _ _ _ now => Some now | _ => None end.

(** The loudness of a frame exceeds the threshold. *)
Definition loud (data : list Z) : Prop :=
  JS.gt (calculateVolume data) DECIBEL_THRESHOLD = true.

End Bot.

(** ** Specifications of handlers *)

(** [wp m Q T w]: started in [w], the handler [m] ends with a result and a
    state that satisfy [Q], and every entry of its trace satisfies [T]. *)
Definition wp {A : Type} (m : Handler A) (Q : A -> World -> Prop)
              (T : Obs -> Prop) (w : World) : Prop :=
  Q (result_of m w) (exec m w) /\ Forall T (trace_of m w).

(** [m] keeps the invariant [I] and only makes calls allowed by [T]. *)
Definition keeps {A : Type} (I : World -> Prop) (T : Obs -> Prop)
                 (m : Handler A) : Prop :=
  forall w, I w -> wp m (fun _ w' => I w') T w.

(** The cooldown timestamp holds [t]. *)
Definition last_mute_at (t : Z) (w : World) : Prop := lastMuteTime w = t.

(** The registry holds sessions of member [u] only. *)
Definition registry_of (u : UserId) (w : World) : Prop :=
  forall k, is_Some (activeStreams w !! k) -> k = u.

(** A call other than a mute request. *)
Definition not_mute (o : Obs) : Prop := is_mute o = false.

(** The frame handler keeps [I] and [T] on every frame of a list of events. *)
Definition frames_keep (I : World -> Prop) (T : Obs -> Prop)
                       (events : list Event) : Prop :=
  forall sid chunk muted now,
    In (DecodedFrame sid chunk muted now) events ->
    keeps I T (on_data sid chunk muted now).

(** The frames of a list of events all arrive less than [MUTE_COOLDOWN]
    milliseconds after [t]. *)
Definition within_cooldown (t : Z) (events : list Event) : Prop :=
  forall e now, In e events -> frame_time e = Some now -> now - t < MUTE_COOLDOWN.

(** The mute request carries the state in which it was made: what the
    platform, or a frame handled while the request is in flight, can see. *)
Definition dispatched_at (now : Z) (o : Obs) : Prop :=
  is_mute o = true -> lastMuteTime (seen o) = now.

(** ** Sample inputs *)

Module Sample.

Definition subject : UserId := "subject".

Definition member : Member :=
  {| member_id := subject; displayName := "Subject";
     serverMute := false; voice_channel := None |}.

Definition lobby : Channel := {| channel_id := "lobby"; channel_name := "Lobby" |}.
Definition stage : Channel := {| channel_id := "stage"; channel_name := "Stage" |}.

Definition guild : Guild :=
  {| guild_id := "guild"; guild_name := "Guild";
     members_cache := [member]; join_throws := false |}.

Definition receiver : Receiver := {| subscribe := fun _ => 7%nat |}.

Definition voice (channel : option Channel) : VoiceState :=
  {| vs_member_id := subject; vs_displayName := "Subject";
     vs_channel := channel; vs_guild := guild |}.

Definition says (text : string) : Message :=
  {| author_bot := false; content := text; msg_voice_channel := Some lobby;
     msg_guild := guild; unmute_rejects := false |}.

(** The member joins the lobby and starts to speak: the bot follows and
    opens session 0 on stream 7. *)
Definition start : list Event :=
  [VoiceStateUpdate (voice None) (voice (Some lobby));
   SpeakingStart guild receiver subject].

Definition monitoring : World := exec (run subject start) initial_world.

(** A frame of two samples of magnitude 255: about 48.2 dB. *)
Definition loud_frame : list Z := [255; 255].

(** A frame of three small samples, and a frame of silence. *)
Definition quiet_frame : list Z := [3; -4; 0].
Definition silent_frame : list Z := [0; 0; 0].

End Sample.

(** A call that neither joins a voice channel nor destroys a connection. *)
Definition keeps_connection (o : Obs) : Prop :=
  is_join o = false /\ is_connection_destroy o = false.

(** A presence event of member [u] that is a join of, or a move to,
    [channel]. *)
Definition joins_or_moves_to (u : UserId) (channel : Channel)
                             (oldState newState : VoiceState) : Prop :=
  (vs_member_id newState = u \/ vs_member_id oldState = u)
  /\ vs_channel newState = Some channel
  /\ match vs_channel oldState with
     | None => True
     | Some oldChannel => channel_id oldChannel <> channel_id channel
     end.

(** The times in a list are at least [MUTE_COOLDOWN] apart, the first one
    at least [MUTE_COOLDOWN] after [t]. *)
Fixpoint spaced (t : Z) (times : list Z) : Prop :=
  match times with
  | [] => True
  | now :: rest => MUTE_COOLDOWN <= now - t /\ spaced now rest
  end.

(** The times at which the mute requests of a trace were made: each
    request is made with [lastMuteTime] set to the time of its frame. *)
Definition mute_times (t : list Obs) : list Z :=
  map (fun o => lastMuteTime (seen o)) (mutes t).

(** ** Further observations on traces *)

(** The entry that [emit e] writes in state [w]. *)
Definition obs (e : Effect) (w : World) : Obs := {| eff := e; seen := w |}.

(** The state after [stopAllMonitoring]. *)
Definition stopped (w : World) : World :=
  {| activeStreams := ∅; lastMuteTime := lastMuteTime w; isMonitoring := false;
     voiceConnections := voiceConnections w; sessions := sessions w |}.

Definition is_log_volume (o : Obs) : bool :=
  match eff o with LogVolume _ _ => true | _ => false end.

Definition is_unmute (o : Obs) : bool :=
  match eff o with SetMute _ false _ => true | _ => false end.

Definition is_subscribe (o : Obs) : bool :=
  match eff o with SubscribeAudio _ _ => true | _ => false end.

(** How many entries of a trace satisfy [p]. *)
Definition count_of (p : Obs -> bool) (t : list Obs) : nat :=
  length (List.filter p t).

(** The calls of a trace that join a voice channel or destroy a connection,
    in order. *)
Definition connection_calls (t : list Obs) : list Effect :=
  List.filter (fun e => match e with
                        | JoinVoiceChannel _ _ | ConnectionDestroy _ => true
                        | _ => false
                        end) (map eff t).

(** The same message with another text. *)
Definition with_content (message : Message) (text : string) : Message :=
  {| author_bot := author_bot message; content := text;
     msg_voice_channel := msg_voice_channel message;
     msg_guild := msg_guild message; unmute_rejects := unmute_rejects message |}.

(** The designated member is in the guild's cache and server-muted. *)
Definition target_muted (u : UserId) (guild : Guild) : bool :=
  match cache_get guild u with
  | Some member => serverMute member
  | None => false
  end.

(** A frame as the handler receives it: the decoded data, the member's
    server-mute flag and the time. *)
Record Frame : Type := {
  f_data : list Z;
  f_muted : bool;
  f_now : Z;
}.

(** The events of a list of frames of session [sid]. *)
Definition frame_events (sid : nat) (frames : list Frame) : list Event :=
  map (fun f => DecodedFrame sid (Some (f_data f)) (f_muted f) (f_now f)) frames.

(** The closure [s] after [k] more samples were counted. *)
Definition bump (k : nat) (s : Session) : Session :=
  {| s_user := s_user s; s_audioStream := s_audioStream s;
     volumeSampleCount := volumeSampleCount s + k |}.

(** The voice channel in which the cache of a guild shows member [u]. *)
Definition target_channel (u : UserId) (guild : Guild) : option Channel :=
  match cache_get guild u with
  | Some member => voice_channel member
  | None => None
  end.

(** A guild that the [ready] loop passes: its members are fetched and
    member [u] is in none of its voice channels. *)
Definition passed (u : UserId) (g : StartupGuild) : Prop :=
  sg_fetch_rejects g = false /\ target_channel u (sg_guild g) = None.

(** * Properties *)

(** ** The loudness estimator *)

Section Loudness.

Local Open Scope R_scope.

Lemma sgn_pos (r : R) : 0 < r -> JS.sgn r = Gt.
Proof.
  intros H. unfold JS.sgn.
  destruct (Rlt_dec r 0) as [Hneg | _]; [lra |].
  destruct (Rlt_dec 0 r) as [_ | Hn]; [reflexivity | lra].
Qed.

Lemma sgn_zero : JS.sgn 0 = Eq.
Proof.
  unfold JS.sgn.
  destruct (Rlt_dec 0 0) as [H | _]; [lra | reflexivity].
Qed.

Lemma sum_abs_nonneg (data : list Z) : 0 <= sum_abs data.
Proof.
  induction data as [| x data IH]; simpl; [lra |].
  pose proof (Rabs_pos (IZR x)). lra.
Qed.

(** The loop of [calculateVolume], started from an accumulator [a]. *)
Lemma volume_loop (data : list Z) (a : R) :
  fold_left (fun sum x => JS.add sum (JS.of_int (Z.abs x))) data (JS.Fin a)
  = JS.Fin (a + sum_abs data).
Proof.
  revert a. induction data as [| x data IH]; intros a; simpl.
  - f_equal. lra.
  - unfold JS.of_int. cbn [JS.add]. rewrite IH, abs_IZR. f_equal. lra.
Qed.

Lemma length_pos (data : list Z) : data <> [] -> 0 < INR (length data).
Proof.
  intros H. destruct data as [| x data]; [congruence |].
  apply lt_0_INR. simpl. lia.
Qed.

Lemma mean_abs_nonneg (data : list Z) : data <> [] -> 0 <= mean_abs data.
Proof.
  intros H. unfold mean_abs.
  apply Rmult_le_pos; [apply sum_abs_nonneg |].
  left. apply Rinv_0_lt_compat, length_pos, H.
Qed.

Lemma ln10_pos : 0 < ln 10.
Proof. rewrite <- ln_1. apply ln_increasing; lra. Qed.

(** On a frame with at least one sample the code computes the formula. *)
Lemma calculateVolume_formula (data : list Z) :
  data <> [] -> calculateVolume data = JS.Fin (loudness_formula data).
Proof.
  intros H. unfold calculateVolume, loudness_formula.
  rewrite volume_loop. unfold JS.of_int. rewrite <- INR_IZR_INZ.
  cbn [JS.div]. rewrite (sgn_pos _ (length_pos _ H)).
  replace (0 + sum_abs data) with (sum_abs data) by lra.
  fold (mean_abs data). cbn [JS.add JS.log10].
  pose proof (mean_abs_nonneg _ H) as Hm.
  rewrite sgn_pos by lra. reflexivity.
Qed.

Lemma loudness_formula_nonneg (data : list Z) :
  data <> [] -> 0 <= loudness_formula data.
Proof.
  intros H. unfold loudness_formula.
  pose proof (mean_abs_nonneg _ H) as Hm. pose proof ln10_pos as H10.
  assert (0 <= ln (mean_abs data + 1)) as Hln.
  { destruct (Req_dec (mean_abs data) 0) as [E | E].
    - rewrite E, Rplus_0_l, ln_1. lra.
    - left. rewrite <- ln_1. apply ln_increasing; lra. }
  apply Rmult_le_pos; [lra |].
  apply Rmult_le_pos; [exact Hln |]. left. apply Rinv_0_lt_compat, H10.
Qed.

Lemma sum_abs_zero (data : list Z) :
  Forall (fun x => x = 0%Z) data -> sum_abs data = 0.
Proof.
  induction 1 as [| x data Hx _ IH]; simpl; [reflexivity |].
  subst x. rewrite IH, Rabs_R0. lra.
Qed.

Lemma loudness_formula_silence (data : list Z) :
  Forall (fun x => x = 0%Z) data -> loudness_formula data = 0.
Proof.
  intros H. unfold loudness_formula, mean_abs.
  rewrite (sum_abs_zero _ H).
  replace (0 / INR (length data) + 1) with 1 by (unfold Rdiv; lra).
  rewrite ln_1. unfold Rdiv. lra.
Qed.

(** The empty frame: the divisor is zero and the quotient is NaN. *)
Lemma calculateVolume_empty : calculateVolume [] = JS.NaN.
Proof.
  unfold calculateVolume.
  cbn [fold_left length JS.of_int JS.div].
  change (Z.of_nat 0) with 0%Z.
  rewrite sgn_zero. reflexivity.
Qed.

End Loudness.

Section LoudTest.

Local Open Scope R_scope.

Lemma sum_abs_Z_IZR (data : list Z) : IZR (sum_abs_Z data) = sum_abs data.
Proof.
  induction data as [| x data IH]; simpl; [reflexivity |].
  rewrite plus_IZR, abs_IZR, IH. reflexivity.
Qed.

Lemma loud_test_nonempty (data : list Z) : loud_test data = true -> data <> [].
Proof.
  unfold loud_test. intros H Hnil. subst data. simpl in H. discriminate.
Qed.

(** What the integer test says about the mean. *)
Lemma loud_test_mean (data : list Z) :
  loud_test data = true -> 10 ^ 429 < (mean_abs data + 1) ^ 200.
Proof.
  intros H. pose proof (loud_test_nonempty _ H) as Hne.
  unfold loud_test in H. apply andb_prop in H as [_ H].
  apply Z.ltb_lt, IZR_lt in H.
  rewrite mult_IZR in H.
  change 429%Z with (Z.of_nat 429) in H.
  change 200%Z with (Z.of_nat 200) in H.
  rewrite <- !pow_IZR, plus_IZR, sum_abs_Z_IZR, <- INR_IZR_INZ in H.
  pose proof (length_pos _ Hne) as Hn.
  set (n := INR (length data)) in *.
  replace (mean_abs data + 1) with ((sum_abs data + n) * / n)
    by (unfold mean_abs; fold n; field; lra).
  rewrite Rpow_mult_distr, pow_inv.
  pose proof (pow_lt n 200 Hn) as Hp.
  apply Rmult_lt_reg_r with (n ^ 200); [exact Hp |].
  rewrite Rmult_assoc, Rinv_l, Rmult_1_r by lra. exact H.
Qed.

(** The integer test is sound for the comparison that the code makes. *)
Lemma loud_test_sound (data : list Z) : loud_test data = true -> loud data.
Proof.
  intros H. pose proof (loud_test_nonempty _ H) as Hne.
  pose proof (loud_test_mean _ H) as Hm.
  unfold loud. rewrite (calculateVolume_formula _ Hne).
  unfold DECIBEL_THRESHOLD. cbn [JS.gt].
  destruct (Rlt_dec (429 / 10) (loudness_formula data)) as [_ | Hn];
    [reflexivity | exfalso; apply Hn; clear Hn].
  unfold loudness_formula.
  pose proof (mean_abs_nonneg _ Hne) as Hpos.
  apply ln_increasing in Hm; [| apply pow_lt; lra].
  rewrite !ln_pow in Hm by lra.
  rewrite !INR_IZR_INZ in Hm.
  change (Z.of_nat 429) with 429%Z in Hm.
  change (Z.of_nat 200) with 200%Z in Hm.
  pose proof ln10_pos as H10.
  apply Rmult_lt_reg_r with (ln 10); [exact H10 |].
  replace (20 * (ln (mean_abs data + 1) / ln 10) * ln 10)
    with (20 * ln (mean_abs data + 1)) by (field; lra).
  lra.
Qed.

End LoudTest.

Section LoudTestComplete.

Local Open Scope R_scope.

Lemma loud_nonempty (data : list Z) : loud data -> data <> [].
Proof.
  unfold loud. intros H ->. rewrite calculateVolume_empty in H. discriminate H.
Qed.

(** The integer test is complete: it accepts every loud frame. *)
Lemma loud_test_complete (data : list Z) : loud data -> loud_test data = true.
Proof.
  intros H. pose proof (loud_nonempty _ H) as Hne.
  pose proof (length_pos _ Hne) as Hn.
  pose proof (mean_abs_nonneg _ Hne) as Hpos.
  unfold loud in H. rewrite (calculateVolume_formula _ Hne) in H.
  unfold DECIBEL_THRESHOLD in H. cbn [JS.gt] in H.
  destruct (Rlt_dec (429 / 10) (loudness_formula data)) as [Hlt | _];
    [clear H | discriminate H].
  unfold loudness_formula in Hlt.
  pose proof ln10_pos as H10.
  assert (429 * ln 10 < 200 * ln (mean_abs data + 1)) as Hln.
  { apply Rmult_lt_compat_r with (r := ln 10) in Hlt; [| exact H10].
    replace (20 * (ln (mean_abs data + 1) / ln 10) * ln 10)
      with (20 * ln (mean_abs data + 1)) in Hlt by (field; lra).
    lra. }
  assert (10 ^ 429 < (mean_abs data + 1) ^ 200) as Hm.
  { apply ln_lt_inv; [apply pow_lt; lra | apply pow_lt; lra |].
    rewrite !ln_pow by lra. rewrite !INR_IZR_INZ.
    change (Z.of_nat 429) with 429%Z. change (Z.of_nat 200) with 200%Z.
    exact Hln. }
  unfold loud_test. apply andb_true_intro. split.
  - apply Z.ltb_lt. destruct data; [congruence | cbn [length]; lia].
  - apply Z.ltb_lt, lt_IZR.
    rewrite mult_IZR.
    change 429%Z with (Z.of_nat 429). change 200%Z with (Z.of_nat 200).
    rewrite <- !pow_IZR, plus_IZR, sum_abs_Z_IZR, <- INR_IZR_INZ.
    set (n := INR (length data)) in *.
    replace (mean_abs data + 1) with ((sum_abs data + n) * / n) in Hm
      by (unfold mean_abs; fold n; field; lra).
    rewrite Rpow_mult_distr, pow_inv in Hm.
    pose proof (pow_lt n 200 Hn) as Hp.
    apply Rmult_lt_compat_r with (r := n ^ 200) in Hm; [| exact Hp].
    rewrite Rmult_assoc, Rinv_l, Rmult_1_r in Hm by lra. exact Hm.
Qed.

End LoudTestComplete.

(** ** Rules of the handler logic *)

Section Rules.

Context {A B : Type}.
Implicit Types (Q : A -> World -> Prop) (T : Obs -> Prop) (w : World).

Lemma wp_ret (a : A) Q T w : Q a w -> wp (ret a) Q T w.
Proof. intros H. split; [exact H | constructor]. Qed.

Lemma wp_gets (f : World -> A) Q T w : Q (f w) w -> wp (gets f) Q T w.
Proof. intros H. split; [exact H | constructor]. Qed.

Lemma wp_bind (m : Handler A) (k : A -> Handler B)
      (R : B -> World -> Prop) T w :
  wp m (fun a w' => wp (k a) R T w') T w -> wp (bind m k) R T w.
Proof.
  unfold wp, result_of, exec, trace_of, bind.
  destruct (m w) as [[a w1] t1]. cbn [fst snd].
  destruct (k a w1) as [[b w2] t2]. cbn [fst snd].
  intros [[HR H2] H1]. split; [exact HR |].
  apply Forall_app. split; assumption.
Qed.

Lemma wp_mono (m : Handler A) Q (Q' : A -> World -> Prop) T w :
  wp m Q T w -> (forall a w', Q a w' -> Q' a w') -> wp m Q' T w.
Proof. intros [HQ HT] H. split; [apply H, HQ | exact HT]. Qed.

End Rules.

Section RulesUnit.

Implicit Types (Q : unit -> World -> Prop) (T : Obs -> Prop) (w : World).

Lemma wp_emit (e : Effect) Q T w :
  T {| eff := e; seen := w |} -> Q tt w -> wp (emit e) Q T w.
Proof. intros HT HQ. split; [exact HQ | repeat constructor; exact HT]. Qed.

Lemma wp_set_activeStreams m Q T w :
  Q tt {| activeStreams := m; lastMuteTime := lastMuteTime w;
          isMonitoring := isMonitoring w;
          voiceConnections := voiceConnections w; sessions := sessions w |} ->
  wp (set_activeStreams m) Q T w.
Proof. intros H. split; [exact H | constructor]. Qed.

Lemma wp_set_lastMuteTime t Q T w :
  Q tt {| activeStreams := activeStreams w; lastMuteTime := t;
          isMonitoring := isMonitoring w;
          voiceConnections := voiceConnections w; sessions := sessions w |} ->
  wp (set_lastMuteTime t) Q T w.
Proof. intros H. split; [exact H | constructor]. Qed.

Lemma wp_set_isMonitoring b Q T w :
  Q tt {| activeStreams := activeStreams w; lastMuteTime := lastMuteTime w;
          isMonitoring := b;
          voiceConnections := voiceConnections w; sessions := sessions w |} ->
  wp (set_isMonitoring b) Q T w.
Proof. intros H. split; [exact H | constructor]. Qed.

Lemma wp_set_voiceConnections m Q T w :
  Q tt {| activeStreams := activeStreams w; lastMuteTime := lastMuteTime w;
          isMonitoring := isMonitoring w;
          voiceConnections := m; sessions := sessions w |} ->
  wp (set_voiceConnections m) Q T w.
Proof. intros H. split; [exact H | constructor]. Qed.

Lemma wp_set_sessions l Q T w :
  Q tt {| activeStreams := activeStreams w; lastMuteTime := lastMuteTime w;
          isMonitoring := isMonitoring w;
          voiceConnections := voiceConnections w; sessions := l |} ->
  wp (set_sessions l) Q T w.
Proof. intros H. split; [exact H | constructor]. Qed.

(** A loop whose body keeps an invariant keeps it. *)
Lemma keeps_for_each {X : Type} (I : World -> Prop) T
      (f : X -> Handler unit) (l : list X) :
  (forall x, keeps I T (f x)) -> keeps I T (for_each f l).
Proof.
  intros Hf. induction l as [| x l IH]; intros w Hw; cbn [for_each].
  - apply wp_ret. exact Hw.
  - apply wp_bind. eapply wp_mono; [apply Hf, Hw |].
    intros ? w' Hw'. apply IH, Hw'.
Qed.

End RulesUnit.

(** One step of symbolic execution of a handler. *)
Ltac wp_prim :=
  lazymatch goal with
  | |- wp (bind _ _) _ _ _ => apply wp_bind
  | |- wp (ret _) _ _ _ => apply wp_ret
  | |- wp (gets _) _ _ _ => apply wp_gets
  | |- wp (emit _) _ _ _ => apply wp_emit
  | |- wp (set_activeStreams _) _ _ _ => apply wp_set_activeStreams
  | |- wp (set_lastMuteTime _) _ _ _ => apply wp_set_lastMuteTime
  | |- wp (set_isMonitoring _) _ _ _ => apply wp_set_isMonitoring
  | |- wp (set_voiceConnections _) _ _ _ => apply wp_set_voiceConnections
  | |- wp (set_sessions _) _ _ _ => apply wp_set_sessions
  | |- wp (if bool_decide _ then _ else _) _ _ _ => case_bool_decide
  | |- wp (if ?b then _ else _) _ _ _ => destruct b eqn:?
  | |- wp (match ?x with _ => _ end) _ _ _ => destruct x eqn:?
  end.

Ltac wp_simpl :=
  cbv beta;
  cbn [activeStreams lastMuteTime isMonitoring voiceConnections sessions
       eff seen].

Ltac wp_run := repeat (wp_prim; wp_simpl).

(** ** Invariants kept by every handler but the frame handler

    An invariant that only reads [activeStreams] and [lastMuteTime], and that
    survives the three ways in which the handlers below update the registry
    (delete a key, clear, register the designated member), is kept by every
    handler except [on_data], which is the only one to write [lastMuteTime]
    and to request a mute. *)

Section Invariant.

Variable AUTH : UserId.
Variable I : World -> Prop.
Variable T : Obs -> Prop.

Hypothesis I_frame : forall w w',
  activeStreams w' = activeStreams w -> lastMuteTime w' = lastMuteTime w ->
  I w -> I w'.
Hypothesis I_delete : forall w w' k,
  activeStreams w' = delete k (activeStreams w) ->
  lastMuteTime w' = lastMuteTime w -> I w -> I w'.
Hypothesis I_clear : forall w w',
  activeStreams w' = ∅ -> lastMuteTime w' = lastMuteTime w -> I w -> I w'.
Hypothesis I_register : forall w w' h,
  activeStreams w' = <[AUTH := h]> (activeStreams w) ->
  lastMuteTime w' = lastMuteTime w -> I w -> I w'.
Hypothesis T_other : forall o, is_mute o = false -> T o.

Ltac leaf :=
  lazymatch goal with
  | |- T _ => apply T_other; reflexivity
  | H : I ?w0 |- I ?w0 => exact H
  | H : I ?w0 |- I _ =>
      first [ apply (I_frame w0); [reflexivity | reflexivity | exact H]
            | eapply (I_delete w0); [reflexivity | reflexivity | exact H]
            | apply (I_clear w0); [reflexivity | reflexivity | exact H]
            | eapply (I_register w0); [reflexivity | reflexivity | exact H] ]
  end.

Ltac call lem :=
  lazymatch goal with
  | |- wp (bind _ _) _ _ _ =>
      apply wp_bind; eapply wp_mono;
      [apply lem; try leaf
      | let H := fresh "Hw" in intros ? ? H; cbv beta in H; wp_simpl]
  | |- wp _ _ _ _ =>
      eapply wp_mono;
      [apply lem; try leaf
      | let H := fresh "Hw" in intros ? ? H; cbv beta in H; wp_simpl; try leaf]
  end.

Ltac go := repeat (wp_prim; wp_simpl; try leaf).

Lemma stopAllMonitoring_keeps : keeps I T stopAllMonitoring.
Proof.
  intros w Hw. unfold stopAllMonitoring. go.
  eapply wp_mono.
  - apply (keeps_for_each (fun w' => I w' /\ lastMuteTime w' = lastMuteTime w) T).
    + intros [userId stream] w' [Hw' Ht]. go. split; assumption.
    + split; [leaf | reflexivity].
  - intros ? w' [Hw' Ht]. wp_simpl. go.
Qed.

Lemma processAudio_keeps (receiver : Receiver) (user : Member) :
  member_id user = AUTH -> keeps I T (processAudio receiver user).
Proof.
  intros Hid w Hw. unfold processAudio. rewrite Hid. go.
Qed.

Lemma on_mute_rejected_keeps : keeps I T on_mute_rejected.
Proof. intros w Hw. unfold on_mute_rejected. go. Qed.

Lemma on_error_keeps (sid : nat) : keeps I T (on_error sid).
Proof. intros w Hw. unfold on_error. go. Qed.

Lemma on_end_keeps (sid : nat) : keeps I T (on_end sid).
Proof. intros w Hw. unfold on_end. go. Qed.

Lemma on_stateChange_keeps (newStatus : string) : keeps I T (on_stateChange newStatus).
Proof.
  intros w Hw. unfold on_stateChange. go.
  call stopAllMonitoring_keeps. go.
Qed.

Lemma cache_get_id (guild : Guild) (userId : UserId) (user : Member) :
  cache_get guild userId = Some user -> member_id user = userId.
Proof.
  unfold cache_get. intros H. apply find_some in H as [_ H].
  apply bool_decide_eq_true in H. exact H.
Qed.

Lemma on_speaking_start_keeps (guild : Guild) (receiver : Receiver) (userId : UserId) :
  keeps I T (on_speaking_start AUTH guild receiver userId).
Proof.
  intros w Hw. unfold on_speaking_start. go.
  apply andb_prop in Heqb as [Hu _]. apply bool_decide_eq_true in Hu. subst userId.
  call processAudio_keeps. eapply cache_get_id; eassumption.
Qed.

Lemma joinAndMonitor_keeps (channel : Channel) (guild : Guild) :
  keeps I T (joinAndMonitor channel guild).
Proof. intros w Hw. unfold joinAndMonitor. go. Qed.

Lemma cleanup_target_stream_keeps : keeps I T (cleanup_target_stream AUTH).
Proof. intros w Hw. unfold cleanup_target_stream. go. Qed.

Ltac calls :=
  first [ call stopAllMonitoring_keeps
        | call joinAndMonitor_keeps
        | call cleanup_target_stream_keeps ].

Ltac go' := repeat first [wp_prim; wp_simpl; try leaf | calls].

Lemma on_voiceStateUpdate_keeps (oldState newState : VoiceState) :
  keeps I T (on_voiceStateUpdate AUTH oldState newState).
Proof. intros w Hw. unfold on_voiceStateUpdate. go'. Qed.

Lemma command_join_keeps (message : Message) : keeps I T (command_join message).
Proof. intros w Hw. unfold command_join. go'. Qed.

Lemma command_leave_keeps (message : Message) : keeps I T (command_leave message).
Proof. intros w Hw. unfold command_leave. go'. Qed.

Lemma command_unmute_keeps (message : Message) :
  keeps I T (command_unmute AUTH message).
Proof. intros w Hw. unfold command_unmute. go. Qed.

Lemma command_status_keeps (message : Message) :
  keeps I T (command_status AUTH message).
Proof. intros w Hw. unfold command_status. go. Qed.

Lemma when_command_keeps (message : Message) (literal : string) (body : Handler unit) :
  keeps I T body -> keeps I T (when_command message literal body).
Proof.
  intros Hb w Hw. unfold when_command. go. apply Hb, Hw.
Qed.

Lemma on_messageCreate_keeps (message : Message) :
  keeps I T (on_messageCreate AUTH message).
Proof.
  intros w Hw. unfold on_messageCreate. go.
  call (when_command_keeps message "!EP_join" _ (command_join_keeps message)).
  call (when_command_keeps message "!EP_leave" _ (command_leave_keeps message)).
  call (when_command_keeps message "!unmute" _ (command_unmute_keeps message)).
  call when_command_keeps. { intros ? ?. go. }
  call when_command_keeps. { intros ? ?. go. }
  call when_command_keeps. apply command_status_keeps.
Qed.

Lemma ready_loop_keeps (guilds : list StartupGuild) :
  keeps I T (ready_loop AUTH guilds).
Proof.
  induction guilds as [| g rest IH]; intros w Hw; cbn [ready_loop];
    go'; apply IH, Hw.
Qed.

Lemma on_ready_keeps (guilds : list StartupGuild) :
  keeps I T (on_ready AUTH guilds).
Proof.
  intros w Hw. unfold on_ready. go. apply ready_loop_keeps, Hw.
Qed.

Lemma on_sigint_keeps : keeps I T on_sigint.
Proof.
  intros w Hw. unfold on_sigint. go'.
Qed.

Lemma handle_keeps (e : Event) :
  frames_keep I T [e] -> keeps I T (handle AUTH e).
Proof.
  intros Hf. destruct e; cbn [handle].
  - apply on_ready_keeps.
  - apply on_voiceStateUpdate_keeps.
  - apply on_messageCreate_keeps.
  - intros w Hw. go. apply on_speaking_start_keeps, Hw.
  - intros w Hw. go. apply on_stateChange_keeps, Hw.
  - apply Hf. left. reflexivity.
  - apply on_error_keeps.
  - apply on_end_keeps.
  - apply on_mute_rejected_keeps.
  - apply on_sigint_keeps.
Qed.

Lemma run_keeps (events : list Event) :
  frames_keep I T events -> keeps I T (run AUTH events).
Proof.
  induction events as [| e rest IH]; intros Hf w Hw.
  - cbn [run]. go.
  - assert (keeps I T (handle AUTH e)) as He.
    { apply handle_keeps. intros sid chunk muted now [E | []].
      apply Hf. left. exact E. }
    assert (keeps I T (run AUTH rest)) as Hr.
    { apply IH. intros sid chunk muted now Hin. apply Hf. right. exact Hin. }
    destruct e; cbn [run];
      try (apply wp_bind; eapply wp_mono; [apply He, Hw |];
           intros ? w' Hw'; apply Hr, Hw').
    apply on_sigint_keeps, Hw.
Qed.

End Invariant.

(** ** Sequencing *)

Lemma exec_bind {A B : Type} (m : Handler A) (k : A -> Handler B) (w : World) :
  exec (bind m k) w = exec (k (result_of m w)) (exec m w).
Proof.
  unfold exec, result_of, bind. destruct (m w) as [[a w1] t1]. cbn [fst snd].
  destruct (k a w1) as [[b w2] t2]. reflexivity.
Qed.

Lemma trace_of_bind {A B : Type} (m : Handler A) (k : A -> Handler B) (w : World) :
  trace_of (bind m k) w = trace_of m w ++ trace_of (k (result_of m w)) (exec m w).
Proof.
  unfold trace_of, exec, result_of, bind. destruct (m w) as [[a w1] t1]. cbn [fst snd].
  destruct (k a w1) as [[b w2] t2]. reflexivity.
Qed.

Lemma mutes_app (t1 t2 : list Obs) : mutes (t1 ++ t2) = mutes t1 ++ mutes t2.
Proof. unfold mutes. apply List.filter_app. Qed.

Lemma mutes_none (t : list Obs) : Forall not_mute t -> mutes t = [].
Proof.
  induction 1 as [| o t Ho _ IH]; [reflexivity |].
  unfold mutes in *. cbn [List.filter]. rewrite Ho. exact IH.
Qed.

(** ** The frame handler and the cooldown *)

Section Cooldown.

Variable AUTH : UserId.

(** A frame that arrives within the cooldown leaves the timestamp alone
    and requests no mute. *)
Lemma on_data_in_cooldown (t : Z) (sid : nat) (chunk : option (list Z))
      (muted : bool) (now : Z) :
  now - t < MUTE_COOLDOWN ->
  keeps (last_mute_at t) not_mute (on_data sid chunk muted now).
Proof.
  intros Hnow w Hw. unfold last_mute_at in *. unfold on_data.
  wp_run; try reflexivity; try assumption.
  all: match goal with
       | H : (_ <? _)%Z = false |- _ => apply Z.ltb_ge in H; rewrite Hw in H; lia
       end.
Qed.

(** Whatever the frame, a mute request is made in a state whose timestamp
    is already the time of the frame. *)
Lemma on_data_dispatch_order (sid : nat) (chunk : option (list Z))
      (muted : bool) (now : Z) (w : World) :
  Forall (dispatched_at now) (trace_of (on_data sid chunk muted now) w).
Proof.
  cut (wp (on_data sid chunk muted now) (fun _ _ => True) (dispatched_at now) w).
  { intros [_ H]. exact H. }
  unfold on_data. wp_run; try exact Logic.I; unfold dispatched_at; cbn; congruence.
Qed.

(** A loud frame of an unmuted member, out of the cooldown: one mute
    request, made after the timestamp was set. *)
Lemma on_data_mutes (w : World) (sid : nat) (s : Session) (data : list Z) (now : Z) :
  sessions w !! sid = Some s -> isMonitoring w = true ->
  data <> [] -> loud data -> MUTE_COOLDOWN <= now - lastMuteTime w ->
  lastMuteTime (exec (on_data sid (Some data) false now) w) = now /\
  exists o, mutes (trace_of (on_data sid (Some data) false now) w) = [o] /\
            eff o = SetMute (member_id (s_user s)) true "Noise level too high!" /\
            lastMuteTime (seen o) = now.
Proof.
  intros Hs Hmon Hne Hloud Hcool.
  unfold on_data, exec, trace_of, bind, gets, ret, emit, set_sessions, set_lastMuteTime.
  cbn [fst snd]. rewrite Hs. rewrite Hmon. cbn [negb fst snd].
  destruct data as [| x data]; [congruence |].
  cbn [length Nat.eqb].
  unfold loud in Hloud. rewrite Hloud.
  apply Z.ltb_ge in Hcool.
  destruct ((S (volumeSampleCount s) mod 10 =? 0)%nat);
    cbn [fst snd lastMuteTime]; rewrite Hcool; cbn [fst snd lastMuteTime app];
    (split; [reflexivity |]); eexists; (split; [reflexivity |]); split; reflexivity.
Qed.

End Cooldown.

(** ** C1, C5, C9: the moderation policy *)

Lemma last_mute_at_frame (t : Z) (w w' : World) :
  lastMuteTime w' = lastMuteTime w -> last_mute_at t w -> last_mute_at t w'.
Proof. unfold last_mute_at. congruence. Qed.

(** While every frame arrives within the cooldown after [t], no event
    changes the timestamp and no event requests a mute. *)
Lemma run_in_cooldown (AUTH : UserId) (t : Z) (events : list Event) :
  within_cooldown t events ->
  keeps (last_mute_at t) not_mute (run AUTH events).
Proof.
  intros Hin. apply run_keeps.
  - intros w w' _. apply last_mute_at_frame.
  - intros w w' _ _. apply last_mute_at_frame.
  - intros w w' _. apply last_mute_at_frame.
  - intros w w' _ _. apply last_mute_at_frame.
  - intros o Ho. exact Ho.
  - intros sid chunk muted now Hi. apply on_data_in_cooldown.
    apply (Hin _ now Hi). reflexivity.
Qed.

(** ** Mute requests are spaced by the cooldown, in every run *)

(** What one frame does to the timestamp and to the mute requests. *)
Lemma on_data_cases (sid : nat) (chunk : option (list Z)) (muted : bool)
      (now : Z) (w : World) :
  (mute_times (trace_of (on_data sid chunk muted now) w) = []
   /\ lastMuteTime (exec (on_data sid chunk muted now) w) = lastMuteTime w)
  \/ (mute_times (trace_of (on_data sid chunk muted now) w) = [now]
      /\ lastMuteTime (exec (on_data sid chunk muted now) w) = now
      /\ MUTE_COOLDOWN <= now - lastMuteTime w).
Proof.
  unfold on_data, mute_times, exec, trace_of, bind, gets, ret, emit,
    set_sessions, set_lastMuteTime.
  cbn [fst snd].
  destruct (sessions w !! sid) as [s |]; cbn [fst snd]; [| left; split; reflexivity].
  destruct (isMonitoring w); cbn [negb fst snd]; [| left; split; reflexivity].
  destruct chunk as [data |]; cbn [fst snd]; [| left; split; reflexivity].
  destruct (length data =? 0)%nat; cbn [fst snd]; [left; split; reflexivity |].
  destruct ((S (volumeSampleCount s) mod 10 =? 0)%nat); cbn [fst snd];
    (destruct muted; cbn [fst snd lastMuteTime]; [left; split; reflexivity |]);
    (destruct (now - lastMuteTime w <? MUTE_COOLDOWN)%Z eqn:Hcool;
       cbn [fst snd lastMuteTime]; [left; split; reflexivity |]);
    (destruct (JS.gt (calculateVolume data) DECIBEL_THRESHOLD);
       cbn [fst snd lastMuteTime]; [| left; split; reflexivity]);
    right; apply Z.ltb_ge in Hcool; repeat split; assumption.
Qed.

Lemma mute_times_app (t1 t2 : list Obs) :
  mute_times (t1 ++ t2) = mute_times t1 ++ mute_times t2.
Proof. unfold mute_times. rewrite mutes_app. apply map_app. Qed.

(** An event other than a frame leaves the timestamp and requests no mute. *)
Lemma handle_quiet (AUTH : UserId) (e : Event) (w : World) :
  frame_time e = None ->
  mute_times (trace_of (handle AUTH e) w) = []
  /\ lastMuteTime (exec (handle AUTH e) w) = lastMuteTime w.
Proof.
  intros He.
  destruct (handle_keeps AUTH (last_mute_at (lastMuteTime w)) not_mute) with (e := e) (w := w)
    as [Hlast Hquiet].
  - intros w1 w2 _. apply last_mute_at_frame.
  - intros w1 w2 _ _. apply last_mute_at_frame.
  - intros w1 w2 _. apply last_mute_at_frame.
  - intros w1 w2 _ _. apply last_mute_at_frame.
  - intros o Ho. exact Ho.
  - intros sid chunk muted now [E | []]. subst e. discriminate He.
  - reflexivity.
  - split; [| exact Hlast]. unfold mute_times. rewrite (mutes_none _ Hquiet). reflexivity.
Qed.

(** What one event does: nothing to the timestamp and no mute request, or
    one mute request at a time that becomes the timestamp. *)
Lemma handle_cases (AUTH : UserId) (e : Event) (w : World) :
  (mute_times (trace_of (handle AUTH e) w) = []
   /\ lastMuteTime (exec (handle AUTH e) w) = lastMuteTime w)
  \/ (exists now, mute_times (trace_of (handle AUTH e) w) = [now]
      /\ lastMuteTime (exec (handle AUTH e) w) = now
      /\ MUTE_COOLDOWN <= now - lastMuteTime w).
Proof.
  destruct (frame_time e) as [now |] eqn:He.
  - destruct e; try discriminate He. cbn [handle].
    destruct (on_data_cases sid chunk muted now0 w) as [H | H]; [left; exact H |].
    right. exists now0. exact H.
  - left. apply handle_quiet, He.
Qed.

Lemma spaced_app (t : Z) (l1 l2 : list Z) (t' : Z) :
  spaced t l1 -> last l1 = Some t' \/ (l1 = [] /\ t' = t) -> spaced t' l2 ->
  spaced t (l1 ++ l2).
Proof.
  revert t. induction l1 as [| x l1 IH]; intros t H1 Hlast H2.
  - destruct Hlast as [Hl | [_ ->]]; [discriminate | exact H2].
  - cbn [app spaced] in *. destruct H1 as [Hx H1]. split; [exact Hx |].
    apply IH; [exact H1 | | exact H2].
    destruct Hlast as [Hl | [Hl _]]; [| discriminate].
    destruct l1 as [| y l1]; [right | left].
    + cbn in Hl. injection Hl as <-. split; reflexivity.
    + rewrite last_cons_cons in Hl. exact Hl.
Qed.

(** In every run, from every state: the mute requests are at least
    [MUTE_COOLDOWN] apart, the first one at least [MUTE_COOLDOWN] after the
    timestamp of the start, and the timestamp at the end is the time of the
    last request. *)
Lemma mutes_are_spaced (AUTH : UserId) (events : list Event) (w : World) :
  spaced (lastMuteTime w) (mute_times (trace_of (run AUTH events) w))
  /\ (last (mute_times (trace_of (run AUTH events) w))
        = Some (lastMuteTime (exec (run AUTH events) w))
      \/ (mute_times (trace_of (run AUTH events) w) = []
          /\ lastMuteTime (exec (run AUTH events) w) = lastMuteTime w)).
Proof.
  revert w. induction events as [| e rest IH]; intros w.
  - cbn. split; [exact Logic.I | right; split; reflexivity].
  - assert (run AUTH (e :: rest) = bind (handle AUTH e) (fun _ => run AUTH rest)
            \/ (e = Sigint /\ run AUTH (e :: rest) = handle AUTH e)) as [-> | [-> ->]].
    { destruct e; cbn [run handle]; auto. }
    + rewrite trace_of_bind, exec_bind, mute_times_app.
      set (w1 := exec (handle AUTH e) w).
      destruct (IH w1) as [Hsp Hlast].
      destruct (handle_cases AUTH e w) as [[Ht Hl] | [now [Ht [Hl Hc]]]];
        fold w1 in Hl; rewrite Ht; cbn [app].
      * rewrite <- Hl. split; [exact Hsp |].
        destruct Hlast as [H | [H1 H2]]; [left; exact H | right; split; [exact H1 | exact H2]].
      * rewrite Hl in *. split; [cbn [spaced]; split; assumption |].
        left. destruct Hlast as [H | [H1 H2]].
        -- destruct (mute_times (trace_of (run AUTH rest) w1)) as [| x l]; [discriminate |].
           rewrite last_cons_cons. exact H.
        -- rewrite H1, H2. reflexivity.
    + destruct (handle_cases AUTH Sigint w) as [[Ht Hl] | [now [Ht [Hl Hc]]]]; rewrite Ht.
      * split; [exact Logic.I | right; split; [reflexivity | exact Hl]].
      * split; [cbn [spaced]; split; [exact Hc | exact Logic.I] |].
        left. rewrite Hl. reflexivity.
Qed.

(** C1. After a frame has caused a mute at time [t0], any sequence of events
    whose frames all arrive less than MUTE_COOLDOWN (5000 ms) after [t0],
    however loud, causes no further mute: the window holds exactly one mute
    request. Every mute request of the frame handler is made after
    [lastMuteTime] was set to the time of the frame. More generally, in every
    run the mute requests are at least MUTE_COOLDOWN apart. *)
Theorem cooldown_one_mute_per_window
    (AUTH : UserId) (w : World) (sid : nat) (s : Session)
    (data : list Z) (t0 : Z) (events : list Event) :
  sessions w !! sid = Some s -> isMonitoring w = true ->
  data <> [] -> loud data -> MUTE_COOLDOWN <= t0 - lastMuteTime w ->
  within_cooldown t0 events ->
  length (mutes (trace_of (run AUTH (DecodedFrame sid (Some data) false t0 :: events)) w))
    = 1%nat
  /\ lastMuteTime (exec (run AUTH (DecodedFrame sid (Some data) false t0 :: events)) w) = t0
  /\ Forall (dispatched_at t0)
            (trace_of (run AUTH (DecodedFrame sid (Some data) false t0 :: events)) w)
  /\ (forall sid' chunk muted now w',
        Forall (dispatched_at now) (trace_of (on_data sid' chunk muted now) w'))
  /\ (forall events' w',
        spaced (lastMuteTime w') (mute_times (trace_of (run AUTH events') w'))).
Proof.
  intros Hs Hmon Hne Hloud Hcool Hin.
  destruct (on_data_mutes w sid s data t0 Hs Hmon Hne Hloud Hcool)
    as [Ht0 [o [Ho [_ Hseen]]]].
  destruct (run_in_cooldown AUTH t0 events Hin _ Ht0) as [Hlast Hquiet].
  cbn [run handle]. rewrite trace_of_bind, exec_bind, mutes_app, Ho.
  rewrite (mutes_none _ Hquiet).
  split; [reflexivity |]. split; [exact Hlast |]. split.
  - apply Forall_app. split.
    + apply on_data_dispatch_order.
    + eapply Forall_impl; [exact Hquiet |].
      intros o' Hn Hm. unfold not_mute in Hn. congruence.
  - split; [intros; apply on_data_dispatch_order |].
    intros events' w'. apply mutes_are_spaced.
Qed.

Lemma loud_frame_is_loud : loud Sample.loud_frame.
Proof. apply loud_test_sound. vm_compute. reflexivity. Qed.

(** A frame that is not loud: three small samples. *)
Example quiet_frame_is_not_loud : ~ loud Sample.quiet_frame.
Proof.
  intros H. apply loud_test_complete in H. vm_compute in H. discriminate H.
Qed.

Lemma cooldown_one_mute_per_window_witness :
  let events :=
    [DecodedFrame 0 (Some Sample.loud_frame) false 12000;
     DecodedFrame 0 (Some Sample.loud_frame) false 14999] in
  let all := DecodedFrame 0 (Some Sample.loud_frame) false 10000 :: events in
  length (mutes (trace_of (run Sample.subject all) Sample.monitoring)) = 1%nat
  /\ lastMuteTime (exec (run Sample.subject all) Sample.monitoring) = 10000
  /\ Forall (dispatched_at 10000) (trace_of (run Sample.subject all) Sample.monitoring)
  /\ (forall sid' chunk muted now w',
        Forall (dispatched_at now) (trace_of (on_data sid' chunk muted now) w'))
  /\ (forall events' w',
        spaced (lastMuteTime w')
               (mute_times (trace_of (run Sample.subject events') w'))).
Proof.
  intros events all.
  apply (cooldown_one_mute_per_window Sample.subject Sample.monitoring 0
           {| s_user := Sample.member; s_audioStream := 7; volumeSampleCount := 0 |}
           Sample.loud_frame 10000 events).
  - reflexivity.
  - reflexivity.
  - discriminate.
  - exact loud_frame_is_loud.
  - vm_compute. discriminate.
  - intros e now [E | [E | []]] Ht; subst e; injection Ht as <-; vm_compute; reflexivity.
Defined.

(** C5. Whatever the frame, when the member's server-mute flag is set while
    the frame is handled, no mute is requested, and the cooldown timestamp
    is left as it was. *)
Theorem already_muted_no_mute
    (w : World) (sid : nat) (chunk : option (list Z)) (now : Z) :
  mutes (trace_of (on_data sid chunk true now) w) = []
  /\ lastMuteTime (exec (on_data sid chunk true now) w) = lastMuteTime w.
Proof.
  cut (wp (on_data sid chunk true now)
          (fun _ w' => lastMuteTime w' = lastMuteTime w) not_mute w).
  { intros [H1 H2]. split; [apply mutes_none, H2 | exact H1]. }
  unfold on_data. wp_run; reflexivity.
Qed.

(** C9. When the mute request of a frame is rejected, the rejection is
    logged on the console and nothing else happens: the state, and so
    [lastMuteTime], is the one set before the request, and a later frame
    within the cooldown still causes no mute. *)
Theorem failed_mute_keeps_cooldown
    (w : World) (sid : nat) (s : Session) (data : list Z) (t0 : Z) :
  sessions w !! sid = Some s -> isMonitoring w = true ->
  data <> [] -> loud data -> MUTE_COOLDOWN <= t0 - lastMuteTime w ->
  let w1 := exec (on_data sid (Some data) false t0) w in
  let w2 := exec on_mute_rejected w1 in
  length (mutes (trace_of (on_data sid (Some data) false t0) w)) = 1%nat
  /\ lastMuteTime w1 = t0
  /\ w2 = w1
  /\ map eff (trace_of on_mute_rejected w1) = [ConsoleError "[ERROR] Failed to mute user:"]
  /\ (forall sid' chunk muted now,
        now - t0 < MUTE_COOLDOWN ->
        mutes (trace_of (on_data sid' chunk muted now) w2) = []
        /\ lastMuteTime (exec (on_data sid' chunk muted now) w2) = t0).
Proof.
  intros Hs Hmon Hne Hloud Hcool w1 w2.
  destruct (on_data_mutes w sid s data t0 Hs Hmon Hne Hloud Hcool)
    as [Ht0 [o [Ho _]]].
  split; [rewrite Ho; reflexivity |].
  split; [exact Ht0 |].
  split; [reflexivity |].
  split; [reflexivity |].
  intros sid' chunk muted now Hnow.
  destruct (on_data_in_cooldown t0 sid' chunk muted now Hnow w2 Ht0) as [H1 H2].
  split; [apply mutes_none, H2 | exact H1].
Qed.

Lemma failed_mute_keeps_cooldown_witness :
  let w1 := exec (on_data 0 (Some Sample.loud_frame) false 10000) Sample.monitoring in
  let w2 := exec on_mute_rejected w1 in
  length (mutes (trace_of (on_data 0 (Some Sample.loud_frame) false 10000)
                          Sample.monitoring)) = 1%nat
  /\ lastMuteTime w1 = 10000
  /\ w2 = w1
  /\ map eff (trace_of on_mute_rejected w1) = [ConsoleError "[ERROR] Failed to mute user:"]
  /\ (forall sid' chunk muted now,
        now - 10000 < MUTE_COOLDOWN ->
        mutes (trace_of (on_data sid' chunk muted now) w2) = []
        /\ lastMuteTime (exec (on_data sid' chunk muted now) w2) = 10000).
Proof.
  apply (failed_mute_keeps_cooldown Sample.monitoring 0
           {| s_user := Sample.member; s_audioStream := 7; volumeSampleCount := 0 |}
           Sample.loud_frame 10000).
  - reflexivity.
  - reflexivity.
  - discriminate.
  - exact loud_frame_is_loud.
  - vm_compute. discriminate.
Defined.

(** ** C2: the session registry *)

(** The frame handler never touches the registry. *)
Lemma on_data_registry (sid : nat) (chunk : option (list Z)) (muted : bool)
      (now : Z) (w : World) :
  activeStreams (exec (on_data sid chunk muted now) w) = activeStreams w.
Proof.
  cut (wp (on_data sid chunk muted now)
          (fun _ w' => activeStreams w' = activeStreams w) (fun _ => True) w).
  { intros [H _]. exact H. }
  unfold on_data. wp_run; try exact Logic.I; reflexivity.
Qed.

Lemma registry_of_frame (u : UserId) (w w' : World) :
  activeStreams w' = activeStreams w -> registry_of u w -> registry_of u w'.
Proof. unfold registry_of. intros ->. auto. Qed.

Lemma registry_of_delete (u : UserId) (w w' : World) (k : UserId) :
  activeStreams w' = delete k (activeStreams w) -> registry_of u w -> registry_of u w'.
Proof.
  unfold registry_of. intros -> H k' [h Hk'].
  apply lookup_delete_Some in Hk' as [_ Hk']. apply H. eauto.
Qed.

Lemma registry_of_clear (u : UserId) (w w' : World) :
  activeStreams w' = ∅ -> registry_of u w -> registry_of u w'.
Proof.
  unfold registry_of. intros -> _ k [h Hk]. rewrite lookup_empty in Hk. discriminate.
Qed.

Lemma registry_of_register (u : UserId) (w w' : World) (h : Handle) :
  activeStreams w' = <[u := h]> (activeStreams w) -> registry_of u w -> registry_of u w'.
Proof.
  unfold registry_of. intros -> H k [h' Hk].
  apply lookup_insert_Some in Hk as [[Hk _] | [_ Hk]]; [congruence | apply H; eauto].
Qed.

Lemma registry_of_initial (u : UserId) : registry_of u initial_world.
Proof. intros k [h Hk]. cbn in Hk. rewrite lookup_empty in Hk. discriminate. Qed.

(** In every state the program can reach, the registry holds sessions of
    the designated member only. *)
Lemma reachable_registry (AUTH : UserId) (w : World) :
  reachable AUTH w -> registry_of AUTH w.
Proof.
  intros [events <-].
  cut (wp (run AUTH events) (fun _ w' => registry_of AUTH w') (fun _ => True) initial_world).
  { intros [H _]. exact H. }
  apply run_keeps with (I := registry_of AUTH).
  - intros w w' H _. apply registry_of_frame, H.
  - intros w w' k H _. eapply registry_of_delete, H.
  - intros w w' H _. apply registry_of_clear, H.
  - intros w w' h H _. eapply registry_of_register, H.
  - intros o _. exact Logic.I.
  - intros sid chunk muted now _ w Hw. split.
    + eapply registry_of_frame; [apply on_data_registry | exact Hw].
    + apply Forall_forall. intros. exact Logic.I.
  - apply registry_of_initial.
Qed.

Lemma registry_of_size (u : UserId) (w : World) :
  registry_of u w -> (size (activeStreams w) <= 1)%nat.
Proof.
  intros H. rewrite <- size_dom.
  transitivity (size ({[u]} : gset string)); [| rewrite size_singleton; lia].
  apply subseteq_size. intros k Hk. apply elem_of_dom in Hk.
  apply elem_of_singleton. apply H, Hk.
Qed.

(** A first call of [processAudio] while monitoring is enabled registers
    the member (or finds the member registered). *)
Lemma processAudio_registers (receiver : Receiver) (user : Member) (w : World) :
  isMonitoring w = true ->
  is_Some (activeStreams (exec (processAudio receiver user) w) !! member_id user)
  /\ isMonitoring (exec (processAudio receiver user) w) = true
  /\ (length (sessions (exec (processAudio receiver user) w)) <= S (length (sessions w)))%nat.
Proof.
  intros Hmon.
  unfold processAudio, exec, bind, gets, ret, emit, set_activeStreams, set_sessions.
  cbn [fst snd]. rewrite Hmon. cbn [negb fst snd].
  case_bool_decide as Hhas; cbn [fst snd activeStreams isMonitoring sessions].
  - split; [exact Hhas |]. split; [exact Hmon | lia].
  - split; [rewrite lookup_insert_eq; eauto |]. split; [exact Hmon |].
    rewrite length_app. cbn [length]. lia.
Qed.

(** A call of [processAudio] for a registered member is a no-op. *)
Lemma processAudio_duplicate (receiver : Receiver) (user : Member) (w : World) :
  isMonitoring w = true -> is_Some (activeStreams w !! member_id user) ->
  exec (processAudio receiver user) w = w
  /\ map eff (trace_of (processAudio receiver user) w)
     = [ConsoleLog "[MONITOR] Starting to process audio for specific user";
        ConsoleLog "[MONITOR] Already monitoring user, skipping duplicate"].
Proof.
  intros Hmon Hhas.
  unfold processAudio, exec, trace_of, bind, gets, ret, emit.
  cbn [fst snd]. rewrite Hmon. cbn [negb fst snd].
  rewrite (bool_decide_eq_true_2 _ Hhas). split; reflexivity.
Qed.

(** A call of [processAudio] while monitoring is disabled is a no-op. *)
Lemma processAudio_disabled (receiver : Receiver) (user : Member) (w : World) :
  isMonitoring w = false ->
  exec (processAudio receiver user) w = w
  /\ map eff (trace_of (processAudio receiver user) w)
     = [ConsoleLog "[MONITOR] Monitoring is disabled, not processing audio"].
Proof.
  intros Hmon.
  unfold processAudio, exec, trace_of, bind, gets, ret, emit.
  cbn [fst snd]. rewrite Hmon. split; reflexivity.
Qed.

(** C2. In every reachable state the registry holds at most one session,
    and only for the designated member. While monitoring is enabled, two
    calls of [processAudio] in a row for the same member leave that member
    registered once: the second call changes nothing and only writes its
    two console lines, and the two calls together create at most one
    closure. While monitoring is disabled, a call changes nothing. *)
Theorem one_session_per_subject (AUTH : UserId) :
  (forall w, reachable AUTH w ->
     registry_of AUTH w /\ (size (activeStreams w) <= 1)%nat)
  /\ (forall w receiver1 receiver2 user,
        isMonitoring w = true ->
        let w1 := exec (processAudio receiver1 user) w in
        let w2 := exec (processAudio receiver2 user) w1 in
        is_Some (activeStreams w1 !! member_id user)
        /\ w2 = w1
        /\ map eff (trace_of (processAudio receiver2 user) w1)
           = [ConsoleLog "[MONITOR] Starting to process audio for specific user";
              ConsoleLog "[MONITOR] Already monitoring user, skipping duplicate"]
        /\ (length (sessions w2) <= S (length (sessions w)))%nat)
  /\ (forall w receiver user,
        isMonitoring w = false ->
        exec (processAudio receiver user) w = w
        /\ map eff (trace_of (processAudio receiver user) w)
           = [ConsoleLog "[MONITOR] Monitoring is disabled, not processing audio"]).
Proof.
  split; [| split].
  - intros w Hw. pose proof (reachable_registry AUTH w Hw) as H.
    split; [exact H | eapply registry_of_size, H].
  - intros w receiver1 receiver2 user Hmon w1 w2.
    destruct (processAudio_registers receiver1 user w Hmon) as [Hreg [Hmon1 Hlen]].
    destruct (processAudio_duplicate receiver2 user w1 Hmon1 Hreg) as [Hsame Htrace].
    split; [exact Hreg |]. split; [exact Hsame |]. split; [exact Htrace |].
    subst w2. rewrite Hsame. exact Hlen.
  - intros w receiver user Hmon. apply processAudio_disabled, Hmon.
Qed.

Lemma one_session_per_subject_witness :
  (registry_of Sample.subject Sample.monitoring
   /\ (size (activeStreams Sample.monitoring) <= 1)%nat)
  /\ (let w1 := exec (processAudio Sample.receiver Sample.member) initial_world in
      exec (processAudio Sample.receiver Sample.member) w1 = w1)
  /\ (let w0 := exec (set_isMonitoring true) initial_world in
      let w1 := exec (processAudio Sample.receiver Sample.member) w0 in
      let w2 := exec (processAudio Sample.receiver Sample.member) w1 in
      is_Some (activeStreams w1 !! Sample.subject) /\ w2 = w1).
Proof.
  destruct (one_session_per_subject Sample.subject) as [Hreach [Htwice Hoff]].
  split; [| split].
  - apply Hreach. exists Sample.start. reflexivity.
  - cbv zeta.
    rewrite (proj1 (Hoff initial_world Sample.receiver Sample.member eq_refl)).
    exact (proj1 (Hoff initial_world Sample.receiver Sample.member eq_refl)).
  - intros w0 w1 w2.
    destruct (Htwice w0 Sample.receiver Sample.receiver Sample.member eq_refl)
      as [H1 [H2 _]].
    split; [exact H1 | exact H2].
Defined.

(** ** C10: joining enables monitoring *)

(** The path taken when the bot is already in the target channel. *)
Lemma joinAndMonitor_same_channel (channel : Channel) (guild : Guild) (w : World) :
  voiceConnections w !! guild_id guild = Some (channel_id channel) ->
  result_of (joinAndMonitor channel guild) w
    = Some {| conn_guildId := guild_id guild; conn_channelId := channel_id channel |}
  /\ exec (joinAndMonitor channel guild) w = exec (set_isMonitoring true) w
  /\ map eff (trace_of (joinAndMonitor channel guild) w)
     = [ConsoleLog "[BOT] Already in voice channel, not rejoining"].
Proof.
  intros Hc.
  unfold joinAndMonitor, result_of, exec, trace_of, bind, gets, ret, emit, set_isMonitoring.
  cbn [fst snd]. rewrite (bool_decide_eq_true_2 _ Hc). cbn [fst snd].
  repeat split.
Qed.

(** Every call that returns a connection has set the flag. *)
Lemma joinAndMonitor_enables (channel : Channel) (guild : Guild) (w : World) :
  result_of (joinAndMonitor channel guild) w <> None ->
  isMonitoring (exec (joinAndMonitor channel guild) w) = true.
Proof.
  unfold joinAndMonitor, result_of, exec, bind, gets, ret, emit,
    set_isMonitoring, set_voiceConnections.
  cbn [fst snd].
  repeat (case_bool_decide; cbn [fst snd isMonitoring]); try reflexivity;
    destruct (join_throws guild); cbn [fst snd isMonitoring]; congruence.
Qed.

(** The pause command clears the flag and leaves the rest of the state. *)
Lemma pause_command (AUTH : UserId) (message : Message) (w : World) :
  author_bot message = false ->
  toLowerCase (content message) = "!pausemonitor" ->
  exec (on_messageCreate AUTH message) w = exec (set_isMonitoring false) w.
Proof.
  intros Hbot Htext. unfold on_messageCreate, when_command.
  rewrite Hbot, Htext.
  change (bool_decide ("!pausemonitor" = "!EP_join")) with false.
  change (bool_decide ("!pausemonitor" = "!EP_leave")) with false.
  change (bool_decide ("!pausemonitor" = "!unmute")) with false.
  change (bool_decide ("!pausemonitor" = "!pausemonitor")) with true.
  change (bool_decide ("!pausemonitor" = "!resumemonitor")) with false.
  change (bool_decide ("!pausemonitor" = "!status")) with false.
  reflexivity.
Qed.

(** The clean-up block of the leave case and the move case leaves the
    connections alone. *)
Lemma cleanup_target_stream_frame (AUTH : UserId) (w : World) :
  wp (cleanup_target_stream AUTH)
     (fun _ w' => voiceConnections w' = voiceConnections w)
     keeps_connection w.
Proof.
  unfold cleanup_target_stream. wp_run; try reflexivity; split; reflexivity.
Qed.

Lemma joinAndMonitor_same_channel_wp (channel : Channel) (guild : Guild) (w : World) :
  voiceConnections w !! guild_id guild = Some (channel_id channel) ->
  wp (joinAndMonitor channel guild)
     (fun _ w' => isMonitoring w' = true /\ voiceConnections w' = voiceConnections w)
     keeps_connection w.
Proof.
  intros Hc. unfold joinAndMonitor. apply wp_bind, wp_gets. cbv beta.
  rewrite (bool_decide_eq_true_2 _ Hc).
  wp_run; try (split; reflexivity).
Qed.

Lemma presence_event_same_channel (AUTH : UserId) (channel : Channel)
      (oldState newState : VoiceState) (w : World) :
  joins_or_moves_to AUTH channel oldState newState ->
  voiceConnections w !! guild_id (vs_guild newState) = Some (channel_id channel) ->
  wp (on_voiceStateUpdate AUTH oldState newState)
     (fun _ w' => isMonitoring w' = true /\ voiceConnections w' = voiceConnections w)
     keeps_connection w.
Proof.
  intros (Hwho & Hnew & Hold) Hc. unfold on_voiceStateUpdate.
  assert ((bool_decide (vs_member_id newState = AUTH)
           || bool_decide (vs_member_id oldState = AUTH))%bool = true) as ->.
  { apply orb_true_iff. destruct Hwho as [H | H]; [left | right];
      apply bool_decide_eq_true_2, H. }
  rewrite Hnew.
  assert (forall w', voiceConnections w' = voiceConnections w ->
            wp (bind (joinAndMonitor channel (vs_guild newState)) (fun _ => ret tt))
               (fun _ w'' => isMonitoring w'' = true
                             /\ voiceConnections w'' = voiceConnections w)
               keeps_connection w') as Hjoin.
  { intros w' Hw'. apply wp_bind. eapply wp_mono.
    - apply joinAndMonitor_same_channel_wp. rewrite Hw'. exact Hc.
    - intros ? w'' [H1 H2]. apply wp_ret. split; [exact H1 | congruence]. }
  destruct (vs_channel oldState) as [oldChannel |].
  - rewrite (bool_decide_eq_true_2 _ Hold).
    do 4 (apply wp_bind, wp_emit; [split; reflexivity | cbv beta]).
    apply wp_bind. eapply wp_mono.
    + apply cleanup_target_stream_frame.
    + intros ? w' Hw'. apply Hjoin, Hw'.
  - do 4 (apply wp_bind, wp_emit; [split; reflexivity | cbv beta]).
    apply Hjoin. reflexivity.
Qed.

Lemma no_join_no_destroy (t : list Obs) :
  Forall keeps_connection t ->
  List.filter is_join t = [] /\ List.filter is_connection_destroy t = [].
Proof.
  induction 1 as [| o t [Hj Hd] _ [IHj IHd]]; [split; reflexivity |].
  cbn [List.filter]. rewrite Hj, Hd. split; assumption.
Qed.

(** A call of [joinAndMonitor] for a guild where joining does not throw
    ends with monitoring enabled. *)
Lemma joinAndMonitor_enables_wp (channel : Channel) (guild : Guild) (w : World) :
  join_throws guild = false ->
  wp (joinAndMonitor channel guild) (fun _ w' => isMonitoring w' = true)
     (fun _ => True) w.
Proof.
  intros Hj. unfold joinAndMonitor. rewrite Hj.
  wp_run; try exact Logic.I; reflexivity.
Qed.

(** A join or a move of the designated member enables monitoring, whatever
    the state, when joining does not throw. *)
Lemma presence_event_enables (AUTH : UserId) (channel : Channel)
      (oldState newState : VoiceState) (w : World) :
  joins_or_moves_to AUTH channel oldState newState ->
  join_throws (vs_guild newState) = false ->
  isMonitoring (exec (on_voiceStateUpdate AUTH oldState newState) w) = true.
Proof.
  intros (Hwho & Hnew & Hold) Hj.
  cut (wp (on_voiceStateUpdate AUTH oldState newState)
          (fun _ w' => isMonitoring w' = true) (fun _ => True) w).
  { intros [H _]. exact H. }
  unfold on_voiceStateUpdate.
  assert ((bool_decide (vs_member_id newState = AUTH)
           || bool_decide (vs_member_id oldState = AUTH))%bool = true) as ->.
  { apply orb_true_iff. destruct Hwho as [H | H]; [left | right];
      apply bool_decide_eq_true_2, H. }
  rewrite Hnew.
  assert (forall w',
            wp (bind (joinAndMonitor channel (vs_guild newState)) (fun _ => ret tt))
               (fun _ w'' => isMonitoring w'' = true) (fun _ => True) w') as Hjoin.
  { intros w'. apply wp_bind. eapply wp_mono.
    - apply joinAndMonitor_enables_wp, Hj.
    - intros ? w'' H. apply wp_ret. exact H. }
  destruct (vs_channel oldState) as [oldChannel |].
  - rewrite (bool_decide_eq_true_2 _ Hold).
    do 4 (apply wp_bind, wp_emit; [exact Logic.I | cbv beta]).
    apply wp_bind. apply wp_mono with (Q := fun _ _ => True).
    + unfold cleanup_target_stream. wp_run; exact Logic.I.
    + intros ? w' _. apply Hjoin.
  - do 4 (apply wp_bind, wp_emit; [exact Logic.I | cbv beta]).
    apply Hjoin.
Qed.

(** C10. Every call of [joinAndMonitor] that returns a connection sets
    [isMonitoring]; when the bot is already in the target channel the call
    does only that, besides one console line. So, after the pause command,
    a presence event of the designated member that is a join of, or a move
    to, the channel the bot is already in sets [isMonitoring] again, and it
    neither joins a channel nor destroys a connection. Whatever the state, a
    join or a move of the designated member ends with [isMonitoring] set when
    joining does not throw. *)
Theorem join_reenables_monitoring (AUTH : UserId) :
  (forall channel guild w,
     result_of (joinAndMonitor channel guild) w <> None ->
     isMonitoring (exec (joinAndMonitor channel guild) w) = true)
  /\ (forall channel guild w,
        voiceConnections w !! guild_id guild = Some (channel_id channel) ->
        result_of (joinAndMonitor channel guild) w
          = Some {| conn_guildId := guild_id guild; conn_channelId := channel_id channel |}
        /\ exec (joinAndMonitor channel guild) w = exec (set_isMonitoring true) w
        /\ map eff (trace_of (joinAndMonitor channel guild) w)
           = [ConsoleLog "[BOT] Already in voice channel, not rejoining"])
  /\ (forall message channel oldState newState w,
        author_bot message = false ->
        toLowerCase (content message) = "!pausemonitor" ->
        joins_or_moves_to AUTH channel oldState newState ->
        voiceConnections w !! guild_id (vs_guild newState) = Some (channel_id channel) ->
        let paused := exec (on_messageCreate AUTH message) w in
        let w' := exec (on_voiceStateUpdate AUTH oldState newState) paused in
        let t := trace_of (on_voiceStateUpdate AUTH oldState newState) paused in
        isMonitoring paused = false
        /\ isMonitoring w' = true
        /\ voiceConnections w' = voiceConnections w
        /\ List.filter is_join t = []
        /\ List.filter is_connection_destroy t = [])
  /\ (forall channel oldState newState w,
        joins_or_moves_to AUTH channel oldState newState ->
        join_throws (vs_guild newState) = false ->
        isMonitoring (exec (on_voiceStateUpdate AUTH oldState newState) w) = true).
Proof.
  split; [| split; [| split]].
  - intros channel guild w. apply joinAndMonitor_enables.
  - intros channel guild w. apply joinAndMonitor_same_channel.
  - intros message channel oldState newState w Hbot Htext Hev Hc paused w' t.
    assert (paused = exec (set_isMonitoring false) w) as Hp
      by (apply pause_command; assumption).
    destruct (presence_event_same_channel AUTH channel oldState newState paused Hev)
      as [[Hmon Hconn] Ht].
    { rewrite Hp. exact Hc. }
    destruct (no_join_no_destroy _ Ht) as [Hj Hd].
    split; [rewrite Hp; reflexivity |].
    split; [exact Hmon |].
    split; [fold w' in Hconn; rewrite Hconn, Hp; reflexivity |].
    split; assumption.
  - intros channel oldState newState w. apply presence_event_enables.
Qed.

Lemma join_reenables_monitoring_witness :
  let paused := exec (on_messageCreate Sample.subject (Sample.says "!PauseMonitor"))
                     Sample.monitoring in
  let event := on_voiceStateUpdate Sample.subject
                 (Sample.voice (Some Sample.stage)) (Sample.voice (Some Sample.lobby)) in
  isMonitoring paused = false
  /\ isMonitoring (exec event paused) = true
  /\ voiceConnections (exec event paused) = voiceConnections Sample.monitoring
  /\ List.filter is_join (trace_of event paused) = []
  /\ List.filter is_connection_destroy (trace_of event paused) = [].
Proof.
  apply (proj1 (proj2 (proj2 (join_reenables_monitoring Sample.subject)))
           (Sample.says "!PauseMonitor") Sample.lobby
           (Sample.voice (Some Sample.stage)) (Sample.voice (Some Sample.lobby))
           Sample.monitoring).
  - reflexivity.
  - reflexivity.
  - split; [left; reflexivity | split; [reflexivity | discriminate]].
  - reflexivity.
Defined.

(** ** C6, C7: the loudness estimator and the empty frame *)

(** C6. On every frame with at least one sample, [calculateVolume] returns
    [20 * log10 (mean |sample_i| + 1)], a finite number that is not
    negative; on a frame of zeros it returns exactly 0. *)
Theorem calculateVolume_nonempty (data : list Z) :
  data <> [] ->
  calculateVolume data = JS.Fin (loudness_formula data)
  /\ JS.is_finite (calculateVolume data)
  /\ (0 <= loudness_formula data)%R
  /\ (Forall (fun x => x = 0) data -> calculateVolume data = JS.Fin 0).
Proof.
  intros H. pose proof (calculateVolume_formula data H) as E.
  split; [exact E |]. split; [rewrite E; exact Logic.I |].
  split; [apply loudness_formula_nonneg, H |].
  intros Hz. rewrite E, (loudness_formula_silence data Hz). reflexivity.
Qed.

Lemma calculateVolume_nonempty_witness :
  calculateVolume Sample.quiet_frame = JS.Fin (loudness_formula Sample.quiet_frame)
  /\ JS.is_finite (calculateVolume Sample.quiet_frame)
  /\ (0 <= loudness_formula Sample.quiet_frame)%R
  /\ (Forall (fun x => x = 0) Sample.quiet_frame -> calculateVolume Sample.quiet_frame = JS.Fin 0).
Proof. apply (calculateVolume_nonempty Sample.quiet_frame). discriminate. Defined.

(** A frame of silence. *)
Example calculateVolume_silence : calculateVolume Sample.silent_frame = JS.Fin 0.
Proof.
  rewrite calculateVolume_formula by discriminate.
  rewrite loudness_formula_silence by repeat constructor. reflexivity.
Qed.

(** C7, as stated, fails: on the empty frame [calculateVolume] has no guard.
    It runs its formula, divides the empty sum 0 by the length 0, and
    returns the NaN that this division yields. *)
Lemma calculateVolume_empty_divides_by_zero :
  calculateVolume []
    = JS.mul (JS.Fin 20)
        (JS.log10 (JS.add (JS.div (JS.Fin 0) (JS.Fin 0)) (JS.Fin 1)))
  /\ JS.div (JS.Fin 0) (JS.Fin 0) = JS.NaN
  /\ calculateVolume [] = JS.NaN.
Proof.
  split; [reflexivity |]. split; [| apply calculateVolume_empty].
  cbn [JS.div]. rewrite sgn_zero. reflexivity.
Qed.

(** C7, amended. The guard is in the frame handler: while monitoring is
    enabled, an empty or a missing chunk makes the handler return before
    the estimator is called, with the state unchanged and no call made. The
    estimator itself returns NaN on the empty frame; it does not throw. *)
Theorem empty_frame_guard (w : World) (sid : nat) (muted : bool) (now : Z) :
  isMonitoring w = true ->
  on_data sid (Some []) muted now w = (tt, w, [])
  /\ on_data sid None muted now w = (tt, w, [])
  /\ calculateVolume [] = JS.NaN.
Proof.
  intros Hmon. unfold on_data, bind, gets, ret. cbn [fst snd].
  destruct (sessions w !! sid) as [s |]; rewrite ?Hmon; cbn [negb length Nat.eqb];
    (split; [reflexivity |]); (split; [reflexivity |]); apply calculateVolume_empty.
Qed.

Lemma empty_frame_guard_witness :
  on_data 0 (Some []) false 10000 Sample.monitoring = (tt, Sample.monitoring, [])
  /\ on_data 0 None false 10000 Sample.monitoring = (tt, Sample.monitoring, [])
  /\ calculateVolume [] = JS.NaN.
Proof. apply (empty_frame_guard Sample.monitoring 0 false 10000). reflexivity. Defined.

(** ** C8: the join and leave commands *)

Lemma lower_ascii_not_E (c : ascii) : lower_ascii c <> "E"%char.
Proof. destruct c as [[] [] [] [] [] [] [] []]; vm_compute; discriminate. Qed.

(** No text is lowercased to a string whose second character is [E]. *)
Lemma toLowerCase_second_E (s : string) (c : ascii) (rest : string) :
  toLowerCase s <> String c (String "E" rest).
Proof.
  destruct s as [| c0 [| c1 s]]; cbn [toLowerCase]; try discriminate.
  intros H. injection H as _ H _. exact (lower_ascii_not_E c1 H).
Qed.

Lemma when_command_join_never (message : Message) (body : Handler unit) :
  when_command message "!EP_join" body = ret tt.
Proof.
  unfold when_command.
  rewrite bool_decide_eq_false_2 by apply toLowerCase_second_E. reflexivity.
Qed.

Lemma when_command_leave_never (message : Message) (body : Handler unit) :
  when_command message "!EP_leave" body = ret tt.
Proof.
  unfold when_command.
  rewrite bool_decide_eq_false_2 by apply toLowerCase_second_E. reflexivity.
Qed.

(** The commands that can run make no call on a voice connection. *)
Lemma on_messageCreate_keeps_connection (AUTH : UserId) (message : Message) (w : World) :
  wp (on_messageCreate AUTH message)
     (fun _ w' => voiceConnections w' = voiceConnections w) keeps_connection w.
Proof.
  unfold on_messageCreate.
  rewrite when_command_join_never, when_command_leave_never.
  unfold when_command, command_unmute, command_status.
  wp_run; try reflexivity; split; reflexivity.
Qed.

(** C8. The handler lowercases the text and compares it with the literals
    [!EP_join] and [!EP_leave], which hold capital letters: whatever the
    message, neither command runs, so no message makes the bot join a voice
    channel or destroy its connection. In particular the texts [!EP_join],
    [!ep_join] and [!EP_leave] do nothing at all, while a command with a
    lowercase literal is recognised in any letter case. *)
Theorem join_leave_commands_never_run (AUTH : UserId) (message : Message) (w : World) :
  when_command message "!EP_join" (command_join message) w = (tt, w, [])
  /\ when_command message "!EP_leave" (command_leave message) w = (tt, w, [])
  /\ voiceConnections (exec (on_messageCreate AUTH message) w) = voiceConnections w
  /\ List.filter is_join (trace_of (on_messageCreate AUTH message) w) = []
  /\ List.filter is_connection_destroy (trace_of (on_messageCreate AUTH message) w) = []
  /\ on_messageCreate AUTH (Sample.says "!EP_join") w = (tt, w, [])
  /\ on_messageCreate AUTH (Sample.says "!ep_join") w = (tt, w, [])
  /\ on_messageCreate AUTH (Sample.says "!EP_leave") w = (tt, w, [])
  /\ map eff (trace_of (on_messageCreate AUTH (Sample.says "!PauseMonitor")) w)
     = [ConsoleLog "[COMMAND] Received !pausemonitor command";
        Reply "Audio monitoring paused!"].
Proof.
  split; [rewrite when_command_join_never; reflexivity |].
  split; [rewrite when_command_leave_never; reflexivity |].
  destruct (on_messageCreate_keeps_connection AUTH message w) as [Hc Ht].
  destruct (no_join_no_destroy _ Ht) as [Hj Hd].
  repeat (split; [first [assumption | reflexivity] |]).
  reflexivity.
Qed.

(** ** C3, C4: how sessions end *)

(** A frame that arrives while monitoring is disabled: the stream is
    destroyed and the state, registry included, is left as it was. *)
Lemma on_data_disabled (w : World) (sid : nat) (s : Session)
      (chunk : option (list Z)) (muted : bool) (now : Z) :
  sessions w !! sid = Some s -> isMonitoring w = false ->
  exec (on_data sid chunk muted now) w = w
  /\ map eff (trace_of (on_data sid chunk muted now) w)
     = [StreamDestroy (s_audioStream s)].
Proof.
  intros Hs Hmon. unfold on_data, exec, trace_of, bind, gets, emit.
  cbn [fst snd]. rewrite Hs. cbn [fst snd]. rewrite Hmon. split; reflexivity.
Qed.

(** While monitoring is disabled the speaking listener starts nothing. *)
Lemma on_speaking_start_disabled (AUTH : UserId) (guild : Guild)
      (receiver : Receiver) (userId : UserId) (w : World) :
  isMonitoring w = false ->
  on_speaking_start AUTH guild receiver userId w = (tt, w, []).
Proof.
  intros Hmon. unfold on_speaking_start, bind, gets. cbn [fst snd].
  rewrite Hmon, andb_false_r. reflexivity.
Qed.

(** A decoder error removes the session of the member from the registry and
    makes no call on the stream. *)
Lemma on_error_registered (w : World) (sid : nat) (s : Session) :
  sessions w !! sid = Some s ->
  activeStreams (exec (on_error sid) w) !! member_id (s_user s) = None
  /\ map eff (trace_of (on_error sid) w)
     = [ConsoleError "[ERROR] Error in audio processing function:"].
Proof.
  intros Hs. unfold on_error, exec, trace_of, bind, gets, emit, ret, set_activeStreams.
  cbn [fst snd]. rewrite Hs. cbn [fst snd].
  case_bool_decide as Hhas; cbn [fst snd activeStreams].
  - split; [apply lookup_delete_eq | reflexivity].
  - split; [| reflexivity].
    destruct (activeStreams w !! member_id (s_user s)) eqn:E; [| reflexivity].
    exfalso. apply Hhas. eauto.
Qed.

(** C3. The member is monitored in session 0 on stream 7; the operator
    pauses monitoring; the next frame arrives. The frame handler destroys
    the stream, but the registry still holds the session. Since the entry
    stays, after the resume command the next speaking event is skipped as a
    duplicate and no session is opened for the member. *)
Theorem pause_leaves_stale_session :
  let pause := MessageCreate (Sample.says "!pausemonitor") in
  let resume := MessageCreate (Sample.says "!resumemonitor") in
  let frame := DecodedFrame 0 (Some Sample.loud_frame) false 10000 in
  let speaks := SpeakingStart Sample.guild Sample.receiver Sample.subject in
  let paused := exec (run Sample.subject [pause]) Sample.monitoring in
  let after := exec (run Sample.subject [frame]) paused in
  activeStreams Sample.monitoring !! Sample.subject = Some 7%nat
  /\ isMonitoring paused = false
  /\ map eff (trace_of (run Sample.subject [frame]) paused) = [StreamDestroy 7]
  /\ activeStreams after !! Sample.subject = Some 7%nat
  /\ map eff (trace_of (run Sample.subject [resume; speaks]) after)
     = [ConsoleLog "[COMMAND] Received !resumemonitor command";
        Reply "Audio monitoring resumed!";
        ConsoleLog "[EVENT] Specific user started speaking";
        ConsoleLog "[MONITOR] Starting to process audio for specific user";
        ConsoleLog "[MONITOR] Already monitoring user, skipping duplicate"]
  /\ sessions (exec (run Sample.subject [resume; speaks]) after)
     = sessions Sample.monitoring.
Proof. vm_compute. repeat split. Qed.

(** C4. Two ways in which a session ends badly, on the session of C3.
    A decoder error removes the registry entry and never destroys the
    stream. A frame handled while monitoring is disabled destroys the stream
    and leaves the registry entry, so that a later leave event destroys the
    same stream a second time. The leave event and [stopAllMonitoring], on
    a session that is still registered and alive, do both, once. *)
Theorem termination_paths_differ :
  let error := DecoderError 0 in
  let pause := MessageCreate (Sample.says "!pausemonitor") in
  let frame := DecodedFrame 0 (Some Sample.loud_frame) false 10000 in
  let leave := VoiceStateUpdate (Sample.voice (Some Sample.lobby)) (Sample.voice None) in
  activeStreams Sample.monitoring !! Sample.subject = Some 7%nat
  /\ (activeStreams (exec (run Sample.subject [error]) Sample.monitoring) = ∅
      /\ releases 7 (trace_of (run Sample.subject [error]) Sample.monitoring) = 0%nat)
  /\ (activeStreams (exec (run Sample.subject [pause; frame]) Sample.monitoring)
        !! Sample.subject = Some 7%nat
      /\ releases 7 (trace_of (run Sample.subject [pause; frame]) Sample.monitoring) = 1%nat)
  /\ releases 7 (trace_of (run Sample.subject [pause; frame; leave]) Sample.monitoring)
     = 2%nat
  /\ (activeStreams (exec (run Sample.subject [leave]) Sample.monitoring) = ∅
      /\ releases 7 (trace_of (run Sample.subject [leave]) Sample.monitoring) = 1%nat)
  /\ (activeStreams (exec stopAllMonitoring Sample.monitoring) = ∅
      /\ releases 7 (trace_of stopAllMonitoring Sample.monitoring) = 1%nat).
Proof. vm_compute. repeat split. Qed.

(** After a decoder error the member's entry is gone while the stream was
    never destroyed, so the next speaking event opens a second closure for
    the same member next to the first one. *)
Example error_then_restart :
  let error := DecoderError 0 in
  let speaks := SpeakingStart Sample.guild Sample.receiver Sample.subject in
  let w := exec (run Sample.subject [error; speaks]) Sample.monitoring in
  length (sessions w) = 2%nat
  /\ size (activeStreams w) = 1%nat
  /\ releases 7 (trace_of (run Sample.subject [error; speaks]) Sample.monitoring) = 0%nat.
Proof. vm_compute. repeat split. Qed.

(** * Further properties of the handlers *)

(** ** [stopAllMonitoring] *)

Lemma for_each_destroy (l : list (string * nat)) (w : World) :
  for_each (fun '(userId, stream) => emit (StreamDestroy stream)) l w
  = (tt, w, map (fun e => obs (StreamDestroy e.2) w) l).
Proof.
  induction l as [| [userId stream] l IH]; [reflexivity |].
  cbn [for_each]. unfold bind. cbn [emit]. rewrite IH. reflexivity.
Qed.

(** The whole effect of [stopAllMonitoring], as one equation. *)
Lemma stopAllMonitoring_run (w : World) :
  stopAllMonitoring w
  = (tt, stopped w,
     obs (ConsoleLog "[MONITOR] Stopping all audio monitoring") w
     :: map (fun e => obs (StreamDestroy e.2)
                          (exec (set_isMonitoring false) w))
            (map_to_list (activeStreams w))).
Proof.
  unfold stopAllMonitoring, bind, emit, set_isMonitoring, gets, set_activeStreams.
  cbn [activeStreams].
  rewrite for_each_destroy.
  cbn [app]. rewrite app_nil_r. reflexivity.
Qed.

Lemma releases_destroys (h : Handle) (w : World) (l : list (string * nat)) :
  releases h (map (fun e => obs (StreamDestroy e.2) w) l)
  = length (List.filter (fun e : string * nat => bool_decide (e.2 = h)) l).
Proof.
  unfold releases. induction l as [| e l IH]; [reflexivity |].
  cbn [map List.filter]. unfold is_destroy_of at 1. cbn [obs eff].
  destruct (bool_decide (e.2 = h)); cbn [length]; rewrite IH; reflexivity.
Qed.

Lemma releases_stopAllMonitoring (h : Handle) (w : World) :
  releases h (trace_of stopAllMonitoring w)
  = length (List.filter (fun e : string * nat => bool_decide (e.2 = h))
                        (map_to_list (activeStreams w))).
Proof.
  unfold trace_of. rewrite stopAllMonitoring_run. cbn [snd].
  rewrite <- (releases_destroys h (exec (set_isMonitoring false) w)).
  reflexivity.
Qed.

(** A registry that only holds member [u], with a session on [h], is the
    singleton map. *)
Lemma registry_of_singleton (u : UserId) (h : Handle) (w : World) :
  registry_of u w -> activeStreams w !! u = Some h ->
  activeStreams w = {[u := h]}.
Proof.
  intros Hreg Hu. apply map_eq. intros k.
  destruct (decide (k = u)) as [-> | Hne].
  - rewrite lookup_singleton_eq. exact Hu.
  - rewrite lookup_singleton_ne by congruence.
    destruct (activeStreams w !! k) eqn:E; [| reflexivity].
    exfalso. apply Hne, Hreg. eauto.
Qed.

(** [stopAllMonitoring] destroys every registered stream. *)
Lemma stopAllMonitoring_releases_registered (u : UserId) (h : Handle) (w : World) :
  activeStreams w !! u = Some h ->
  (1 <= releases h (trace_of stopAllMonitoring w))%nat.
Proof.
  intros Hu. rewrite releases_stopAllMonitoring.
  apply elem_of_map_to_list in Hu.
  apply list_elem_of_In in Hu.
  assert (In (u, h) (List.filter (fun e : string * nat => bool_decide (e.2 = h))
                                 (map_to_list (activeStreams w)))) as Hin.
  { apply List.filter_In. split; [exact Hu |]. apply bool_decide_eq_true_2. reflexivity. }
  destruct (List.filter _ _); [destruct Hin | cbn [length]; lia].
Qed.

(** X1. [stopAllMonitoring], from any state: monitoring is off, the registry
    is empty, the timestamp, the connections and the closures are as they
    were; every registered stream is destroyed, no other stream is, and a
    registry that holds the designated member alone has its stream
    destroyed exactly once. *)
Theorem stopAllMonitoring_tears_down (w : World) :
  exec stopAllMonitoring w = stopped w
  /\ (forall u h, activeStreams w !! u = Some h ->
        (1 <= releases h (trace_of stopAllMonitoring w))%nat)
  /\ (forall h, (forall u, activeStreams w !! u <> Some h) ->
        releases h (trace_of stopAllMonitoring w) = 0%nat)
  /\ (forall u h, registry_of u w -> activeStreams w !! u = Some h ->
        releases h (trace_of stopAllMonitoring w) = 1%nat).
Proof.
  split; [unfold exec; rewrite stopAllMonitoring_run; reflexivity |].
  split; [| split].
  - intros u h Hu. apply (stopAllMonitoring_releases_registered u h w Hu).
  - intros h Hno. rewrite releases_stopAllMonitoring.
    assert (List.filter (fun e : string * nat => bool_decide (e.2 = h))
                        (map_to_list (activeStreams w)) = []) as ->; [| reflexivity].
    destruct (List.filter _ _) as [| [u h'] l] eqn:E; [reflexivity | exfalso].
    assert (In (u, h') ((u, h') :: l)) as Hin by (left; reflexivity).
    rewrite <- E in Hin. apply List.filter_In in Hin as [Hin Hh].
    apply bool_decide_eq_true_1 in Hh. cbn in Hh. subst h'.
    apply list_elem_of_In, elem_of_map_to_list in Hin. exact (Hno u Hin).
  - intros u h Hreg Hu. rewrite releases_stopAllMonitoring.
    rewrite (registry_of_singleton u h w Hreg Hu), map_to_list_singleton.
    cbn [List.filter]. rewrite bool_decide_eq_true_2 by reflexivity. reflexivity.
Qed.

Lemma stopAllMonitoring_tears_down_witness :
  releases 7 (trace_of stopAllMonitoring Sample.monitoring) = 1%nat.
Proof.
  apply (proj2 (proj2 (proj2 (stopAllMonitoring_tears_down Sample.monitoring)))
           Sample.subject 7%nat).
  - apply reachable_registry. exists Sample.start. reflexivity.
  - reflexivity.
Defined.

(** X2. [stopAllMonitoring] is idempotent: a second call changes nothing
    and destroys nothing; it only writes its console line. *)
Theorem stopAllMonitoring_idempotent (w : World) :
  exec stopAllMonitoring (exec stopAllMonitoring w) = exec stopAllMonitoring w
  /\ map eff (trace_of stopAllMonitoring (exec stopAllMonitoring w))
     = [ConsoleLog "[MONITOR] Stopping all audio monitoring"].
Proof.
  unfold exec, trace_of. rewrite !stopAllMonitoring_run.
  cbn [fst snd stopped activeStreams].
  rewrite map_to_list_empty. split; reflexivity.
Qed.

(** ** The leave event *)

Lemma cleanup_target_stream_run (AUTH : UserId) (w : World) :
  cleanup_target_stream AUTH w
  = match activeStreams w !! AUTH with
    | Some stream =>
        (tt, exec (set_activeStreams (delete AUTH (activeStreams w))) w,
         [obs (StreamDestroy stream) w])
    | None => (tt, w, [])
    end.
Proof.
  unfold cleanup_target_stream, bind, gets. cbn [fst snd].
  destruct (activeStreams w !! AUTH); reflexivity.
Qed.

Lemma registry_of_delete_empty (u : UserId) (w : World) :
  registry_of u w -> delete u (activeStreams w) = ∅.
Proof.
  intros Hreg. apply map_eq. intros k. rewrite lookup_empty.
  destruct (decide (k = u)) as [-> | Hne]; [apply lookup_delete_eq |].
  rewrite lookup_delete_ne by congruence.
  destruct (activeStreams w !! k) eqn:E; [| reflexivity].
  exfalso. apply Hne, Hreg. eauto.
Qed.

Lemma subject_event (AUTH : UserId) (oldState newState : VoiceState) :
  vs_member_id newState = AUTH \/ vs_member_id oldState = AUTH ->
  (bool_decide (vs_member_id newState = AUTH)
   || bool_decide (vs_member_id oldState = AUTH))%bool = true.
Proof.
  intros [H | H]; apply orb_true_iff; [left | right]; apply bool_decide_eq_true_2, H.
Qed.

(** The leave case when the bot has a connection in the guild, on a
    registry that holds the designated member alone. *)
Lemma leave_event_run (AUTH : UserId) (oldState newState : VoiceState)
      (oldChannel : Channel) (w : World) :
  vs_member_id newState = AUTH \/ vs_member_id oldState = AUTH ->
  vs_channel oldState = Some oldChannel -> vs_channel newState = None ->
  is_Some (voiceConnections w !! guild_id (vs_guild oldState)) ->
  registry_of AUTH w ->
  exec (on_voiceStateUpdate AUTH oldState newState) w
  = exec (set_voiceConnections (delete (guild_id (vs_guild oldState)) (voiceConnections w)))
         (stopped w)
  /\ map eff (trace_of (on_voiceStateUpdate AUTH oldState newState) w)
     = [ConsoleLog "[DEBUG] Voice state update for user";
        ConsoleLog "[DEBUG] Old channel:";
        ConsoleLog "[DEBUG] New channel:";
        ConsoleLog "[EVENT] Target user left voice channel"]
       ++ match activeStreams w !! AUTH with
          | Some stream => [StreamDestroy stream]
          | None => []
          end
       ++ [ConsoleLog "[BOT] Automatically leaving voice channel because target user left";
           ConsoleLog "[MONITOR] Stopping all audio monitoring";
           ConnectionDestroy (guild_id (vs_guild oldState))].
Proof.
  intros Hwho Hold Hnew Hconn Hreg.
  unfold exec, trace_of, on_voiceStateUpdate.
  rewrite (subject_event _ _ _ Hwho), Hold, Hnew.
  unfold bind, emit, gets, set_voiceConnections, ret.
  rewrite cleanup_target_stream_run.
  destruct (activeStreams w !! AUTH) as [stream |] eqn:E;
    cbn [fst snd exec set_activeStreams voiceConnections];
    rewrite (bool_decide_eq_true_2 _ Hconn);
    rewrite stopAllMonitoring_run;
    cbn [fst snd activeStreams stopped lastMuteTime voiceConnections sessions app map].
  - rewrite (registry_of_delete_empty AUTH w Hreg), map_to_list_empty. split; reflexivity.
  - assert (activeStreams w = ∅) as ->.
    { rewrite <- (registry_of_delete_empty AUTH w Hreg). symmetry.
      apply delete_id. exact E. }
    rewrite map_to_list_empty. split; reflexivity.
Qed.

(** Counting in a trace only looks at the calls. *)
Lemma count_by_effects (q : Effect -> bool) (t : list Obs) :
  length (List.filter (fun o => q (eff o)) t) = length (List.filter q (map eff t)).
Proof.
  induction t as [| o t IH]; [reflexivity |].
  cbn [map List.filter]. destruct (q (eff o)); cbn [length]; rewrite IH; reflexivity.
Qed.

(** X3. The designated member leaves the voice channel while the bot has a
    connection in the guild and the registry holds that member alone. Then
    the registry is empty, monitoring is off, the connection of the guild is
    gone and was destroyed once, no channel is joined, the cooldown
    timestamp is untouched, and the member's stream, if one is registered,
    is destroyed exactly once. *)
Theorem leave_event_tears_down (AUTH : UserId) (oldState newState : VoiceState)
        (oldChannel : Channel) (w : World) :
  vs_member_id newState = AUTH \/ vs_member_id oldState = AUTH ->
  vs_channel oldState = Some oldChannel -> vs_channel newState = None ->
  is_Some (voiceConnections w !! guild_id (vs_guild oldState)) ->
  registry_of AUTH w ->
  activeStreams (exec (on_voiceStateUpdate AUTH oldState newState) w) = ∅
  /\ isMonitoring (exec (on_voiceStateUpdate AUTH oldState newState) w) = false
  /\ voiceConnections (exec (on_voiceStateUpdate AUTH oldState newState) w)
       !! guild_id (vs_guild oldState) = None
  /\ lastMuteTime (exec (on_voiceStateUpdate AUTH oldState newState) w) = lastMuteTime w
  /\ count_of is_connection_destroy
       (trace_of (on_voiceStateUpdate AUTH oldState newState) w) = 1%nat
  /\ count_of is_join (trace_of (on_voiceStateUpdate AUTH oldState newState) w) = 0%nat
  /\ (forall h, activeStreams w !! AUTH = Some h ->
        releases h (trace_of (on_voiceStateUpdate AUTH oldState newState) w) = 1%nat).
Proof.
  intros Hwho Hold Hnew Hconn Hreg.
  destruct (leave_event_run AUTH oldState newState oldChannel w Hwho Hold Hnew Hconn Hreg)
    as [Hexec Htrace].
  rewrite Hexec. cbn [exec set_voiceConnections stopped fst snd activeStreams
                      isMonitoring voiceConnections lastMuteTime].
  split; [reflexivity |]. split; [reflexivity |].
  split; [apply lookup_delete_eq |]. split; [reflexivity |].
  unfold count_of, releases.
  split; [| split].
  - unfold is_connection_destroy.
    rewrite (count_by_effects
               (fun e => match e with ConnectionDestroy _ => true | _ => false end)).
    rewrite Htrace. destruct (activeStreams w !! AUTH); reflexivity.
  - unfold is_join.
    rewrite (count_by_effects
               (fun e => match e with JoinVoiceChannel _ _ => true | _ => false end)).
    rewrite Htrace. destruct (activeStreams w !! AUTH); reflexivity.
  - intros h Hh. unfold is_destroy_of.
    rewrite (count_by_effects
               (fun e => match e with
                         | StreamDestroy h' => bool_decide (h' = h)
                         | _ => false
                         end)).
    rewrite Htrace, Hh. cbn [app List.filter].
    rewrite bool_decide_eq_true_2 by reflexivity. reflexivity.
Qed.

Lemma leave_event_tears_down_witness :
  let leave := on_voiceStateUpdate Sample.subject
                 (Sample.voice (Some Sample.lobby)) (Sample.voice None) in
  activeStreams (exec leave Sample.monitoring) = ∅
  /\ isMonitoring (exec leave Sample.monitoring) = false
  /\ voiceConnections (exec leave Sample.monitoring) !! "guild" = None
  /\ lastMuteTime (exec leave Sample.monitoring) = lastMuteTime Sample.monitoring
  /\ count_of is_connection_destroy (trace_of leave Sample.monitoring) = 1%nat
  /\ count_of is_join (trace_of leave Sample.monitoring) = 0%nat
  /\ (forall h, activeStreams Sample.monitoring !! Sample.subject = Some h ->
        releases h (trace_of leave Sample.monitoring) = 1%nat).
Proof.
  apply (leave_event_tears_down Sample.subject
           (Sample.voice (Some Sample.lobby)) (Sample.voice None)
           Sample.lobby Sample.monitoring).
  - left. reflexivity.
  - reflexivity.
  - reflexivity.
  - exists "lobby". reflexivity.
  - apply reachable_registry. exists Sample.start. reflexivity.
Defined.

(** X4. The designated member leaves while the bot has no connection in
    the guild: the member's stream is destroyed once and leaves the
    registry, but [stopAllMonitoring] is not called, so [isMonitoring]
    keeps its value and the sessions of other keys stay registered. *)
Theorem leave_event_without_connection (AUTH : UserId) (oldState newState : VoiceState)
        (oldChannel : Channel) (w : World) :
  vs_member_id newState = AUTH \/ vs_member_id oldState = AUTH ->
  vs_channel oldState = Some oldChannel -> vs_channel newState = None ->
  voiceConnections w !! guild_id (vs_guild oldState) = None ->
  activeStreams (exec (on_voiceStateUpdate AUTH oldState newState) w)
    = delete AUTH (activeStreams w)
  /\ isMonitoring (exec (on_voiceStateUpdate AUTH oldState newState) w) = isMonitoring w
  /\ voiceConnections (exec (on_voiceStateUpdate AUTH oldState newState) w)
     = voiceConnections w
  /\ count_of is_connection_destroy
       (trace_of (on_voiceStateUpdate AUTH oldState newState) w) = 0%nat
  /\ (forall h, activeStreams w !! AUTH = Some h ->
        releases h (trace_of (on_voiceStateUpdate AUTH oldState newState) w) = 1%nat).
Proof.
  intros Hwho Hold Hnew Hconn.
  unfold exec, trace_of, count_of, releases, on_voiceStateUpdate.
  rewrite (subject_event _ _ _ Hwho), Hold, Hnew.
  unfold bind, emit, gets, set_voiceConnections, ret.
  rewrite cleanup_target_stream_run.
  assert (bool_decide (is_Some (voiceConnections w !! guild_id (vs_guild oldState)))
          = false) as Hno.
  { apply bool_decide_eq_false_2. rewrite Hconn. intros [x Hx]. discriminate Hx. }
  destruct (activeStreams w !! AUTH) as [stream |] eqn:E;
    cbn [fst snd exec set_activeStreams voiceConnections];
    rewrite Hno; cbn [fst snd activeStreams isMonitoring voiceConnections app List.filter].
  - split; [reflexivity |]. split; [reflexivity |]. split; [reflexivity |].
    split; [reflexivity |].
    intros h Hh. injection Hh as <-.
    unfold is_destroy_of. cbn [eff obs List.filter].
    rewrite bool_decide_eq_true_2 by reflexivity. reflexivity.
  - split; [symmetry; apply delete_id, E |]. split; [reflexivity |].
    split; [reflexivity |]. split; [reflexivity |].
    intros h Hh. discriminate Hh.
Qed.

Lemma leave_event_without_connection_witness :
  let leave := on_voiceStateUpdate Sample.subject
                 (Sample.voice (Some Sample.lobby)) (Sample.voice None) in
  let w := exec (processAudio Sample.receiver Sample.member)
                (exec (set_isMonitoring true) initial_world) in
  activeStreams (exec leave w) = delete Sample.subject (activeStreams w)
  /\ isMonitoring (exec leave w) = isMonitoring w
  /\ voiceConnections (exec leave w) = voiceConnections w
  /\ count_of is_connection_destroy (trace_of leave w) = 0%nat
  /\ (forall h, activeStreams w !! Sample.subject = Some h ->
        releases h (trace_of leave w) = 1%nat).
Proof.
  intros leave w.
  apply (leave_event_without_connection Sample.subject
           (Sample.voice (Some Sample.lobby)) (Sample.voice None) Sample.lobby w).
  - left. reflexivity.
  - reflexivity.
  - reflexivity.
  - reflexivity.
Defined.

(** ** Events that concern nobody *)

(** X5. Presence and speaking events of other members are ignored: the
    state is unchanged and no call is made. A presence event of the
    designated member that stays in the same channel (a mute or deafen
    change) or that has no channel on either side leaves the state
    unchanged too. *)
Theorem other_events_ignored (AUTH : UserId) :
  (forall oldState newState w,
     vs_member_id newState <> AUTH -> vs_member_id oldState <> AUTH ->
     on_voiceStateUpdate AUTH oldState newState w = (tt, w, []))
  /\ (forall guild receiver userId w,
        userId <> AUTH ->
        on_speaking_start AUTH guild receiver userId w = (tt, w, []))
  /\ (forall oldState newState w,
        match vs_channel oldState, vs_channel newState with
        | Some c1, Some c2 => channel_id c1 = channel_id c2
        | None, None => True
        | _, _ => False
        end ->
        exec (on_voiceStateUpdate AUTH oldState newState) w = w
        /\ Forall (fun e => exists msg, e = ConsoleLog msg)
                  (map eff (trace_of (on_voiceStateUpdate AUTH oldState newState) w))).
Proof.
  split; [| split].
  - intros oldState newState w Hn Ho. unfold on_voiceStateUpdate.
    rewrite !bool_decide_eq_false_2 by assumption. reflexivity.
  - intros guild receiver userId w Hu. unfold on_speaking_start, bind, gets.
    cbn [fst snd]. rewrite bool_decide_eq_false_2 by assumption. reflexivity.
  - intros oldState newState w Hsame.
    unfold exec, trace_of, on_voiceStateUpdate.
    destruct (bool_decide (vs_member_id newState = AUTH)
              || bool_decide (vs_member_id oldState = AUTH))%bool;
      [| split; [reflexivity | constructor]].
    destruct (vs_channel oldState) as [c1 |], (vs_channel newState) as [c2 |];
      try contradiction.
    + rewrite bool_decide_eq_false_2 by (intros H; apply H, Hsame).
      split; [reflexivity |]. cbn. repeat constructor; eauto.
    + split; [reflexivity |]. cbn. repeat constructor; eauto.
Qed.

Lemma other_events_ignored_witness :
  on_voiceStateUpdate Sample.subject
    {| vs_member_id := "other"; vs_displayName := "Other";
       vs_channel := None; vs_guild := Sample.guild |}
    {| vs_member_id := "other"; vs_displayName := "Other";
       vs_channel := Some Sample.lobby; vs_guild := Sample.guild |}
    Sample.monitoring = (tt, Sample.monitoring, [])
  /\ on_speaking_start Sample.subject Sample.guild Sample.receiver "other"
       Sample.monitoring = (tt, Sample.monitoring, [])
  /\ exec (on_voiceStateUpdate Sample.subject (Sample.voice (Some Sample.lobby))
             (Sample.voice (Some Sample.lobby))) Sample.monitoring
     = Sample.monitoring.
Proof.
  destruct (other_events_ignored Sample.subject) as [H1 [H2 H3]].
  split; [apply H1; discriminate |].
  split; [apply H2; discriminate |].
  apply (H3 (Sample.voice (Some Sample.lobby)) (Sample.voice (Some Sample.lobby))).
  reflexivity.
Defined.

(** X6. A message of a bot author, and a message whose lowercased text is
    none of [!unmute], [!pausemonitor], [!resumemonitor], [!status], is
    ignored: the state is unchanged, nothing is logged and nothing is
    replied. *)
Theorem other_messages_ignored (AUTH : UserId) (message : Message) (w : World) :
  author_bot message = true
  \/ (toLowerCase (content message) <> "!unmute"
      /\ toLowerCase (content message) <> "!pausemonitor"
      /\ toLowerCase (content message) <> "!resumemonitor"
      /\ toLowerCase (content message) <> "!status") ->
  on_messageCreate AUTH message w = (tt, w, []).
Proof.
  intros [Hbot | (H1 & H2 & H3 & H4)]; unfold on_messageCreate.
  - rewrite Hbot. reflexivity.
  - destruct (author_bot message); [reflexivity |].
    rewrite when_command_join_never, when_command_leave_never.
    unfold when_command. rewrite !bool_decide_eq_false_2 by assumption.
    reflexivity.
Qed.

Lemma other_messages_ignored_witness :
  on_messageCreate Sample.subject (Sample.says "hello there") Sample.monitoring
  = (tt, Sample.monitoring, []).
Proof.
  apply (other_messages_ignored Sample.subject (Sample.says "hello there")).
  right. repeat split; discriminate.
Defined.

(** ** [joinAndMonitor] off the same-channel path *)

(** The calls made when the bot is not in the target channel yet. *)
Lemma joinAndMonitor_other_channel (channel : Channel) (guild : Guild) (w : World) :
  voiceConnections w !! guild_id guild <> Some (channel_id channel) ->
  let stale :=
    match voiceConnections w !! guild_id guild with
    | Some _ => [ConnectionDestroy (guild_id guild)]
    | None => []
    end in
  if join_throws guild then
    result_of (joinAndMonitor channel guild) w = None
    /\ exec (joinAndMonitor channel guild) w
       = exec (set_voiceConnections (delete (guild_id guild) (voiceConnections w))) w
    /\ map eff (trace_of (joinAndMonitor channel guild) w)
       = stale ++ [ConsoleError "[ERROR] Error joining voice channel:"]
  else
    result_of (joinAndMonitor channel guild) w
      = Some {| conn_guildId := guild_id guild; conn_channelId := channel_id channel |}
    /\ exec (joinAndMonitor channel guild) w
       = exec (set_isMonitoring true)
           (exec (set_voiceConnections
                    (<[guild_id guild := channel_id channel]> (voiceConnections w))) w)
    /\ map eff (trace_of (joinAndMonitor channel guild) w)
       = stale ++ [JoinVoiceChannel (guild_id guild) (channel_id channel);
                   ConsoleLog "[BOT] Automatically joined voice channel to monitor specific user"].
Proof.
  intros Hother stale. subst stale.
  unfold result_of, exec, trace_of, joinAndMonitor, bind, gets, emit, ret,
    set_voiceConnections, set_isMonitoring.
  cbn [fst snd]. rewrite (bool_decide_eq_false_2 _ Hother).
  destruct (voiceConnections w !! guild_id guild) as [c |] eqn:E.
  - rewrite bool_decide_eq_true_2 by eauto.
    cbn [fst snd voiceConnections].
    destruct (join_throws guild); cbn [fst snd voiceConnections app map eff];
      rewrite ?insert_delete_eq; repeat split.
  - rewrite bool_decide_eq_false_2 by (intros [x Hx]; discriminate Hx).
    cbn [fst snd voiceConnections].
    destruct (join_throws guild); cbn [fst snd voiceConnections app map eff];
      rewrite ?(delete_id _ _ E); repeat split.
    destruct w; reflexivity.
Qed.

(** The path that makes a new connection. *)
Lemma joinAndMonitor_fresh (channel : Channel) (guild : Guild) (w : World) :
  voiceConnections w !! guild_id guild <> Some (channel_id channel) ->
  join_throws guild = false ->
  result_of (joinAndMonitor channel guild) w
    = Some {| conn_guildId := guild_id guild; conn_channelId := channel_id channel |}
  /\ voiceConnections (exec (joinAndMonitor channel guild) w)
     = <[guild_id guild := channel_id channel]> (voiceConnections w)
  /\ isMonitoring (exec (joinAndMonitor channel guild) w) = true
  /\ activeStreams (exec (joinAndMonitor channel guild) w) = activeStreams w
  /\ lastMuteTime (exec (joinAndMonitor channel guild) w) = lastMuteTime w
  /\ sessions (exec (joinAndMonitor channel guild) w) = sessions w
  /\ map eff (trace_of (joinAndMonitor channel guild) w)
     = match voiceConnections w !! guild_id guild with
       | Some _ => [ConnectionDestroy (guild_id guild)]
       | None => []
       end
       ++ [JoinVoiceChannel (guild_id guild) (channel_id channel);
           ConsoleLog "[BOT] Automatically joined voice channel to monitor specific user"].
Proof.
  intros Hother Hj.
  pose proof (joinAndMonitor_other_channel channel guild w Hother) as H.
  cbv zeta in H. rewrite Hj in H. destruct H as [Hr [He Ht]].
  rewrite He. repeat split; assumption.
Qed.





(** After a call that returns a connection, the bot is in the target
    channel and monitoring is enabled. *)
Lemma joinAndMonitor_connected (channel : Channel) (guild : Guild) (w : World) :
  result_of (joinAndMonitor channel guild) w <> None ->
  voiceConnections (exec (joinAndMonitor channel guild) w) !! guild_id guild
    = Some (channel_id channel)
  /\ isMonitoring (exec (joinAndMonitor channel guild) w) = true.
Proof.
  intros Hr.
  destruct (decide (voiceConnections w !! guild_id guild = Some (channel_id channel)))
    as [Hsame | Hother].
  - destruct (joinAndMonitor_same_channel channel guild w Hsame) as (_ & He & _).
    rewrite He. split; [exact Hsame | reflexivity].
  - pose proof (joinAndMonitor_other_channel channel guild w Hother) as H.
    cbv zeta in H. destruct (join_throws guild).
    + destruct H as [H _]. congruence.
    + destruct H as (_ & He & _). rewrite He.
      split; [apply lookup_insert_eq | reflexivity].
Qed.

(** X9. [joinAndMonitor] is idempotent: after a call that returned a
    connection, a second call for the same channel returns the same
    connection, changes nothing, joins nothing and destroys nothing. *)
Theorem joinAndMonitor_idempotent (channel : Channel) (guild : Guild) (w : World) :
  result_of (joinAndMonitor channel guild) w <> None ->
  let w1 := exec (joinAndMonitor channel guild) w in
  result_of (joinAndMonitor channel guild) w1 = result_of (joinAndMonitor channel guild) w
  /\ exec (joinAndMonitor channel guild) w1 = w1
  /\ map eff (trace_of (joinAndMonitor channel guild) w1)
     = [ConsoleLog "[BOT] Already in voice channel, not rejoining"].
Proof.
  intros Hr w1.
  destruct (joinAndMonitor_connected channel guild w Hr) as [Hc Hm].
  fold w1 in Hc, Hm.
  destruct (joinAndMonitor_same_channel channel guild w1 Hc) as (Hr1 & He1 & Ht1).
  split; [| split; [| exact Ht1]].
  - rewrite Hr1.
    destruct (decide (voiceConnections w !! guild_id guild = Some (channel_id channel)))
      as [Hsame | Hother].
    + destruct (joinAndMonitor_same_channel channel guild w Hsame) as (H & _). congruence.
    + pose proof (joinAndMonitor_other_channel channel guild w Hother) as H.
      cbv zeta in H. destruct (join_throws guild); destruct H as (H & _); congruence.
  - rewrite He1. destruct w1 as [a l m c s]. cbn in Hm. subst m. reflexivity.
Qed.

Lemma joinAndMonitor_idempotent_witness :
  let w1 := exec (joinAndMonitor Sample.stage Sample.guild) Sample.monitoring in
  result_of (joinAndMonitor Sample.stage Sample.guild) w1
    = result_of (joinAndMonitor Sample.stage Sample.guild) Sample.monitoring
  /\ exec (joinAndMonitor Sample.stage Sample.guild) w1 = w1
  /\ map eff (trace_of (joinAndMonitor Sample.stage Sample.guild) w1)
     = [ConsoleLog "[BOT] Already in voice channel, not rejoining"].
Proof.
  apply (joinAndMonitor_idempotent Sample.stage Sample.guild Sample.monitoring).
  discriminate.
Defined.

(** ** The move event *)

Lemma connection_calls_app (t1 t2 : list Obs) :
  connection_calls (t1 ++ t2) = connection_calls t1 ++ connection_calls t2.
Proof. unfold connection_calls. rewrite map_app. apply List.filter_app. Qed.

Lemma releases_app (h : Handle) (t1 t2 : list Obs) :
  releases h (t1 ++ t2) = (releases h t1 + releases h t2)%nat.
Proof. unfold releases. rewrite List.filter_app. apply length_app. Qed.

(** The move case, split into its two steps. *)
Lemma move_event_run (AUTH : UserId) (oldState newState : VoiceState)
      (oldChannel newChannel : Channel) (w : World) :
  vs_member_id newState = AUTH \/ vs_member_id oldState = AUTH ->
  vs_channel oldState = Some oldChannel -> vs_channel newState = Some newChannel ->
  channel_id oldChannel <> channel_id newChannel ->
  let w1 := exec (cleanup_target_stream AUTH) w in
  exec (on_voiceStateUpdate AUTH oldState newState) w
  = exec (joinAndMonitor newChannel (vs_guild newState)) w1
  /\ connection_calls (trace_of (on_voiceStateUpdate AUTH oldState newState) w)
     = connection_calls (trace_of (joinAndMonitor newChannel (vs_guild newState)) w1)
  /\ (forall h,
        releases h (trace_of (on_voiceStateUpdate AUTH oldState newState) w)
        = (releases h (trace_of (cleanup_target_stream AUTH) w)
           + releases h (trace_of (joinAndMonitor newChannel (vs_guild newState)) w1))%nat).
Proof.
  intros Hwho Hold Hnew Hdiff w1.
  unfold on_voiceStateUpdate.
  rewrite (subject_event _ _ _ Hwho), Hold, Hnew, (bool_decide_eq_true_2 _ Hdiff).
  rewrite !exec_bind, !trace_of_bind.
  change (exec (emit _) ?x) with x.
  cbn [exec trace_of emit fst snd ret]. fold w1.
  change (snd (cleanup_target_stream AUTH w)) with (trace_of (cleanup_target_stream AUTH) w).
  change (snd (joinAndMonitor newChannel (vs_guild newState) w1))
    with (trace_of (joinAndMonitor newChannel (vs_guild newState)) w1).
  change (snd (fst (joinAndMonitor newChannel (vs_guild newState) w1)))
    with (exec (joinAndMonitor newChannel (vs_guild newState)) w1).
  split; [reflexivity |]. split.
  - rewrite app_nil_r, !connection_calls_app.
    cbn [connection_calls map List.filter eff app].
    unfold trace_of at 1. rewrite cleanup_target_stream_run.
    destruct (activeStreams w !! AUTH); reflexivity.
  - intros h. rewrite app_nil_r, !releases_app.
    cbn [releases is_destroy_of List.filter eff length]. reflexivity.
Qed.

Lemma cleanup_target_stream_state (AUTH : UserId) (w : World) :
  exec (cleanup_target_stream AUTH) w
  = exec (set_activeStreams (delete AUTH (activeStreams w))) w.
Proof.
  unfold exec at 1. rewrite cleanup_target_stream_run.
  destruct (activeStreams w !! AUTH) eqn:E; [reflexivity |].
  cbn [fst snd exec set_activeStreams]. rewrite (delete_id _ _ E).
  destruct w; reflexivity.
Qed.

Lemma releases_cleanup_target_stream (AUTH : UserId) (h : Handle) (w : World) :
  activeStreams w !! AUTH = Some h ->
  releases h (trace_of (cleanup_target_stream AUTH) w) = 1%nat.
Proof.
  intros Hh. unfold trace_of. rewrite cleanup_target_stream_run, Hh.
  cbn [snd]. unfold releases. cbn [List.filter]. unfold is_destroy_of at 1.
  cbn [obs eff].
  rewrite bool_decide_eq_true_2 by reflexivity. reflexivity.
Qed.

(** [joinAndMonitor] never destroys a stream. *)
Lemma releases_joinAndMonitor (channel : Channel) (guild : Guild) (h : Handle) (w : World) :
  releases h (trace_of (joinAndMonitor channel guild) w) = 0%nat.
Proof.
  unfold releases, is_destroy_of.
  rewrite (count_by_effects
             (fun e => match e with
                       | StreamDestroy h' => bool_decide (h' = h)
                       | _ => false
                       end)).
  destruct (decide (voiceConnections w !! guild_id guild = Some (channel_id channel)))
    as [Hsame | Hother].
  - destruct (joinAndMonitor_same_channel channel guild w Hsame) as (_ & _ & ->).
    reflexivity.
  - pose proof (joinAndMonitor_other_channel channel guild w Hother) as H.
    cbv zeta in H.
    destruct (join_throws guild); destruct H as (_ & _ & ->);
      destruct (voiceConnections w !! guild_id guild); reflexivity.
Qed.

(** X10. The designated member moves to a different channel and joining
    does not throw. Afterwards the guild's connection is the new channel,
    monitoring is enabled, the member has no registered session, and the
    member's old stream, if one was registered, was destroyed exactly once.
    On the connection the handler does nothing when the bot is already in
    the new channel, joins when the guild has no connection, and otherwise
    destroys the old connection first and then joins. *)
Theorem move_event_follows (AUTH : UserId) (oldState newState : VoiceState)
        (oldChannel newChannel : Channel) (w : World) :
  vs_member_id newState = AUTH \/ vs_member_id oldState = AUTH ->
  vs_channel oldState = Some oldChannel -> vs_channel newState = Some newChannel ->
  channel_id oldChannel <> channel_id newChannel ->
  join_throws (vs_guild newState) = false ->
  voiceConnections (exec (on_voiceStateUpdate AUTH oldState newState) w)
    !! guild_id (vs_guild newState) = Some (channel_id newChannel)
  /\ isMonitoring (exec (on_voiceStateUpdate AUTH oldState newState) w) = true
  /\ activeStreams (exec (on_voiceStateUpdate AUTH oldState newState) w)
     = delete AUTH (activeStreams w)
  /\ lastMuteTime (exec (on_voiceStateUpdate AUTH oldState newState) w) = lastMuteTime w
  /\ connection_calls (trace_of (on_voiceStateUpdate AUTH oldState newState) w)
     = match voiceConnections w !! guild_id (vs_guild newState) with
       | Some c =>
           if bool_decide (c = channel_id newChannel) then []
           else [ConnectionDestroy (guild_id (vs_guild newState));
                 JoinVoiceChannel (guild_id (vs_guild newState)) (channel_id newChannel)]
       | None =>
           [JoinVoiceChannel (guild_id (vs_guild newState)) (channel_id newChannel)]
       end
  /\ (forall h, activeStreams w !! AUTH = Some h ->
        releases h (trace_of (on_voiceStateUpdate AUTH oldState newState) w) = 1%nat).
Proof.
  intros Hwho Hold Hnew Hdiff Hj.
  destruct (move_event_run AUTH oldState newState oldChannel newChannel w
              Hwho Hold Hnew Hdiff) as (He & Hc & Hr).
  cbv zeta in He, Hc, Hr. rewrite He, Hc. clear He Hc.
  rewrite cleanup_target_stream_state in *.
  set (w1 := exec (set_activeStreams (delete AUTH (activeStreams w))) w) in *.
  assert (voiceConnections w1 = voiceConnections w) as Hconn by reflexivity.
  assert (forall h, activeStreams w !! AUTH = Some h ->
            releases h (trace_of (on_voiceStateUpdate AUTH oldState newState) w) = 1%nat)
    as Hrel.
  { intros h Hh. rewrite Hr, (releases_cleanup_target_stream AUTH h w Hh),
      releases_joinAndMonitor. reflexivity. }
  destruct (decide (voiceConnections w1 !! guild_id (vs_guild newState)
                    = Some (channel_id newChannel))) as [Hsame | Hother].
  - destruct (joinAndMonitor_same_channel newChannel (vs_guild newState) w1 Hsame)
      as (_ & He & Ht).
    rewrite He. unfold connection_calls. rewrite Ht.
    rewrite <- Hconn, Hsame, bool_decide_eq_true_2 by reflexivity.
    repeat split; try reflexivity; [exact Hsame | exact Hrel].
  - destruct (joinAndMonitor_fresh newChannel (vs_guild newState) w1 Hother Hj)
      as (_ & Hc & Hm & Ha & Hl & _ & Ht).
    rewrite Hc, Hm, Ha, Hl. unfold connection_calls. rewrite Ht.
    rewrite <- Hconn.
    split; [apply lookup_insert_eq |]. split; [reflexivity |].
    split; [reflexivity |]. split; [reflexivity |]. split; [| exact Hrel].
    destruct (voiceConnections w1 !! guild_id (vs_guild newState)) as [c |] eqn:E;
      [| reflexivity].
    rewrite bool_decide_eq_false_2 by congruence. reflexivity.
Qed.

Lemma move_event_follows_witness :
  let move := on_voiceStateUpdate Sample.subject
                (Sample.voice (Some Sample.lobby)) (Sample.voice (Some Sample.stage)) in
  voiceConnections (exec move Sample.monitoring) !! "guild" = Some "stage"
  /\ isMonitoring (exec move Sample.monitoring) = true
  /\ activeStreams (exec move Sample.monitoring)
     = delete Sample.subject (activeStreams Sample.monitoring)
  /\ connection_calls (trace_of move Sample.monitoring)
     = [ConnectionDestroy "guild"; JoinVoiceChannel "guild" "stage"]
  /\ releases 7 (trace_of move Sample.monitoring) = 1%nat.
Proof.
  destruct (move_event_follows Sample.subject
              (Sample.voice (Some Sample.lobby)) (Sample.voice (Some Sample.stage))
              Sample.lobby Sample.stage Sample.monitoring)
    as (Hc & Hm & Ha & _ & Ht & Hr).
  - left. reflexivity.
  - reflexivity.
  - reflexivity.
  - discriminate.
  - reflexivity.
  - split; [exact Hc |]. split; [exact Hm |]. split; [exact Ha |].
    split; [exact Ht | apply Hr; reflexivity].
Defined.

(** ** The cooldown timestamp over a run *)

Lemma run_cons (AUTH : UserId) (e : Event) (rest : list Event) :
  run AUTH (e :: rest) = bind (handle AUTH e) (fun _ => run AUTH rest)
  \/ (e = Sigint /\ run AUTH (e :: rest) = handle AUTH e).
Proof. destruct e; cbn [run handle]; auto. Qed.

Lemma mute_times_length (t : list Obs) : length (mute_times t) = length (mutes t).
Proof. unfold mute_times. apply length_map. Qed.

Lemma handle_advances (AUTH : UserId) (e : Event) (w : World) :
  lastMuteTime w
  + MUTE_COOLDOWN * Z.of_nat (length (mutes (trace_of (handle AUTH e) w)))
  <= lastMuteTime (exec (handle AUTH e) w)
  /\ (lastMuteTime (exec (handle AUTH e) w) = lastMuteTime w
      \/ (0 < length (mutes (trace_of (handle AUTH e) w)))%nat).
Proof.
  rewrite <- mute_times_length.
  destruct (handle_cases AUTH e w) as [[Ht Hl] | [now [Ht [Hl Hc]]]]; rewrite Ht, Hl.
  - cbn [length]. split; [lia | left; reflexivity].
  - cbn [length]. split; [lia | right; lia].
Qed.

(** X11. In every run, from every state, [lastMuteTime] never decreases,
    whatever the clock does: each mute request moves it forward by at least
    MUTE_COOLDOWN, and without a mute request it keeps its value. *)
Theorem lastMuteTime_never_decreases (AUTH : UserId) (events : list Event) (w : World) :
  lastMuteTime w
  + MUTE_COOLDOWN * Z.of_nat (length (mutes (trace_of (run AUTH events) w)))
  <= lastMuteTime (exec (run AUTH events) w)
  /\ (lastMuteTime (exec (run AUTH events) w) = lastMuteTime w
      \/ (0 < length (mutes (trace_of (run AUTH events) w)))%nat).
Proof.
  revert w. induction events as [| e rest IH]; intros w.
  - cbn. split; [lia | left; reflexivity].
  - destruct (run_cons AUTH e rest) as [-> | [_ ->]]; [| apply handle_advances].
    rewrite trace_of_bind, exec_bind, mutes_app, length_app, Nat2Z.inj_add.
    destruct (handle_advances AUTH e w) as [H1 H1'].
    destruct (IH (exec (handle AUTH e) w)) as [H2 H2'].
    split; [lia |].
    destruct H1' as [H1' | H1']; [| right; lia].
    destruct H2' as [H2' | H2']; [left; congruence | right; lia].
Qed.

(** ** The decision of the frame handler *)

Lemma on_data_at_most_one_mute (sid : nat) (chunk : option (list Z)) (muted : bool)
      (now : Z) (w : World) :
  (length (mutes (trace_of (on_data sid chunk muted now) w)) <= 1)%nat.
Proof.
  rewrite <- mute_times_length.
  destruct (on_data_cases sid chunk muted now w) as [[-> _] | [-> _]]; cbn [length]; lia.
Qed.

(** A frame that requests a mute meets every condition of the policy. *)
Lemma on_data_mute_conditions (sid : nat) (chunk : option (list Z)) (muted : bool)
      (now : Z) (w : World) :
  mutes (trace_of (on_data sid chunk muted now) w) <> [] ->
  exists s data,
    sessions w !! sid = Some s /\ isMonitoring w = true /\ chunk = Some data
    /\ data <> [] /\ muted = false
    /\ MUTE_COOLDOWN <= now - lastMuteTime w /\ loud data.
Proof.
  unfold on_data, trace_of, bind, gets, ret, emit, set_sessions, set_lastMuteTime, loud.
  cbn [fst snd].
  destruct (sessions w !! sid) as [s |]; cbn [fst snd];
    [| intros H; exfalso; apply H; reflexivity].
  destruct (isMonitoring w); cbn [negb fst snd];
    [| intros H; exfalso; apply H; reflexivity].
  destruct chunk as [data |]; cbn [fst snd];
    [| intros H; exfalso; apply H; reflexivity].
  destruct data as [| x data]; cbn [length Nat.eqb fst snd];
    [intros H; exfalso; apply H; reflexivity |].
  intros H. exists s, (x :: data).
  destruct muted;
    [exfalso; apply H;
     destruct ((S (volumeSampleCount s) mod 10 =? 0)%nat); reflexivity |].
  destruct (now - lastMuteTime w <? MUTE_COOLDOWN)%Z eqn:Hcool.
  { exfalso. apply H.
    destruct ((S (volumeSampleCount s) mod 10 =? 0)%nat);
      cbn [fst snd lastMuteTime]; rewrite Hcool; reflexivity. }
  destruct (JS.gt (calculateVolume (x :: data)) DECIBEL_THRESHOLD) eqn:Hloud.
  - apply Z.ltb_ge in Hcool. repeat split; try assumption; try reflexivity. discriminate.
  - exfalso. apply H.
    destruct ((S (volumeSampleCount s) mod 10 =? 0)%nat);
      cbn [fst snd lastMuteTime]; rewrite Hcool; reflexivity.
Qed.

(** X12. The decision of the frame handler, in full: a frame requests a
    mute exactly when its session exists, monitoring is enabled, the chunk
    is not empty, the member is not server-muted, at least MUTE_COOLDOWN
    milliseconds have passed since [lastMuteTime], and the loudness exceeds
    the threshold. It never requests more than one. *)
Theorem mute_decision (sid : nat) (chunk : option (list Z)) (muted : bool)
        (now : Z) (w : World) :
  (mutes (trace_of (on_data sid chunk muted now) w) <> []
   <-> exists s data,
         sessions w !! sid = Some s /\ isMonitoring w = true /\ chunk = Some data
         /\ data <> [] /\ muted = false
         /\ MUTE_COOLDOWN <= now - lastMuteTime w /\ loud data)
  /\ (length (mutes (trace_of (on_data sid chunk muted now) w)) <= 1)%nat.
Proof.
  split; [| apply on_data_at_most_one_mute].
  split; [apply on_data_mute_conditions |].
  intros (s & data & Hs & Hmon & -> & Hne & -> & Hcool & Hloud).
  destruct (on_data_mutes w sid s data now Hs Hmon Hne Hloud Hcool) as (_ & o & Ho & _).
  rewrite Ho. discriminate.
Qed.

(** ** The threshold in sample magnitudes *)

Lemma loud_iff_test (data : list Z) : loud data <-> loud_test data = true.
Proof. split; [apply loud_test_complete | apply loud_test_sound]. Qed.

(** X13. What DECIBEL_THRESHOLD means for the samples: a frame with at
    least one sample whose mean magnitude is 139 or more is loud, and a
    frame whose mean magnitude is 138 or less is not. *)
Theorem threshold_in_magnitudes (data : list Z) :
  data <> [] ->
  (139 * Z.of_nat (length data) <= sum_abs_Z data -> loud data)
  /\ (sum_abs_Z data <= 138 * Z.of_nat (length data) -> ~ loud data).
Proof.
  intros Hne.
  assert (0 < Z.of_nat (length data)) as Hn
    by (destruct data; [congruence | cbn [length]; lia]).
  set (n := Z.of_nat (length data)) in *.
  assert (0 <= sum_abs_Z data) as Hs.
  { clear. induction data as [| x data IH]; cbn [sum_abs_Z fold_right]; [lia |].
    unfold sum_abs_Z in IH. lia. }
  split.
  - intros Hge. apply loud_test_sound. unfold loud_test. fold n.
    apply andb_true_intro. split; [apply Z.ltb_lt, Hn |]. apply Z.ltb_lt.
    apply Z.lt_le_trans with ((140 * n) ^ 200).
    + rewrite Z.pow_mul_l. apply Z.mul_lt_mono_pos_r; [apply Z.pow_pos_nonneg; lia |].
      vm_compute. reflexivity.
    + apply Z.pow_le_mono_l. lia.
  - intros Hle Hloud.
    assert ((sum_abs_Z data + n) ^ 200 <= (139 * n) ^ 200) as Hpow
      by (apply Z.pow_le_mono_l; lia).
    rewrite Z.pow_mul_l in Hpow.
    assert (139 ^ 200 * n ^ 200 < 10 ^ 429 * n ^ 200) as Hlt.
    { apply Z.mul_lt_mono_pos_r; [apply Z.pow_pos_nonneg; lia |].
      vm_compute. reflexivity. }
    apply loud_test_complete in Hloud.
    unfold loud_test in Hloud. fold n in Hloud.
    apply andb_prop in Hloud as [_ Hloud]. apply Z.ltb_lt in Hloud.
    eapply Z.lt_irrefl, Z.lt_le_trans; [exact Hloud |].
    eapply Z.le_trans; [exact Hpow | apply Z.lt_le_incl, Hlt].
Qed.

Lemma threshold_in_magnitudes_witness :
  loud [139; -139; 140] /\ ~ loud [138; -138; 137].
Proof.
  split.
  - apply (proj1 (threshold_in_magnitudes [139; -139; 140] ltac:(discriminate))).
    vm_compute. discriminate.
  - apply (proj2 (threshold_in_magnitudes [138; -138; 137] ltac:(discriminate))).
    vm_compute. discriminate.
Defined.

(** ** The estimator only depends on the magnitudes *)

Lemma calculateVolume_by_sum (data : list Z) :
  calculateVolume data
  = JS.mul (JS.Fin 20)
      (JS.log10 (JS.add (JS.div (JS.Fin (0 + sum_abs data))
                                (JS.of_int (Z.of_nat (length data))))
                        (JS.Fin 1))).
Proof. unfold calculateVolume. rewrite volume_loop. reflexivity. Qed.

Lemma sum_abs_opp (data : list Z) : sum_abs (map Z.opp data) = sum_abs data.
Proof.
  induction data as [| x data IH]; [reflexivity |].
  cbn [map sum_abs fold_right]. unfold sum_abs in IH. rewrite IH.
  rewrite opp_IZR, Rabs_Ropp. reflexivity.
Qed.

Lemma sum_abs_perm (data data' : list Z) :
  Permutation data data' -> sum_abs data = sum_abs data'.
Proof.
  induction 1 as [| x l l' _ IH | x y l | l l' l'' _ IH1 _ IH2].
  - reflexivity.
  - cbn [sum_abs fold_right]. unfold sum_abs in IH. rewrite IH. reflexivity.
  - cbn [sum_abs fold_right]. lra.
  - congruence.
Qed.

(** X14. The estimate only depends on the magnitudes of the samples and
    not on their order: negating every sample, or permuting the frame,
    gives the same loudness, hence the same decision. *)
Theorem calculateVolume_invariant (data data' : list Z) :
  calculateVolume (map Z.opp data) = calculateVolume data
  /\ (Permutation data data' ->
      calculateVolume data = calculateVolume data'
      /\ (loud data <-> loud data')).
Proof.
  split.
  - rewrite !calculateVolume_by_sum, sum_abs_opp, length_map. reflexivity.
  - intros Hp.
    assert (calculateVolume data = calculateVolume data') as E.
    { rewrite !calculateVolume_by_sum, (sum_abs_perm _ _ Hp),
        (Permutation_length Hp). reflexivity. }
    split; [exact E |]. unfold loud. rewrite E. reflexivity.
Qed.

Lemma calculateVolume_invariant_witness :
  calculateVolume [3; -4; 0] = calculateVolume [0; 3; -4]
  /\ (loud [3; -4; 0] <-> loud [0; 3; -4]).
Proof.
  apply (proj2 (calculateVolume_invariant [3; -4; 0] [0; 3; -4])).
  symmetry. apply (Permutation_cons_append [3; -4] 0).
Defined.

(** ** The operator commands *)

Lemma lower_ascii_idempotent (c : ascii) : lower_ascii (lower_ascii c) = lower_ascii c.
Proof. destruct c as [[] [] [] [] [] [] [] []]; vm_compute; reflexivity. Qed.

Lemma toLowerCase_idempotent (s : string) : toLowerCase (toLowerCase s) = toLowerCase s.
Proof.
  induction s as [| c s IH]; [reflexivity |].
  cbn [toLowerCase]. rewrite lower_ascii_idempotent, IH. reflexivity.
Qed.

(** The handler reads the text of a message through [toLowerCase] only. *)
Lemma on_messageCreate_by_lowercase (AUTH : UserId) (message : Message) (text : string) :
  toLowerCase text = toLowerCase (content message) ->
  on_messageCreate AUTH (with_content message text) = on_messageCreate AUTH message.
Proof.
  intros H.
  unfold on_messageCreate, when_command, command_join, command_leave,
    command_unmute, command_status.
  cbn [with_content author_bot content msg_voice_channel msg_guild unmute_rejects].
  rewrite H. reflexivity.
Qed.

(** X16. Commands are read without regard to letter case: two messages
    that differ only in the case of their text are handled alike, so a
    message and its lowercased copy are. *)
Theorem commands_ignore_case (AUTH : UserId) (message : Message) (text : string) :
  (toLowerCase text = toLowerCase (content message) ->
   on_messageCreate AUTH (with_content message text) = on_messageCreate AUTH message)
  /\ on_messageCreate AUTH (with_content message (toLowerCase (content message)))
     = on_messageCreate AUTH message.
Proof.
  split; [apply on_messageCreate_by_lowercase |].
  apply on_messageCreate_by_lowercase, toLowerCase_idempotent.
Qed.

Lemma commands_ignore_case_witness :
  on_messageCreate Sample.subject (with_content (Sample.says "!pausemonitor") "!PauseMONITOR")
  = on_messageCreate Sample.subject (Sample.says "!pausemonitor").
Proof.
  apply (proj1 (commands_ignore_case Sample.subject (Sample.says "!pausemonitor")
                  "!PauseMONITOR")).
  reflexivity.
Defined.

(** The handler on a message whose lowercased text is one of the four
    literals that can match. *)
Lemma command_dispatch (AUTH : UserId) (message : Message) :
  author_bot message = false ->
  (toLowerCase (content message) = "!unmute" ->
   forall w, on_messageCreate AUTH message w = command_unmute AUTH message w)
  /\ (toLowerCase (content message) = "!pausemonitor" ->
      forall w, exec (on_messageCreate AUTH message) w = exec (set_isMonitoring false) w
                /\ map eff (trace_of (on_messageCreate AUTH message) w)
                   = [ConsoleLog "[COMMAND] Received !pausemonitor command";
                      Reply "Audio monitoring paused!"])
  /\ (toLowerCase (content message) = "!resumemonitor" ->
      forall w, exec (on_messageCreate AUTH message) w = exec (set_isMonitoring true) w
                /\ map eff (trace_of (on_messageCreate AUTH message) w)
                   = [ConsoleLog "[COMMAND] Received !resumemonitor command";
                      Reply "Audio monitoring resumed!"]).
Proof.
  intros Hbot. unfold on_messageCreate. rewrite Hbot.
  rewrite when_command_join_never, when_command_leave_never.
  unfold when_command.
  split; [| split]; intros ->.
  - change (bool_decide ("!unmute" = "!unmute")) with true.
    change (bool_decide ("!unmute" = "!pausemonitor")) with false.
    change (bool_decide ("!unmute" = "!resumemonitor")) with false.
    change (bool_decide ("!unmute" = "!status")) with false.
    intros w. unfold bind, ret.
    destruct (command_unmute AUTH message w) as [[[] w'] t].
    rewrite !app_nil_r. reflexivity.
  - intros w. split; reflexivity.
  - intros w. split; reflexivity.
Qed.

(** X15. The unmute command changes no state, so it neither resets the
    cooldown nor touches monitoring; it never requests a mute, and it
    requests an unmute exactly when the designated member is in the guild's
    cache and server-muted. *)
Theorem unmute_command (AUTH : UserId) (message : Message) (w : World) :
  author_bot message = false ->
  toLowerCase (content message) = "!unmute" ->
  exec (on_messageCreate AUTH message) w = w
  /\ count_of is_mute (trace_of (on_messageCreate AUTH message) w) = 0%nat
  /\ count_of is_unmute (trace_of (on_messageCreate AUTH message) w)
     = (if target_muted AUTH (msg_guild message) then 1 else 0)%nat
  /\ connection_calls (trace_of (on_messageCreate AUTH message) w) = [].
Proof.
  intros Hbot Htext.
  unfold exec, trace_of.
  rewrite (proj1 (command_dispatch AUTH message Hbot) Htext).
  unfold count_of, connection_calls, target_muted, command_unmute, bind, emit, ret.
  cbn [fst snd].
  destruct (cache_get (msg_guild message) AUTH) as [member |]; cbn [fst snd];
    [| repeat split].
  destruct (serverMute member); cbn [fst snd]; [| repeat split].
  destruct (unmute_rejects message); repeat split.
Qed.

Lemma unmute_command_witness :
  exec (on_messageCreate Sample.subject (Sample.says "!Unmute")) Sample.monitoring
  = Sample.monitoring
  /\ count_of is_unmute
       (trace_of (on_messageCreate Sample.subject (Sample.says "!Unmute"))
                 Sample.monitoring) = 0%nat.
Proof.
  destruct (unmute_command Sample.subject (Sample.says "!Unmute") Sample.monitoring)
    as (He & _ & Hu & _).
  - reflexivity.
  - reflexivity.
  - split; [exact He | exact Hu].
Defined.

(** X17. The pause and resume commands only write [isMonitoring]: the
    registry, the connections, the timestamp and the closures are as they
    were, no stream or connection is destroyed, and a resume after a pause
    gives back the state that a resume alone gives. *)
Theorem pause_resume_commands (AUTH : UserId) (pause resume : Message) (w : World) :
  author_bot pause = false -> toLowerCase (content pause) = "!pausemonitor" ->
  author_bot resume = false -> toLowerCase (content resume) = "!resumemonitor" ->
  exec (on_messageCreate AUTH pause) w = exec (set_isMonitoring false) w
  /\ exec (on_messageCreate AUTH resume) w = exec (set_isMonitoring true) w
  /\ exec (on_messageCreate AUTH resume) (exec (on_messageCreate AUTH pause) w)
     = exec (on_messageCreate AUTH resume) w
  /\ map eff (trace_of (on_messageCreate AUTH pause) w)
     = [ConsoleLog "[COMMAND] Received !pausemonitor command";
        Reply "Audio monitoring paused!"]
  /\ map eff (trace_of (on_messageCreate AUTH resume) w)
     = [ConsoleLog "[COMMAND] Received !resumemonitor command";
        Reply "Audio monitoring resumed!"].
Proof.
  intros Hb1 Ht1 Hb2 Ht2.
  destruct (command_dispatch AUTH pause Hb1) as (_ & Hp & _).
  destruct (command_dispatch AUTH resume Hb2) as (_ & _ & Hr).
  specialize (Hp Ht1). specialize (Hr Ht2).
  split; [apply Hp |]. split; [apply Hr |].
  split; [| split; [apply Hp | apply Hr]].
  rewrite (proj1 (Hr _)), (proj1 (Hr w)), (proj1 (Hp w)). reflexivity.
Qed.

Lemma pause_resume_commands_witness :
  let pause := Sample.says "!PAUSEMONITOR" in
  let resume := Sample.says "!ResumeMonitor" in
  exec (on_messageCreate Sample.subject resume)
       (exec (on_messageCreate Sample.subject pause) Sample.monitoring)
  = exec (on_messageCreate Sample.subject resume) Sample.monitoring.
Proof.
  intros pause resume.
  apply (pause_resume_commands Sample.subject pause resume Sample.monitoring);
    reflexivity.
Defined.

(** ** The sample counter and the volume log *)

Lemma div_succ_10 (c : nat) :
  (S c / 10 = c / 10 + (if S c mod 10 =? 0 then 1 else 0))%nat.
Proof.
  pose proof (Nat.div_mod_eq c 10) as H1.
  pose proof (Nat.mod_upper_bound c 10 ltac:(lia)) as H2.
  pose proof (Nat.div_mod_eq (S c) 10) as H3.
  pose proof (Nat.mod_upper_bound (S c) 10 ltac:(lia)) as H4.
  destruct (S c mod 10 =? 0)%nat eqn:E.
  - apply Nat.eqb_eq in E. lia.
  - apply Nat.eqb_neq in E. lia.
Qed.

(** One frame with data, handled while monitoring is enabled. *)
Lemma on_data_counts (sid : nat) (s : Session) (data : list Z) (muted : bool)
      (now : Z) (w : World) :
  sessions w !! sid = Some s -> isMonitoring w = true -> data <> [] ->
  sessions (exec (on_data sid (Some data) muted now) w) = <[sid := bump 1 s]> (sessions w)
  /\ isMonitoring (exec (on_data sid (Some data) muted now) w) = true
  /\ count_of is_log_volume (trace_of (on_data sid (Some data) muted now) w)
     = (if (S (volumeSampleCount s) mod 10 =? 0)%nat then 1 else 0)%nat.
Proof.
  intros Hs Hmon Hne.
  unfold on_data, exec, trace_of, count_of, bind, gets, ret, emit,
    set_sessions, set_lastMuteTime, bump.
  cbn [fst snd]. rewrite Hs. cbn [fst snd]. rewrite Hmon. cbn [negb fst snd].
  destruct data as [| x data]; [congruence |]. cbn [length Nat.eqb].
  replace (volumeSampleCount s + 1)%nat with (S (volumeSampleCount s)) by lia.
  destruct ((S (volumeSampleCount s) mod 10 =? 0)%nat); cbn [fst snd];
    (destruct muted; cbn [fst snd lastMuteTime];
     [repeat split |]);
    (destruct (now - lastMuteTime w <? MUTE_COOLDOWN)%Z; cbn [fst snd];
     [repeat split |]);
    (destruct (JS.gt (calculateVolume (x :: data)) DECIBEL_THRESHOLD);
     cbn [fst snd]; repeat split; try exact Hmon).
Qed.

Lemma bump_bump (j k : nat) (s : Session) : bump k (bump j s) = bump (j + k) s.
Proof. unfold bump. cbn [s_user s_audioStream volumeSampleCount]. f_equal. lia. Qed.

Lemma count_of_app (p : Obs -> bool) (t1 t2 : list Obs) :
  count_of p (t1 ++ t2) = (count_of p t1 + count_of p t2)%nat.
Proof. unfold count_of. rewrite List.filter_app. apply length_app. Qed.

(** X18. A run of frames with data on one session, while monitoring is
    enabled: the session's counter grows by the number of frames, its
    stream and member stay, the other closures are untouched, and the
    volume is logged once each time the counter reaches a multiple of
    ten. *)
Theorem sample_counter (AUTH : UserId) (sid : nat) (frames : list Frame)
        (s : Session) (w : World) :
  sessions w !! sid = Some s -> isMonitoring w = true ->
  Forall (fun f => f_data f <> []) frames ->
  sessions (exec (run AUTH (frame_events sid frames)) w)
    = <[sid := bump (length frames) s]> (sessions w)
  /\ (count_of is_log_volume (trace_of (run AUTH (frame_events sid frames)) w)
      + volumeSampleCount s / 10
      = (volumeSampleCount s + length frames) / 10)%nat.
Proof.
  intros Hs Hmon Hall. revert s w Hs Hmon.
  induction Hall as [| f frames Hf _ IH]; intros s w Hs Hmon.
  - cbn [frame_events map run length exec trace_of ret fst snd count_of List.filter].
    split.
    + symmetry. apply list_insert_id. rewrite Hs. f_equal.
      unfold bump. destruct s as [u a c]. cbn. f_equal. lia.
    + rewrite Nat.add_0_r. reflexivity.
  - cbn [frame_events map run handle length]. fold (frame_events sid frames).
    rewrite exec_bind, trace_of_bind, count_of_app.
    destruct (on_data_counts sid s (f_data f) (f_muted f) (f_now f) w Hs Hmon Hf)
      as (Hsess & Hmon1 & Hcount).
    set (w1 := exec (on_data sid (Some (f_data f)) (f_muted f) (f_now f)) w) in *.
    assert (sessions w1 !! sid = Some (bump 1 s)) as Hs1.
    { rewrite Hsess. apply list_lookup_insert_eq. eapply lookup_lt_Some, Hs. }
    destruct (IH (bump 1 s) w1 Hs1 Hmon1) as [IH1 IH2].
    split.
    + rewrite IH1, Hsess, list_insert_insert_eq, bump_bump. reflexivity.
    + rewrite Hcount. cbn [bump volumeSampleCount] in IH2.
      replace (volumeSampleCount s + 1)%nat with (S (volumeSampleCount s)) in IH2 by lia.
      rewrite div_succ_10 in IH2.
      replace (volumeSampleCount s + S (length frames))%nat
        with (S (volumeSampleCount s) + length frames)%nat by lia.
      lia.
Qed.

Lemma sample_counter_witness :
  let frames := repeat {| f_data := Sample.quiet_frame; f_muted := false; f_now := 10000 |} 25 in
  sessions (exec (run Sample.subject (frame_events 0 frames)) Sample.monitoring)
    = <[0%nat := bump 25 {| s_user := Sample.member; s_audioStream := 7;
                            volumeSampleCount := 0 |}]> (sessions Sample.monitoring)
  /\ (count_of is_log_volume
        (trace_of (run Sample.subject (frame_events 0 frames)) Sample.monitoring)
      + 0 / 10 = (0 + 25) / 10)%nat.
Proof.
  intros frames.
  apply (sample_counter Sample.subject 0 frames
           {| s_user := Sample.member; s_audioStream := 7; volumeSampleCount := 0 |}
           Sample.monitoring).
  - reflexivity.
  - reflexivity.
  - subst frames. repeat constructor; discriminate.
Defined.

(** ** The [ready] handler *)

Lemma ready_loop_passed (AUTH : UserId) (before rest : list StartupGuild) (w : World) :
  Forall (passed AUTH) before ->
  ready_loop AUTH (before ++ rest) w = ready_loop AUTH rest w.
Proof.
  induction 1 as [| g before [Hf Ht] _ IH]; [reflexivity |].
  cbn [app ready_loop]. rewrite Hf. unfold target_channel in Ht.
  destruct (cache_get (sg_guild g) AUTH) as [member |]; [rewrite Ht |]; exact IH.
Qed.

(** X19. At start-up the bot visits the guilds in order and follows the
    designated member into the first guild whose cache shows the member in
    a voice channel; the guilds after it are not visited. When a fetch
    rejects, or when no guild shows the member in a voice channel, nothing
    is joined and the state is unchanged. *)
Theorem ready_joins_first_match (AUTH : UserId) (before after : list StartupGuild)
        (g : StartupGuild) (w : World) :
  Forall (passed AUTH) before ->
  (forall channel,
     sg_fetch_rejects g = false -> target_channel AUTH (sg_guild g) = Some channel ->
     exec (on_ready AUTH (before ++ g :: after)) w
       = exec (joinAndMonitor channel (sg_guild g)) w
     /\ connection_calls (trace_of (on_ready AUTH (before ++ g :: after)) w)
        = connection_calls (trace_of (joinAndMonitor channel (sg_guild g)) w))
  /\ (sg_fetch_rejects g = true ->
      exec (on_ready AUTH (before ++ g :: after)) w = w
      /\ connection_calls (trace_of (on_ready AUTH (before ++ g :: after)) w) = [])
  /\ (exec (on_ready AUTH before) w = w
      /\ connection_calls (trace_of (on_ready AUTH before) w) = []).
Proof.
  intros Hbefore.
  unfold on_ready, exec, trace_of, bind, emit. cbn [fst snd].
  rewrite (ready_loop_passed AUTH before (g :: after) w Hbefore).
  split; [| split].
  - intros channel Hf Ht. cbn [ready_loop]. rewrite Hf.
    unfold target_channel in Ht.
    destruct (cache_get (sg_guild g) AUTH) as [member |]; [| discriminate Ht].
    rewrite Ht. unfold bind, emit, ret. cbn [fst snd].
    destruct (joinAndMonitor channel (sg_guild g) w) as [[r w'] t]. cbn [fst snd].
    split; [reflexivity |].
    unfold connection_calls. cbn [map List.filter eff app].
    rewrite app_nil_r. reflexivity.
  - intros Hf. cbn [ready_loop]. rewrite Hf. split; reflexivity.
  - rewrite <- (app_nil_r before), (ready_loop_passed AUTH before [] w Hbefore).
    split; reflexivity.
Qed.

Lemma ready_joins_first_match_witness :
  let empty := {| sg_guild := {| guild_id := "other"; guild_name := "Other";
                                 members_cache := []; join_throws := false |};
                  sg_fetch_rejects := false |} in
  let home := {| sg_guild := {| guild_id := "guild"; guild_name := "Guild";
                                members_cache :=
                                  [{| member_id := Sample.subject; displayName := "Subject";
                                      serverMute := false;
                                      voice_channel := Some Sample.lobby |}];
                                join_throws := false |};
                 sg_fetch_rejects := false |} in
  exec (on_ready Sample.subject ([empty] ++ home :: [empty])) initial_world
  = exec (joinAndMonitor Sample.lobby (sg_guild home)) initial_world.
Proof.
  intros empty home.
  apply (proj1 (ready_joins_first_match Sample.subject [empty] [empty] home initial_world
                  ltac:(repeat constructor)) Sample.lobby); reflexivity.
Defined.

(** ** A session from start to end *)

(** X20. A first [processAudio] for a member, while monitoring is enabled,
    subscribes once, registers the stream that [subscribe] returned and
    adds one closure with its counter at 0. When that session's stream ends,
    or its decoder fails, the registry is again what it was before the
    start, and the stream was never destroyed. *)
Theorem session_start_then_end (receiver : Receiver) (user : Member) (w : World) :
  isMonitoring w = true -> activeStreams w !! member_id user = None ->
  let w1 := exec (processAudio receiver user) w in
  let sid := length (sessions w) in
  activeStreams w1 = <[member_id user := subscribe receiver (member_id user)]> (activeStreams w)
  /\ sessions w1 = sessions w ++ [{| s_user := user;
                                    s_audioStream := subscribe receiver (member_id user);
                                    volumeSampleCount := 0 |}]
  /\ count_of is_subscribe (trace_of (processAudio receiver user) w) = 1%nat
  /\ activeStreams (exec (on_end sid) w1) = activeStreams w
  /\ activeStreams (exec (on_error sid) w1) = activeStreams w
  /\ (forall h, releases h (trace_of (on_end sid) w1) = 0%nat
                /\ releases h (trace_of (on_error sid) w1) = 0%nat).
Proof.
  intros Hmon Hnone w1 sid.
  assert (w1 = exec (set_sessions
                       (sessions w ++ [{| s_user := user;
                                          s_audioStream := subscribe receiver (member_id user);
                                          volumeSampleCount := 0 |}]))
                    (exec (set_activeStreams
                             (<[member_id user := subscribe receiver (member_id user)]>
                                (activeStreams w))) w)) as Hw1.
  { subst w1. unfold processAudio, exec, bind, gets, emit, set_activeStreams, set_sessions.
    cbn [fst snd]. rewrite Hmon. cbn [negb fst snd].
    rewrite bool_decide_eq_false_2 by (rewrite Hnone; intros [x Hx]; discriminate Hx).
    cbn [fst snd activeStreams lastMuteTime isMonitoring voiceConnections sessions].
    rewrite Hmon. reflexivity. }
  assert (count_of is_subscribe (trace_of (processAudio receiver user) w) = 1%nat) as Hsub.
  { unfold processAudio, trace_of, count_of, bind, gets, emit, set_activeStreams, set_sessions.
    cbn [fst snd]. rewrite Hmon. cbn [negb fst snd].
    rewrite bool_decide_eq_false_2 by (rewrite Hnone; intros [x Hx]; discriminate Hx).
    reflexivity. }
  assert (sessions w1 !! sid
          = Some {| s_user := user; s_audioStream := subscribe receiver (member_id user);
                    volumeSampleCount := 0 |}) as Hs.
  { rewrite Hw1. cbn [exec set_sessions set_activeStreams fst snd sessions].
    subst sid. rewrite lookup_app_r by lia. rewrite Nat.sub_diag. reflexivity. }
  assert (activeStreams w1
          = <[member_id user := subscribe receiver (member_id user)]> (activeStreams w))
    as Ha by (rewrite Hw1; reflexivity).
  split; [exact Ha |]. split; [rewrite Hw1; reflexivity |]. split; [exact Hsub |].
  unfold on_end, on_error, exec, trace_of, releases, bind, gets, emit, ret, set_activeStreams.
  cbn [fst snd]. rewrite Hs. cbn [fst snd s_user]. rewrite Ha.
  rewrite !bool_decide_eq_true_2 by (rewrite lookup_insert_eq; eauto).
  cbn [fst snd activeStreams].
  rewrite delete_insert_id by exact Hnone.
  repeat split.
Qed.

Lemma session_start_then_end_witness :
  let w := exec (set_isMonitoring true) initial_world in
  let w1 := exec (processAudio Sample.receiver Sample.member) w in
  activeStreams w1 = <[Sample.subject := 7%nat]> (activeStreams w)
  /\ activeStreams (exec (on_end 0) w1) = activeStreams w.
Proof.
  intros w w1.
  destruct (session_start_then_end Sample.receiver Sample.member w)
    as (Ha & _ & _ & He & _).
  - reflexivity.
  - reflexivity.
  - split; [exact Ha | exact He].
Defined.

(** ** Shutdown and disconnection *)

Lemma connection_calls_stopAllMonitoring (w : World) :
  connection_calls (trace_of stopAllMonitoring w) = [].
Proof.
  unfold trace_of. rewrite stopAllMonitoring_run. cbn [snd].
  unfold connection_calls. cbn [map List.filter obs eff].
  induction (map_to_list (activeStreams w)) as [| e l IH]; [reflexivity |].
  cbn [map List.filter obs eff]. exact IH.
Qed.

(** X21. SIGINT, from any state, also in the middle of a run: the state is
    the one [stopAllMonitoring] leaves, the events after the signal are not
    handled, every registered stream is destroyed, the last two calls are
    [client.destroy()] and [process.exit(0)], and no voice connection is
    destroyed by the handler. *)
Theorem sigint_shuts_down (AUTH : UserId) (rest : list Event) (w : World) :
  exec (run AUTH (Sigint :: rest)) w = stopped w
  /\ trace_of (run AUTH (Sigint :: rest)) w = trace_of on_sigint w
  /\ (forall u h, activeStreams w !! u = Some h ->
        (1 <= releases h (trace_of on_sigint w))%nat)
  /\ (exists t, map eff (trace_of on_sigint w)
                = ConsoleLog "[SHUTDOWN] Bot is shutting down, cleaning up connections..."
                  :: t ++ [ClientDestroy; ProcessExit 0])
  /\ connection_calls (trace_of on_sigint w) = [].
Proof.
  cbn [run].
  assert (on_sigint w
          = (tt, stopped w,
             obs (ConsoleLog "[SHUTDOWN] Bot is shutting down, cleaning up connections...") w
             :: trace_of stopAllMonitoring w
                ++ [obs ClientDestroy (stopped w); obs (ProcessExit 0) (stopped w)])) as Hrun.
  { unfold on_sigint, bind, emit, trace_of. rewrite stopAllMonitoring_run. reflexivity. }
  assert (exec on_sigint w = stopped w) as He by (unfold exec; rewrite Hrun; reflexivity).
  assert (trace_of on_sigint w
          = [obs (ConsoleLog "[SHUTDOWN] Bot is shutting down, cleaning up connections...") w]
            ++ trace_of stopAllMonitoring w
            ++ [obs ClientDestroy (stopped w); obs (ProcessExit 0) (stopped w)]) as Ht
    by (unfold trace_of at 1; rewrite Hrun; reflexivity).
  split; [exact He |]. split; [reflexivity |]. rewrite Ht. split; [| split].
  - intros u h Hu. rewrite !releases_app.
    pose proof (stopAllMonitoring_releases_registered u h w Hu). lia.
  - exists (map eff (trace_of stopAllMonitoring w)).
    rewrite !map_app. reflexivity.
  - rewrite !connection_calls_app, connection_calls_stopAllMonitoring. reflexivity.
Qed.

Lemma sigint_shuts_down_witness :
  (1 <= releases 7 (trace_of on_sigint Sample.monitoring))%nat.
Proof.
  apply (proj1 (proj2 (proj2 (sigint_shuts_down Sample.subject [] Sample.monitoring)))
           Sample.subject 7%nat).
  reflexivity.
Defined.

(** X22. A connection state change stops all monitoring exactly when the
    new status is [disconnected]; any other status changes nothing. In both
    cases the listener destroys no connection and joins no channel. *)
Theorem connection_state_change (newStatus : string) (w : World) :
  (newStatus = "disconnected" -> exec (on_stateChange newStatus) w = stopped w)
  /\ (newStatus <> "disconnected" ->
      on_stateChange newStatus w
      = (tt, w, [obs (ConsoleLog "[CONNECTION] Connection state changed") w]))
  /\ connection_calls (trace_of (on_stateChange newStatus) w) = [].
Proof.
  split; [| split].
  - intros ->. unfold on_stateChange.
    change (bool_decide ("disconnected" = "disconnected")) with true.
    unfold exec, bind, emit. rewrite stopAllMonitoring_run. reflexivity.
  - intros Hne. unfold on_stateChange.
    rewrite bool_decide_eq_false_2 by exact Hne. reflexivity.
  - unfold on_stateChange. case_bool_decide; [| reflexivity].
    rewrite !trace_of_bind, !connection_calls_app, connection_calls_stopAllMonitoring.
    reflexivity.
Qed.

Lemma connection_state_change_witness :
  exec (on_stateChange "disconnected") Sample.monitoring = stopped Sample.monitoring
  /\ on_stateChange "ready" Sample.monitoring
     = (tt, Sample.monitoring,
        [obs (ConsoleLog "[CONNECTION] Connection state changed") Sample.monitoring]).
Proof.
  destruct (connection_state_change "disconnected" Sample.monitoring) as (H1 & _ & _).
  destruct (connection_state_change "ready" Sample.monitoring) as (_ & H2 & _).
  split; [apply H1; reflexivity | apply H2; discriminate].
Defined.

(** ** What the frame handler leaves alone *)

Lemma on_data_state (sid : nat) (chunk : option (list Z)) (muted : bool)
      (now : Z) (w : World) :
  wp (on_data sid chunk muted now)
     (fun _ w' => activeStreams w' = activeStreams w
                  /\ isMonitoring w' = isMonitoring w
                  /\ voiceConnections w' = voiceConnections w
                  /\ length (sessions w') = length (sessions w))
     (fun o => is_join o = false /\ is_connection_destroy o = false
               /\ is_unmute o = false) w.
Proof.
  unfold on_data. wp_run; repeat split; try reflexivity; apply length_insert.
Qed.

Lemma on_data_enabled_no_destroy (sid : nat) (chunk : option (list Z)) (muted : bool)
      (now : Z) (w : World) (h : Handle) :
  isMonitoring w = true ->
  releases h (trace_of (on_data sid chunk muted now) w) = 0%nat.
Proof.
  intros Hmon.
  cut (wp (on_data sid chunk muted now) (fun _ _ => True)
          (fun o => is_destroy_of h o = false) w).
  { intros [_ H]. unfold releases.
    induction H as [| o t Ho _ IH]; [reflexivity |].
    cbn [List.filter]. rewrite Ho. exact IH. }
  unfold on_data. wp_run; try exact Logic.I; try reflexivity.
  rewrite Hmon in *. discriminate.
Qed.

Lemma on_data_one_destroy (sid : nat) (chunk : option (list Z)) (muted : bool)
      (now : Z) (w : World) (h : Handle) :
  (releases h (trace_of (on_data sid chunk muted now) w) <= 1)%nat.
Proof.
  destruct (isMonitoring w) eqn:Hmon.
  - rewrite on_data_enabled_no_destroy by exact Hmon. lia.
  - destruct (sessions w !! sid) as [s |] eqn:Hs.
    + destruct (on_data_disabled w sid s chunk muted now Hs Hmon) as [_ Ht].
      unfold releases, is_destroy_of.
      rewrite (count_by_effects
                 (fun e => match e with
                           | StreamDestroy h' => bool_decide (h' = h)
                           | _ => false
                           end)), Ht.
      cbn [List.filter]. destruct (bool_decide _); cbn [length]; lia.
    + unfold on_data, trace_of, bind, gets, ret. cbn [fst snd]. rewrite Hs.
      cbn. lia.
Qed.

Lemma forall_count_zero (p : Obs -> bool) (t : list Obs) :
  Forall (fun o => p o = false) t -> count_of p t = 0%nat.
Proof.
  unfold count_of. induction 1 as [| o t Ho _ IH]; [reflexivity |].
  cbn [List.filter]. rewrite Ho. exact IH.
Qed.

Lemma forall_no_connection_calls (t : list Obs) :
  Forall keeps_connection t -> connection_calls t = [].
Proof.
  unfold connection_calls.
  induction 1 as [| o t [Hj Hd] _ IH]; [reflexivity |].
  cbn [map List.filter]. unfold is_join in Hj. unfold is_connection_destroy in Hd.
  destruct (eff o); try exact IH; discriminate.
Qed.

(** X23. The frame handler never changes the registry, [isMonitoring] or
    the connections, never adds or removes a closure, never joins a
    channel, never destroys a connection and never requests an unmute. It
    destroys at most one stream, and none while monitoring is enabled. *)
Theorem frame_handler_frame (sid : nat) (chunk : option (list Z)) (muted : bool)
        (now : Z) (w : World) :
  activeStreams (exec (on_data sid chunk muted now) w) = activeStreams w
  /\ isMonitoring (exec (on_data sid chunk muted now) w) = isMonitoring w
  /\ voiceConnections (exec (on_data sid chunk muted now) w) = voiceConnections w
  /\ length (sessions (exec (on_data sid chunk muted now) w)) = length (sessions w)
  /\ connection_calls (trace_of (on_data sid chunk muted now) w) = []
  /\ count_of is_unmute (trace_of (on_data sid chunk muted now) w) = 0%nat
  /\ (forall h, (releases h (trace_of (on_data sid chunk muted now) w) <= 1)%nat)
  /\ (isMonitoring w = true ->
      forall h, releases h (trace_of (on_data sid chunk muted now) w) = 0%nat).
Proof.
  destruct (on_data_state sid chunk muted now w) as [(Ha & Hm & Hc & Hs) Ht].
  split; [exact Ha |]. split; [exact Hm |]. split; [exact Hc |]. split; [exact Hs |].
  split; [| split; [| split]].
  - apply forall_no_connection_calls. eapply Forall_impl; [exact Ht |].
    intros o (Hj & Hd & _). split; assumption.
  - apply forall_count_zero. eapply Forall_impl; [exact Ht |].
    intros o (_ & _ & Hu). exact Hu.
  - intros h. apply on_data_one_destroy.
  - intros Hmon h. apply on_data_enabled_no_destroy, Hmon.
Qed.

Lemma frame_handler_frame_witness :
  releases 7 (trace_of (on_data 0 (Some Sample.loud_frame) false 10000)
                       Sample.monitoring) = 0%nat.
Proof.
  apply (proj2 (proj2 (proj2 (proj2 (proj2 (proj2 (proj2
           (frame_handler_frame 0 (Some Sample.loud_frame) false 10000
              Sample.monitoring)))))))).
  reflexivity.
Defined.

(** ** From the join of the member to the first mute *)

(** The join case runs [joinAndMonitor] and nothing else that changes the
    state. *)
Lemma join_event_run (AUTH : UserId) (oldState newState : VoiceState)
      (channel : Channel) (w : World) :
  vs_member_id newState = AUTH \/ vs_member_id oldState = AUTH ->
  vs_channel oldState = None -> vs_channel newState = Some channel ->
  exec (on_voiceStateUpdate AUTH oldState newState) w
  = exec (joinAndMonitor channel (vs_guild newState)) w.
Proof.
  intros Hwho Hold Hnew. unfold on_voiceStateUpdate.
  rewrite (subject_event _ _ _ Hwho), Hold, Hnew.
  rewrite !exec_bind. reflexivity.
Qed.

(** The state after a first [processAudio] while monitoring is enabled. *)
Lemma session_start_state (receiver : Receiver) (user : Member) (w : World) :
  isMonitoring w = true -> activeStreams w !! member_id user = None ->
  activeStreams (exec (processAudio receiver user) w)
    = <[member_id user := subscribe receiver (member_id user)]> (activeStreams w)
  /\ sessions (exec (processAudio receiver user) w)
     = sessions w ++ [{| s_user := user;
                         s_audioStream := subscribe receiver (member_id user);
                         volumeSampleCount := 0 |}]
  /\ isMonitoring (exec (processAudio receiver user) w) = true
  /\ lastMuteTime (exec (processAudio receiver user) w) = lastMuteTime w
  /\ voiceConnections (exec (processAudio receiver user) w) = voiceConnections w.
Proof.
  intros Hmon Hnone.
  unfold processAudio, exec, bind, gets, emit, set_activeStreams, set_sessions.
  cbn [fst snd]. rewrite Hmon. cbn [negb fst snd].
  rewrite bool_decide_eq_false_2 by (rewrite Hnone; intros [x Hx]; discriminate Hx).
  cbn [fst snd activeStreams lastMuteTime isMonitoring voiceConnections sessions].
  repeat split; exact Hmon.
Qed.

Lemma frame_state (sid : nat) (chunk : option (list Z)) (muted : bool)
      (now : Z) (w : World) :
  activeStreams (exec (on_data sid chunk muted now) w) = activeStreams w
  /\ isMonitoring (exec (on_data sid chunk muted now) w) = isMonitoring w
  /\ voiceConnections (exec (on_data sid chunk muted now) w) = voiceConnections w.
Proof.
  destruct (on_data_state sid chunk muted now w) as [(Ha & Hm & Hc & _) _].
  repeat split; assumption.
Qed.

(** X24. From the initial state: the designated member joins a channel of a
    guild where joining does not throw, starts to speak while in the guild's
    cache, and a loud frame arrives at a time not less than MUTE_COOLDOWN.
    Then the bot is connected to that channel, the member is registered on
    the stream that [subscribe] returned, and the run requests exactly one
    mute, for the designated member, with [lastMuteTime] set to the time of
    the frame. *)
Theorem follow_speak_mute (AUTH : UserId) (oldState newState : VoiceState)
        (channel : Channel) (receiver : Receiver) (member : Member)
        (data : list Z) (now : Z) :
  vs_member_id newState = AUTH -> vs_channel oldState = None ->
  vs_channel newState = Some channel -> join_throws (vs_guild newState) = false ->
  cache_get (vs_guild newState) AUTH = Some member ->
  loud data -> MUTE_COOLDOWN <= now ->
  let events := [VoiceStateUpdate oldState newState;
                 SpeakingStart (vs_guild newState) receiver AUTH;
                 DecodedFrame 0 (Some data) false now] in
  let w := exec (run AUTH events) initial_world in
  voiceConnections w = {[guild_id (vs_guild newState) := channel_id channel]}
  /\ activeStreams w = {[AUTH := subscribe receiver AUTH]}
  /\ isMonitoring w = true
  /\ lastMuteTime w = now
  /\ map eff (mutes (trace_of (run AUTH events) initial_world))
     = [SetMute AUTH true "Noise level too high!"].
Proof.
  intros Hwho Hold Hnew Hj Hcache Hloud Hnow events w.
  pose proof (cache_get_id _ _ _ Hcache) as Hid.
  set (g := vs_guild newState) in *.
  (* the join *)
  set (w1 := exec (handle AUTH (VoiceStateUpdate oldState newState)) initial_world).
  assert (voiceConnections w1 = {[guild_id g := channel_id channel]}
          /\ isMonitoring w1 = true /\ activeStreams w1 = ∅
          /\ lastMuteTime w1 = 0 /\ sessions w1 = []) as (Hc1 & Hm1 & Ha1 & Hl1 & Hs1).
  { subst w1. cbn [handle].
    rewrite (join_event_run AUTH oldState newState channel initial_world
               (or_introl Hwho) Hold Hnew). fold g.
    destruct (joinAndMonitor_fresh channel g initial_world)
      as (_ & Hc & Hm & Ha & Hl & Hs & _); [| exact Hj |].
    - cbn [initial_world voiceConnections]. rewrite lookup_empty. discriminate.
    - rewrite Hc, Hm, Ha, Hl, Hs. repeat split. }
  assert (mutes (trace_of (handle AUTH (VoiceStateUpdate oldState newState)) initial_world)
          = []) as Hq1.
  { pose proof (handle_quiet AUTH (VoiceStateUpdate oldState newState) initial_world
                  eq_refl) as [H _].
    unfold mute_times in H. apply map_eq_nil in H. exact H. }
  (* the first speech *)
  set (w2 := exec (handle AUTH (SpeakingStart g receiver AUTH)) w1).
  assert (w2 = exec (processAudio receiver member) w1) as Hw2.
  { subst w2. cbn [handle]. rewrite exec_bind.
    change (exec (gets voiceConnections) w1) with w1.
    change (result_of (gets voiceConnections) w1) with (voiceConnections w1).
    rewrite Hc1, bool_decide_eq_true_2 by (rewrite lookup_singleton_eq; eauto).
    unfold on_speaking_start. rewrite exec_bind.
    change (exec (gets isMonitoring) w1) with w1.
    change (result_of (gets isMonitoring) w1) with (isMonitoring w1).
    rewrite Hm1, bool_decide_eq_true_2 by reflexivity. cbn [andb].
    rewrite Hcache, exec_bind. reflexivity. }
  assert (mutes (trace_of (handle AUTH (SpeakingStart g receiver AUTH)) w1) = []) as Hq2.
  { pose proof (handle_quiet AUTH (SpeakingStart g receiver AUTH) w1 eq_refl) as [H _].
    unfold mute_times in H. apply map_eq_nil in H. exact H. }
  destruct (session_start_state receiver member w1) as (Ha2 & Hs2 & Hrest);
    [exact Hm1 | rewrite Ha1; apply lookup_empty |].
  rewrite <- Hw2 in Ha2, Hs2, Hrest. destruct Hrest as (Hm2 & Hl2 & Hc2).
  rewrite Hid, Ha1, Hs1 in *. cbn [app] in Hs2.
  (* the loud frame *)
  assert (data <> []) as Hne by (apply loud_nonempty, Hloud).
  destruct (on_data_mutes w2 0
              {| s_user := member; s_audioStream := subscribe receiver AUTH;
                 volumeSampleCount := 0 |} data now) as (Hl3 & o & Ho & Heff & _);
    [rewrite Hs2; reflexivity | exact Hm2 | exact Hne | exact Hloud
    | rewrite Hl2, Hl1; lia |].
  cbn [s_user] in Heff. rewrite Hid in Heff.
  destruct (frame_state 0 (Some data) false now w2) as (Ha3 & Hm3 & Hc3).
  subst w events. cbn [run].
  rewrite !exec_bind, !trace_of_bind, !mutes_app.
  fold w1. fold w2. rewrite Hq1, Hq2.
  change (handle AUTH (DecodedFrame 0 (Some data) false now))
    with (on_data 0 (Some data) false now).
  rewrite Ho. cbn [app map exec trace_of ret fst snd mutes List.filter].
  rewrite Ha3, Hm3, Hc3, Hl3, Ha2, Hm2, Hc2, Hc1, Heff.
  repeat split.
Qed.

Lemma follow_speak_mute_witness :
  let events := [VoiceStateUpdate (Sample.voice None) (Sample.voice (Some Sample.lobby));
                 SpeakingStart Sample.guild Sample.receiver Sample.subject;
                 DecodedFrame 0 (Some Sample.loud_frame) false 10000] in
  let w := exec (run Sample.subject events) initial_world in
  voiceConnections w = {["guild" := "lobby"]}
  /\ activeStreams w = {[Sample.subject := 7%nat]}
  /\ isMonitoring w = true
  /\ lastMuteTime w = 10000
  /\ map eff (mutes (trace_of (run Sample.subject events) initial_world))
     = [SetMute Sample.subject true "Noise level too high!"].
Proof.
  apply (follow_speak_mute Sample.subject (Sample.voice None)
           (Sample.voice (Some Sample.lobby)) Sample.lobby Sample.receiver
           Sample.member Sample.loud_frame 10000).
  - reflexivity.
  - reflexivity.
  - reflexivity.
  - reflexivity.
  - reflexivity.
  - exact loud_frame_is_loud.
  - vm_compute. discriminate.
Defined.
